(** * MomentumStrategy: a shallow embedding of strategies/MomentumStrategy.py

    The strategy works on pandas data frames of IEEE-754 binary64 numbers.
    Numbers are modelled with the [spec_float] type of the core library at
    precision 53 and exponent bound 1024, so that NaN, the infinities and
    rounding behave as they do in Python and numpy.  Data frames are finite
    maps from column names to columns.  TA-Lib indicators and the numeric
    reductions of pandas (mean, standard deviation) are external to the
    repository and enter as section variables. *)

From Stdlib Require Import ZArith Bool Lia.
From Corelib Require Import SpecFloat.
From stdpp Require Import base option list gmap strings.

(** ** Binary64 numbers *)

Module F64.

Definition prec : Z := 53.
Definition emax : Z := 1024.

Abbreviation float := spec_float.

Definition nan : float := S754_nan.
Definition of_Z (z : Z) : float := binary_normalize prec emax z 0 false.
Definition add : float -> float -> float := SFadd prec emax.
Definition sub : float -> float -> float := SFsub prec emax.
Definition mul : float -> float -> float := SFmul prec emax.
Definition div : float -> float -> float := SFdiv prec emax.
Definition neg : float -> float := SFopp.

(** A decimal literal [n/d] of the source, e.g. [0.015] is [lit 15 1000]:
    Python reads a literal as the binary64 number nearest to it, which is what
    the correctly rounded division of two exactly represented integers gives. *)
Definition lit (n d : Z) : float := div (of_Z n) (of_Z d).

(** Python's comparison operators on floats; each one is false on NaN. *)
Definition lt (x y : float) : bool := SFltb x y.
Definition le (x y : float) : bool := SFleb x y.
Definition gt (x y : float) : bool := SFltb y x.
Definition ge (x y : float) : bool := SFleb y x.
Definition eqb (x y : float) : bool := SFeqb x y.

Definition is_nan (x : float) : bool :=
  match x with S754_nan => true | _ => false end.

(** Python's built-in [min] and [max] over positional arguments keep the first
    argument unless a later one compares strictly smaller (larger). *)
Definition py_min (a b : float) : float := if lt b a then b else a.
Definition py_max (a b : float) : float := if gt b a then b else a.
Definition py_min3 (a b c : float) : float := py_min (py_min a b) c.

(** *** The order on non-NaN numbers

    [key] sends a number to a triple of integers whose lexicographic order is
    the order [SFcompare] computes. *)
Definition key (x : float) : option (Z * Z * Z) :=
  match x with
  | S754_nan => None
  | S754_infinity true => Some (-2, 0, 0)%Z
  | S754_finite true m e => Some (-1, - e, - Z.pos m)%Z
  | S754_zero _ => Some (0, 0, 0)%Z
  | S754_finite false m e => Some (1, e, Z.pos m)%Z
  | S754_infinity false => Some (2, 0, 0)%Z
  end.

Definition key_lt (k k' : Z * Z * Z) : Prop :=
  let '(a, b, c) := k in
  let '(a', b', c') := k' in
  (a < a' \/ (a = a' /\ (b < b' \/ (b = b' /\ c < c'))))%Z.

Definition key_le (k k' : Z * Z * Z) : Prop :=
  let '(a, b, c) := k in
  let '(a', b', c') := k' in
  (a < a' \/ (a = a' /\ (b < b' \/ (b = b' /\ c <= c'))))%Z.

End F64.

Import F64.

(** ** pandas: Series and DataFrame

    A Series is a column of binary64 numbers over the frame's positional index
    [0 .. nrows-1]; a boolean Series (a mask) is a column of booleans.  A
    DataFrame maps column names to columns.  Integer columns (the 0/1 result of
    [np.where]) are stored as the floats of the same value, which is what the
    comparisons of the source see. *)

Abbreviation Series := (list float).
Abbreviation Mask := (list bool).

Record DataFrame := mkDataFrame {
  nrows : nat;
  columns : gmap string (list float)
}.

(** Every column spans the index. *)
Definition well_formed (df : DataFrame) : Prop :=
  map_Forall (fun _ (s : list float) => length s = nrows df) (columns df).

(** [df[c][i]] *)
Definition cell (df : DataFrame) (c : string) (i : nat) : option float :=
  s ← columns df !! c; s !! i.

Module Pd.

(** [s < c], [s > c], [s == c] against a scalar, and [s1 < s2] etc. between
    two Series on the same index. *)
Definition cmp_scalar (op : float -> float -> bool) (s : Series) (c : float) : Mask :=
  (fun x => op x c) <$> s.
Definition cmp_series (op : float -> float -> bool) (s1 s2 : Series) : Mask :=
  zip_with op s1 s2.

(** [m1 & m2] and [m1 | m2] *)
Definition mand (m1 m2 : Mask) : Mask := zip_with andb m1 m2.
Definition mor (m1 m2 : Mask) : Mask := zip_with orb m1 m2.

(** [s.shift(k)]: the values move [k] positions down, NaN enters on top. *)
Definition shift (k : nat) (s : Series) : Series :=
  take (length s) (replicate k nan ++ s).

(** Arithmetic between Series on the same index, and with a scalar. *)
Definition ssub (s1 s2 : Series) : Series := zip_with sub s1 s2.
Definition sdiv (s1 s2 : Series) : Series := zip_with div s1 s2.
Definition ssub_scalar (s : Series) (c : float) : Series := (fun x => sub x c) <$> s.

(** [np.where(m, 1, 0)] *)
Definition np_where (m : Mask) (a b : float) : Series :=
  (fun x : bool => if x then a else b) <$> m.

(** [df[c] = s] for a Series [s] on a positional index: pandas aligns [s]
    with the frame's index, dropping what lies beyond it and filling what is
    missing with NaN. *)
Definition align (n : nat) (s : Series) : Series :=
  take n s ++ replicate (n - length s) nan.

Definition setitem (df : DataFrame) (c : string) (s : Series) : DataFrame :=
  {| nrows := nrows df; columns := <[c := align (nrows df) s]> (columns df) |}.

(** [df[c] = a] for a numpy array [a]: a length other than the frame's raises
    ValueError. *)
Definition setitem_array (df : DataFrame) (c : string) (a : Series) : option DataFrame :=
  if decide (length a = nrows df)
  then Some {| nrows := nrows df; columns := <[c := a]> (columns df) |}
  else None.

(** [df.loc[m, c] = v] for a mask [m] over the frame's index: the rows selected
    by [m] receive [v]; a column that does not exist yet is created with NaN in
    the other rows. *)
Definition loc_set (df : DataFrame) (m : Mask) (c : string) (v : float) : DataFrame :=
  let old := default (replicate (nrows df) nan) (columns df !! c) in
  {| nrows := nrows df;
     columns := <[c := zip_with (fun (b : bool) o => if b then v else o) m old]> (columns df) |}.

(** [s.ffill()]: a NaN takes the last value before it that is not NaN. *)
Fixpoint ffill_from (prev : float) (s : Series) : Series :=
  match s with
  | [] => []
  | x :: s' => let y := if is_nan x then prev else x in y :: ffill_from y s'
  end.
Definition ffill (s : Series) : Series := ffill_from nan s.

(** [s.pct_change(periods=k)]: the forward-filled series divided by itself
    [k] positions earlier, minus 1. *)
Definition pct_change (k : nat) (s : Series) : Series :=
  ssub_scalar (sdiv (ffill s) (shift k (ffill s))) (of_Z 1).

(** [s.dropna()] *)
Definition dropna (s : Series) : Series := filter (fun x => is_nan x = false) s.

(** The window of [w] values that ends at position [i]. *)
Definition window (w : nat) (s : Series) (i : nat) : list float :=
  take w (drop (S i - w) s).

(** [s.rolling(w).agg()]: with the default [min_periods = w] a position holds
    NaN until [w] values are behind it and whenever its window contains a NaN;
    otherwise it holds what the aggregation gives there.  [agg s i] is the
    aggregate of the window ending at [i]. *)
Definition rolling (w : nat) (agg : Series -> nat -> float) (s : Series) : Series :=
  (fun i => if decide (w <= S i)
            then if existsb is_nan (window w s i) then nan else agg s i
            else nan) <$> seq 0 (length s).

(** Maximum and minimum of a window without NaN. *)
Definition maximum (l : list float) : float :=
  match l with
  | [] => nan
  | x :: l' => foldl (fun a b => if gt b a then b else a) x l'
  end.
Definition minimum (l : list float) : float :=
  match l with
  | [] => nan
  | x :: l' => foldl (fun a b => if lt b a then b else a) x l'
  end.
Definition rolling_max (w : nat) (s : Series) : Series :=
  rolling w (fun s i => maximum (window w s i)) s.
Definition rolling_min (w : nat) (s : Series) : Series :=
  rolling w (fun s i => minimum (window w s i)) s.

(** [s.iloc[-1]]; IndexError on an empty Series is [None]. *)
Definition iloc_last (s : Series) : option float := last s.

End Pd.

Infix "&&&" := Pd.mand (at level 40, left associativity).
Infix "|||" := Pd.mor (at level 50, left associativity).

(** ** The strategy's parameters (class attributes of [MomentumStrategy]) *)

Record StrategyParameters := {
  macd_fast : Z;
  macd_slow : Z;
  macd_signal : Z;
  volume_factor : float;
  rsi_period : Z;
  rsi_oversold : Z;
  rsi_overbought : Z;
  exit_macd_threshold : float;
  base_leverage : Z;
  max_leverage : Z;
  volatility_threshold : float;
  stoploss : float
}.

Definition default_parameters : StrategyParameters := {|
  macd_fast := 12; macd_slow := 26; macd_signal := 9;
  volume_factor := lit 15 10;
  rsi_period := 14; rsi_oversold := 30; rsi_overbought := 70;
  exit_macd_threshold := of_Z 0;
  base_leverage := 10; max_leverage := 20;
  volatility_threshold := lit 5 100;
  stoploss := neg (lit 10 100)
|}.

(** The ranges declared by [IntParameter(low, high, ...)]. *)
Definition valid_parameters (p : StrategyParameters) : Prop :=
  (8 <= macd_fast p <= 16 /\ 20 <= macd_slow p <= 30 /\ 7 <= macd_signal p <= 12 /\
   10 <= rsi_period p <= 20 /\ 20 <= rsi_oversold p <= 40 /\
   60 <= rsi_overbought p <= 80 /\
   5 <= base_leverage p <= 20 /\ 10 <= max_leverage p <= 50)%Z.

(** ** Entry and exit signals *)

Section Signals.
Variable p : StrategyParameters.

Local Notation "s '<.' c" := (Pd.cmp_scalar lt s c) (at level 30).
Local Notation "s '>.' c" := (Pd.cmp_scalar gt s c) (at level 30).
Local Notation "s '==.' c" := (Pd.cmp_scalar eqb s c) (at level 30).
Local Notation "s '<..' t" := (Pd.cmp_series lt s t) (at level 30).
Local Notation "s '>..' t" := (Pd.cmp_series gt s t) (at level 30).

(** The condition of [dataframe.loc[(...), 'enter_long'] = 1]; a column the
    frame lacks raises KeyError, which is [None]. *)
Definition long_entry_mask (df : DataFrame) : option Mask :=
  macd_cross ← columns df !! "macd_cross";
  volume_ratio ← columns df !! "volume_ratio";
  price_momentum ← columns df !! "price_momentum";
  rsi ← columns df !! "rsi";
  close ← columns df !! "close";
  ema_20 ← columns df !! "ema_20";
  adx ← columns df !! "adx";
  stoch_k ← columns df !! "stoch_k";
  stoch_d ← columns df !! "stoch_d";
  williams_r ← columns df !! "williams_r";
  cci ← columns df !! "cci";
  bb_percent ← columns df !! "bb_percent";
  Some (macd_cross ==. of_Z 1 &&&
        volume_ratio >. volume_factor p &&&
        price_momentum >. lit 1 100 &&&
        rsi <. of_Z (rsi_overbought p) &&&
        rsi >. of_Z (rsi_oversold p) &&&
        close >.. ema_20 &&&
        adx >. of_Z 25 &&&
        stoch_k <. of_Z 80 &&&
        stoch_d <. of_Z 80 &&&
        williams_r >. of_Z (-20) &&&
        cci <. of_Z 100 &&&
        bb_percent <. lit 8 10).

(** The condition of [dataframe.loc[(...), 'enter_short'] = 1]. *)
Definition short_entry_mask (df : DataFrame) : option Mask :=
  macd_cross_down ← columns df !! "macd_cross_down";
  volume_ratio ← columns df !! "volume_ratio";
  price_momentum ← columns df !! "price_momentum";
  rsi ← columns df !! "rsi";
  close ← columns df !! "close";
  ema_20 ← columns df !! "ema_20";
  adx ← columns df !! "adx";
  stoch_k ← columns df !! "stoch_k";
  stoch_d ← columns df !! "stoch_d";
  williams_r ← columns df !! "williams_r";
  cci ← columns df !! "cci";
  bb_percent ← columns df !! "bb_percent";
  Some (macd_cross_down ==. of_Z 1 &&&
        volume_ratio >. volume_factor p &&&
        price_momentum <. neg (lit 1 100) &&&
        rsi >. of_Z (rsi_oversold p) &&&
        rsi <. of_Z (rsi_overbought p) &&&
        close <.. ema_20 &&&
        adx >. of_Z 25 &&&
        stoch_k >. of_Z 20 &&&
        stoch_d >. of_Z 20 &&&
        williams_r <. of_Z (-80) &&&
        cci >. of_Z (-100) &&&
        bb_percent >. lit 2 10).

(** The condition of [dataframe.loc[(...), 'exit_long'] = 1]. *)
Definition long_exit_mask (df : DataFrame) : option Mask :=
  macd_cross_down ← columns df !! "macd_cross_down";
  rsi ← columns df !! "rsi";
  bb_percent ← columns df !! "bb_percent";
  stoch_k ← columns df !! "stoch_k";
  stoch_d ← columns df !! "stoch_d";
  williams_r ← columns df !! "williams_r";
  cci ← columns df !! "cci";
  price_momentum ← columns df !! "price_momentum";
  Some (macd_cross_down ==. of_Z 1 |||
        rsi >. of_Z (rsi_overbought p) |||
        bb_percent >. lit 9 10 |||
        stoch_k >. of_Z 80 |||
        stoch_d >. of_Z 80 |||
        williams_r <. of_Z (-20) |||
        cci >. of_Z 100 |||
        price_momentum <. neg (lit 2 100)).

(** The condition of [dataframe.loc[(...), 'exit_short'] = 1]. *)
Definition short_exit_mask (df : DataFrame) : option Mask :=
  macd_cross ← columns df !! "macd_cross";
  rsi ← columns df !! "rsi";
  bb_percent ← columns df !! "bb_percent";
  stoch_k ← columns df !! "stoch_k";
  stoch_d ← columns df !! "stoch_d";
  williams_r ← columns df !! "williams_r";
  cci ← columns df !! "cci";
  price_momentum ← columns df !! "price_momentum";
  Some (macd_cross ==. of_Z 1 |||
        rsi <. of_Z (rsi_oversold p) |||
        bb_percent <. lit 1 10 |||
        stoch_k <. of_Z 20 |||
        stoch_d <. of_Z 20 |||
        williams_r >. of_Z (-80) |||
        cci <. of_Z (-100) |||
        price_momentum >. lit 2 100).

(** The frame after the two assignments of [populate_entry_trend]. *)
Definition entry_trend (df : DataFrame) : option DataFrame :=
  m_long ← long_entry_mask df;
  let df1 := Pd.loc_set df m_long "enter_long" (of_Z 1) in
  m_short ← short_entry_mask df1;
  Some (Pd.loc_set df1 m_short "enter_short" (of_Z 1)).

(** The frame after the two assignments of [populate_exit_trend]. *)
Definition exit_trend (df : DataFrame) : option DataFrame :=
  m_long ← long_exit_mask df;
  let df1 := Pd.loc_set df m_long "exit_long" (of_Z 1) in
  m_short ← short_exit_mask df1;
  Some (Pd.loc_set df1 m_short "exit_short" (of_Z 1)).

(** Python passes the frame by reference and [.loc[...] = 1] writes into the
    object it is given.  [heap] is the store of frame objects; both methods
    take the address of the frame, update the object at that address and
    return the same address ([return dataframe]). *)
Definition populate_entry_trend (h : gmap nat DataFrame) (dataframe : nat)
  : option (gmap nat DataFrame * nat) :=
  df ← h !! dataframe;
  df' ← entry_trend df;
  Some (<[dataframe := df']> h, dataframe).

Definition populate_exit_trend (h : gmap nat DataFrame) (dataframe : nat)
  : option (gmap nat DataFrame * nat) :=
  df ← h !! dataframe;
  df' ← exit_trend df;
  Some (<[dataframe := df']> h, dataframe).
End Signals.

(** A signal column holds 1 where the signal fired (NaN or nothing elsewhere). *)
Definition flag (df : DataFrame) (c : string) (i : nat) : bool :=
  match cell df c i with
  | Some x => eqb x (of_Z 1)
  | None => false
  end.

(** [df[c][i]] as a number: NaN where the frame has no such cell. *)
Definition value (df : DataFrame) (c : string) (i : nat) : float :=
  default nan (cell df c i).

(** The columns the signal rules read, and the columns they write. *)
Definition indicator_columns : list string :=
  ["close"; "macd_cross"; "macd_cross_down"; "volume_ratio"; "price_momentum";
   "rsi"; "ema_20"; "adx"; "stoch_k"; "stoch_d"; "williams_r"; "cci";
   "bb_percent"].

Definition signal_columns : list string :=
  ["enter_long"; "enter_short"; "exit_long"; "exit_short"].

(** An indicator frame: well formed, with the indicator columns and without
    signal columns. *)
Definition indicator_frame (df : DataFrame) : Prop :=
  well_formed df /\
  Forall (fun c => is_Some (columns df !! c)) indicator_columns /\
  Forall (fun c => columns df !! c = None) signal_columns.

#[global] Instance well_formed_dec df : Decision (well_formed df).
Proof. unfold well_formed. apply _. Defined.

#[global] Instance indicator_frame_dec df : Decision (indicator_frame df).
Proof. unfold indicator_frame. apply _. Defined.

(** The four conditions of the source read at one position [i]. *)
Section SignalsAt.
Variable p : StrategyParameters.
Variable df : DataFrame.
Variable i : nat.

Definition long_entry_at : bool :=
  eqb (value df "macd_cross" i) (of_Z 1) &&
  gt (value df "volume_ratio" i) (volume_factor p) &&
  gt (value df "price_momentum" i) (lit 1 100) &&
  lt (value df "rsi" i) (of_Z (rsi_overbought p)) &&
  gt (value df "rsi" i) (of_Z (rsi_oversold p)) &&
  gt (value df "close" i) (value df "ema_20" i) &&
  gt (value df "adx" i) (of_Z 25) &&
  lt (value df "stoch_k" i) (of_Z 80) &&
  lt (value df "stoch_d" i) (of_Z 80) &&
  gt (value df "williams_r" i) (of_Z (-20)) &&
  lt (value df "cci" i) (of_Z 100) &&
  lt (value df "bb_percent" i) (lit 8 10).

Definition short_entry_at : bool :=
  eqb (value df "macd_cross_down" i) (of_Z 1) &&
  gt (value df "volume_ratio" i) (volume_factor p) &&
  lt (value df "price_momentum" i) (neg (lit 1 100)) &&
  gt (value df "rsi" i) (of_Z (rsi_oversold p)) &&
  lt (value df "rsi" i) (of_Z (rsi_overbought p)) &&
  lt (value df "close" i) (value df "ema_20" i) &&
  gt (value df "adx" i) (of_Z 25) &&
  gt (value df "stoch_k" i) (of_Z 20) &&
  gt (value df "stoch_d" i) (of_Z 20) &&
  lt (value df "williams_r" i) (of_Z (-80)) &&
  gt (value df "cci" i) (of_Z (-100)) &&
  gt (value df "bb_percent" i) (lit 2 10).

Definition long_exit_at : bool :=
  eqb (value df "macd_cross_down" i) (of_Z 1) ||
  gt (value df "rsi" i) (of_Z (rsi_overbought p)) ||
  gt (value df "bb_percent" i) (lit 9 10) ||
  gt (value df "stoch_k" i) (of_Z 80) ||
  gt (value df "stoch_d" i) (of_Z 80) ||
  lt (value df "williams_r" i) (of_Z (-20)) ||
  gt (value df "cci" i) (of_Z 100) ||
  lt (value df "price_momentum" i) (neg (lit 2 100)).

Definition short_exit_at : bool :=
  eqb (value df "macd_cross" i) (of_Z 1) ||
  lt (value df "rsi" i) (of_Z (rsi_oversold p)) ||
  lt (value df "bb_percent" i) (lit 1 10) ||
  lt (value df "stoch_k" i) (of_Z 20) ||
  lt (value df "stoch_d" i) (of_Z 20) ||
  gt (value df "williams_r" i) (of_Z (-80)) ||
  lt (value df "cci" i) (of_Z (-100)) ||
  gt (value df "price_momentum" i) (lit 2 100).

(** The short entry as the specification words it: the mirror of the long
    entry with the pairing 80/20, -20/+20, 100/-100, 0.8/0.2. *)
Definition short_entry_spec : bool :=
  eqb (value df "macd_cross_down" i) (of_Z 1) &&
  gt (value df "volume_ratio" i) (volume_factor p) &&
  lt (value df "price_momentum" i) (neg (lit 1 100)) &&
  gt (value df "rsi" i) (of_Z (rsi_oversold p)) &&
  lt (value df "rsi" i) (of_Z (rsi_overbought p)) &&
  lt (value df "close" i) (value df "ema_20" i) &&
  gt (value df "adx" i) (of_Z 25) &&
  gt (value df "stoch_k" i) (of_Z 20) &&
  gt (value df "stoch_d" i) (of_Z 20) &&
  lt (value df "williams_r" i) (of_Z 20) &&
  gt (value df "cci" i) (of_Z (-100)) &&
  gt (value df "bb_percent" i) (lit 2 10).
End SignalsAt.

(** ** Custom stop-loss *)

(** The fields of [Trade] the strategy reads.  A datetime is its number of
    microseconds since the epoch, so that a [timedelta] is a number of
    microseconds as in Python. *)
Record Trade := {
  open_date_utc : Z;
  is_short : bool
}.

(** [td.total_seconds() < secs] for an integer [secs]: [total_seconds] is the
    microsecond count divided by 10^6 in binary64; that division is monotone
    and its results near a small integer number of seconds are far closer
    together than a microsecond, so the test is the test on microseconds. *)
Definition total_seconds_lt (td : Z) (secs : Z) : bool := (td <? secs * 1000000)%Z.

Definition custom_stoploss (p : StrategyParameters) (trade : Trade)
    (current_time : Z) (current_profit : float) : float :=
  if total_seconds_lt (current_time - open_date_utc trade) 600 then stoploss p
  else if is_short trade then
    if gt current_profit (lit 2 100) then lit 2 100
    else if gt current_profit (lit 1 100) then lit 15 1000
    else stoploss p
  else
    if gt current_profit (lit 2 100) then neg (lit 2 100)
    else if gt current_profit (lit 1 100) then neg (lit 15 1000)
    else stoploss p.

(** ** Dynamic leverage *)

Section Leverage.
Variable p : StrategyParameters.

(** [Series.std()] of pandas, the sample standard deviation; its summation
    order is pandas' own, so it stays a parameter. *)
Variable series_std : Series -> float.

(** Lines 355-364: the two volatility measures and their maximum. *)
Definition combined_volatility (dataframe : DataFrame) : option float :=
  close ← columns dataframe !! "close";
  let recent_returns := Pd.dropna (Pd.pct_change 1 close) in
  let volatility := series_std recent_returns in
  high ← columns dataframe !! "high";
  low ← columns dataframe !! "low";
  let atr := Pd.ssub (Pd.rolling_max 14 high) (Pd.rolling_min 14 low) in
  atr_volatility ←
    (if decide (0 < length atr)
     then a ← Pd.iloc_last atr; c ← Pd.iloc_last close; Some (div a c)
     else Some (lit 2 100));
  Some (py_max volatility atr_volatility).

(** Lines 366-375. *)
Definition leverage_multiplier (combined : float) : float :=
  if gt combined (volatility_threshold p) then lit 5 10
  else if gt combined (mul (volatility_threshold p) (lit 7 10)) then lit 75 100
  else of_Z 1.

(** Lines 377-383. *)
Definition final_leverage (combined max_lev : float) : float :=
  let calculated_leverage := mul (of_Z (base_leverage p)) (leverage_multiplier combined) in
  py_max (of_Z 1) (py_min3 calculated_leverage (of_Z (max_leverage p)) max_lev).

(** [leverage]; [dataframe] is the frame [self.dp.get_analyzed_dataframe]
    hands out, [max_lev] the [max_leverage] argument of the host. *)
Definition leverage (dataframe : DataFrame) (proposed_leverage max_lev : float)
  : option float :=
  if decide (nrows dataframe < 20)
  then Some (py_min proposed_leverage (of_Z (base_leverage p)))
  else
    combined ← combined_volatility dataframe;
    Some (final_leverage combined max_lev).
End Leverage.

(** A two-pass sample standard deviation, to run [leverage] on concrete
    frames. *)
Definition fsum (l : list float) : float := foldl add (of_Z 0) l.
Definition sample_std (s : Series) : float :=
  let n := Z.of_nat (length s) in
  if decide (n <= 1)%Z then nan
  else
    let m := div (fsum s) (of_Z n) in
    SFsqrt prec emax
      (div (fsum ((fun x => mul (sub x m) (sub x m)) <$> s)) (of_Z (n - 1))).

(** ** Indicators *)

Section Indicators.
Variable p : StrategyParameters.

(** TA-Lib's indicator functions (abstract API: a frame and periods in, Series
    on the frame's index out). *)
Variable ta_MACD : DataFrame -> Z -> Z -> Z -> Series * Series * Series.
Variable ta_RSI : DataFrame -> Z -> Series.
Variable ta_BBANDS : DataFrame -> Z -> Z -> Z -> Series * Series * Series.
Variable ta_EMA : DataFrame -> Z -> Series.
Variable ta_ADX : DataFrame -> Z -> Series.
Variable ta_STOCH : DataFrame -> Z -> Z -> Z -> Series * Series.
Variable ta_WILLR : DataFrame -> Z -> Series.
Variable ta_CCI : DataFrame -> Z -> Series.

(** The mean pandas reports for the complete window ending at a position. *)
Variable window_mean : Series -> nat -> float.

(** The assignments of [populate_indicators], block by block as the source
    groups them; a block that reads a column of the frame raises KeyError
    when the column is missing. *)

(** MACD *)
Definition macd_block (df : DataFrame) : DataFrame :=
  let '(macd, macdsignal, macdhist) :=
    ta_MACD df (macd_fast p) (macd_slow p) (macd_signal p) in
  let df := Pd.setitem df "macd" macd in
  let df := Pd.setitem df "macdsignal" macdsignal in
  Pd.setitem df "macdhist" macdhist.

(** RSI *)
Definition rsi_block (df : DataFrame) : DataFrame :=
  Pd.setitem df "rsi" (ta_RSI df (rsi_period p)).

(** Bollinger Bands *)
Definition bollinger_block (df : DataFrame) : option DataFrame :=
  let '(upperband, middleband, lowerband) := ta_BBANDS df 20 2 2 in
  let df := Pd.setitem df "bb_lowerband" lowerband in
  let df := Pd.setitem df "bb_middleband" middleband in
  let df := Pd.setitem df "bb_upperband" upperband in
  close ← columns df !! "close";
  bb_lowerband ← columns df !! "bb_lowerband";
  bb_upperband ← columns df !! "bb_upperband";
  let df := Pd.setitem df "bb_percent"
    (Pd.sdiv (Pd.ssub close bb_lowerband) (Pd.ssub bb_upperband bb_lowerband)) in
  bb_upperband ← columns df !! "bb_upperband";
  bb_lowerband ← columns df !! "bb_lowerband";
  bb_middleband ← columns df !! "bb_middleband";
  Some (Pd.setitem df "bb_width"
          (Pd.sdiv (Pd.ssub bb_upperband bb_lowerband) bb_middleband)).

(** Volume indicators *)
Definition volume_block (df : DataFrame) : option DataFrame :=
  volume ← columns df !! "volume";
  let df := Pd.setitem df "volume_mean" (Pd.rolling 20 window_mean volume) in
  volume ← columns df !! "volume";
  volume_mean ← columns df !! "volume_mean";
  Some (Pd.setitem df "volume_ratio" (Pd.sdiv volume volume_mean)).

(** Price momentum *)
Definition momentum_block (df : DataFrame) : option DataFrame :=
  close ← columns df !! "close";
  let df := Pd.setitem df "price_change" (Pd.pct_change 5 close) in
  close ← columns df !! "close";
  Some (Pd.setitem df "price_momentum"
          (Pd.ssub_scalar (Pd.sdiv close (Pd.shift 5 close)) (of_Z 1))).

(** EMA for trend confirmation *)
Definition ema_block (df : DataFrame) : DataFrame :=
  let df := Pd.setitem df "ema_20" (ta_EMA df 20) in
  Pd.setitem df "ema_50" (ta_EMA df 50).

(** ADX for trend strength *)
Definition adx_block (df : DataFrame) : DataFrame :=
  Pd.setitem df "adx" (ta_ADX df 14).

(** Stochastic for momentum confirmation *)
Definition stoch_block (df : DataFrame) : DataFrame :=
  let '(slowk, slowd) := ta_STOCH df 14 3 3 in
  let df := Pd.setitem df "stoch_k" slowk in
  Pd.setitem df "stoch_d" slowd.

(** Williams %R *)
Definition willr_block (df : DataFrame) : DataFrame :=
  Pd.setitem df "williams_r" (ta_WILLR df 14).

(** CCI *)
Definition cci_block (df : DataFrame) : DataFrame :=
  Pd.setitem df "cci" (ta_CCI df 20).

(** MACD crossover signals *)
Definition cross_up (macd macdsignal : Series) : Series :=
  Pd.np_where
    (Pd.cmp_series gt macd macdsignal &&&
     Pd.cmp_series le (Pd.shift 1 macd) (Pd.shift 1 macdsignal))
    (of_Z 1) (of_Z 0).

Definition cross_down (macd macdsignal : Series) : Series :=
  Pd.np_where
    (Pd.cmp_series lt macd macdsignal &&&
     Pd.cmp_series ge (Pd.shift 1 macd) (Pd.shift 1 macdsignal))
    (of_Z 1) (of_Z 0).

Definition cross_block (df : DataFrame) : option DataFrame :=
  macd ← columns df !! "macd";
  macdsignal ← columns df !! "macdsignal";
  df ← Pd.setitem_array df "macd_cross" (cross_up macd macdsignal);
  macd ← columns df !! "macd";
  macdsignal ← columns df !! "macdsignal";
  Pd.setitem_array df "macd_cross_down" (cross_down macd macdsignal).

Definition indicators (dataframe : DataFrame) : option DataFrame :=
  df ← bollinger_block (rsi_block (macd_block dataframe));
  df ← volume_block df;
  df ← momentum_block df;
  cross_block
    (cci_block (willr_block (stoch_block (adx_block (ema_block df))))).

(** [populate_indicators] updates the frame object it is given and returns
    it. *)
Definition populate_indicators (h : gmap nat DataFrame) (dataframe : nat)
  : option (gmap nat DataFrame * nat) :=
  df ← h !! dataframe;
  df' ← indicators df;
  Some (<[dataframe := df']> h, dataframe).
End Indicators.

(** The columns [populate_indicators] derives. *)
Definition derived_columns : list string :=
  ["macd"; "macdsignal"; "macdhist"; "rsi"; "bb_lowerband"; "bb_middleband";
   "bb_upperband"; "bb_percent"; "bb_width"; "volume_mean"; "volume_ratio";
   "price_change"; "price_momentum"; "ema_20"; "ema_50"; "adx"; "stoch_k";
   "stoch_d"; "williams_r"; "cci"; "macd_cross"; "macd_cross_down"].

(** A candle frame: well formed, with the OHLCV columns. *)
Definition candle_frame (df : DataFrame) : Prop :=
  well_formed df /\
  Forall (fun c => is_Some (columns df !! c)) ["open"; "high"; "low"; "close"; "volume"].

#[global] Instance candle_frame_dec df : Decision (candle_frame df).
Proof. unfold candle_frame. apply _. Defined.

(** ** Concrete frames *)

Definition frame_of (n : nat) (cols : list (string * list float)) : DataFrame :=
  {| nrows := n; columns := list_to_map cols |}.

(** One candle in the middle of every range: no crossover, RSI 50, stochastics
    50, Williams %R -50, CCI 0, price in the middle of the bands. *)
Definition quiet_frame : DataFrame :=
  frame_of 1
    [("close", [of_Z 100]); ("macd_cross", [of_Z 0]); ("macd_cross_down", [of_Z 0]);
     ("volume_ratio", [of_Z 1]); ("price_momentum", [of_Z 0]); ("rsi", [of_Z 50]);
     ("ema_20", [of_Z 100]); ("adx", [of_Z 20]); ("stoch_k", [of_Z 50]);
     ("stoch_d", [of_Z 50]); ("williams_r", [of_Z (-50)]); ("cci", [of_Z 0]);
     ("bb_percent", [lit 5 10])].

(** One candle at a bearish crossover on doubled volume, 2% down over five
    candles, below the EMA, every oscillator in the middle of its range. *)
Definition short_setup_frame : DataFrame :=
  frame_of 1
    [("close", [of_Z 99]); ("macd_cross", [of_Z 0]); ("macd_cross_down", [of_Z 1]);
     ("volume_ratio", [of_Z 2]); ("price_momentum", [neg (lit 2 100)]);
     ("rsi", [of_Z 50]); ("ema_20", [of_Z 100]); ("adx", [of_Z 30]);
     ("stoch_k", [of_Z 50]); ("stoch_d", [of_Z 50]); ("williams_r", [of_Z (-50)]);
     ("cci", [of_Z 0]); ("bb_percent", [lit 5 10])].

(** Twenty equal candles: close 100, high 101, low 99. *)
Definition flat_frame : DataFrame :=
  frame_of 20
    [("open", replicate 20 (of_Z 100)); ("high", replicate 20 (of_Z 101));
     ("low", replicate 20 (of_Z 99)); ("close", replicate 20 (of_Z 100));
     ("volume", replicate 20 (of_Z 1000))].

(** Twenty equal candles with a wide range: close 100, high 104, low 98. *)
Definition wide_frame : DataFrame :=
  frame_of 20
    [("open", replicate 20 (of_Z 100)); ("high", replicate 20 (of_Z 104));
     ("low", replicate 20 (of_Z 98)); ("close", replicate 20 (of_Z 100));
     ("volume", replicate 20 (of_Z 1000))].

(** The five candles of [test_indicators_with_insufficient_data]. *)
Definition five_candles : DataFrame :=
  frame_of 5
    [("open", of_Z <$> [100; 101; 102; 103; 104]%Z);
     ("high", of_Z <$> [101; 102; 103; 104; 105]%Z);
     ("low", of_Z <$> [99; 100; 101; 102; 103]%Z);
     ("close", of_Z <$> [101; 102; 103; 104; 105]%Z);
     ("volume", of_Z <$> [1000; 1100; 1200; 1300; 1400]%Z)].

(** What TA-Lib returns on a frame shorter than the lookback of the
    indicator: NaN at every position. *)
Definition ta_warmup (df : DataFrame) : Series := replicate (nrows df) nan.

Definition ta_warmup1 (df : DataFrame) (_ : Z) : Series := ta_warmup df.
Definition ta_warmup2 (df : DataFrame) (_ _ _ : Z) : Series * Series :=
  (ta_warmup df, ta_warmup df).
Definition ta_warmup3 (df : DataFrame) (_ _ _ : Z) : Series * Series * Series :=
  (ta_warmup df, ta_warmup df, ta_warmup df).

(** The column [c] of the frame a method returns. *)
Definition column_after (res : option (gmap nat DataFrame * nat)) (c : string)
  : option Series :=
  '(h, r) ← res; df ← h !! r; columns df !! c.

(** The mean of a window, summed front to back. *)
Definition mean_of_window (w : nat) (s : Series) (i : nat) : float :=
  div (fsum (Pd.window w s i)) (of_Z (Z.of_nat w)).

(** ** Informative pairs *)

(** [informative_pairs]: every pair of the host's whitelist
    ([self.dp.current_whitelist()]) at the interval ['1h']. *)
Definition informative_pairs (current_whitelist : list string)
  : list (string * string) :=
  (fun pair => (pair, "1h")) <$> current_whitelist.

(** ** Columns read by the rules and by TA-Lib *)

(** The columns the long entry, the short entry and the two exit rules
    read. *)
Definition long_entry_columns : list string :=
  ["macd_cross"; "volume_ratio"; "price_momentum"; "rsi"; "close"; "ema_20";
   "adx"; "stoch_k"; "stoch_d"; "williams_r"; "cci"; "bb_percent"].

Definition short_entry_columns : list string :=
  ["macd_cross_down"; "volume_ratio"; "price_momentum"; "rsi"; "close"; "ema_20";
   "adx"; "stoch_k"; "stoch_d"; "williams_r"; "cci"; "bb_percent"].


Definition candle_columns : list string :=
  ["open"; "high"; "low"; "close"; "volume"].

(** [d] has the length and the candles of [df]. *)
Definition same_candles (df d : DataFrame) : Prop :=
  nrows d = nrows df /\
  Forall (fun c => columns d !! c = columns df !! c) candle_columns.

Section TaColumns.
Variable p : StrategyParameters.
Variable ta_MACD : DataFrame -> Z -> Z -> Z -> Series * Series * Series.
Variable ta_RSI : DataFrame -> Z -> Series.
Variable ta_BBANDS : DataFrame -> Z -> Z -> Z -> Series * Series * Series.
Variable ta_EMA : DataFrame -> Z -> Series.
Variable ta_ADX : DataFrame -> Z -> Series.
Variable ta_STOCH : DataFrame -> Z -> Z -> Z -> Series * Series.
Variable ta_WILLR : DataFrame -> Z -> Series.
Variable ta_CCI : DataFrame -> Z -> Series.

(** The TA-Lib columns of [df'] hold what TA-Lib returns on the candles of
    [df], aligned with the index. *)
Definition ta_columns (df df' : DataFrame) : Prop :=
  (columns df' !! "macd"
     = Some (Pd.align (nrows df)
               (ta_MACD df (macd_fast p) (macd_slow p) (macd_signal p)).1.1) /\
   columns df' !! "macdsignal"
     = Some (Pd.align (nrows df)
               (ta_MACD df (macd_fast p) (macd_slow p) (macd_signal p)).1.2) /\
   columns df' !! "macdhist"
     = Some (Pd.align (nrows df)
               (ta_MACD df (macd_fast p) (macd_slow p) (macd_signal p)).2)) /\
  (exists d, same_candles df d /\
     columns df' !! "rsi" = Some (Pd.align (nrows df) (ta_RSI d (rsi_period p)))) /\
  (exists d, same_candles df d /\
     columns df' !! "bb_upperband"
       = Some (Pd.align (nrows df) (ta_BBANDS d 20 2 2).1.1) /\
     columns df' !! "bb_middleband"
       = Some (Pd.align (nrows df) (ta_BBANDS d 20 2 2).1.2) /\
     columns df' !! "bb_lowerband"
       = Some (Pd.align (nrows df) (ta_BBANDS d 20 2 2).2)) /\
  (exists d, same_candles df d /\
     columns df' !! "ema_20" = Some (Pd.align (nrows df) (ta_EMA d 20))) /\
  (exists d, same_candles df d /\
     columns df' !! "ema_50" = Some (Pd.align (nrows df) (ta_EMA d 50))) /\
  (exists d, same_candles df d /\
     columns df' !! "adx" = Some (Pd.align (nrows df) (ta_ADX d 14))) /\
  (exists d, same_candles df d /\
     columns df' !! "stoch_k" = Some (Pd.align (nrows df) (ta_STOCH d 14 3 3).1) /\
     columns df' !! "stoch_d" = Some (Pd.align (nrows df) (ta_STOCH d 14 3 3).2)) /\
  (exists d, same_candles df d /\
     columns df' !! "williams_r" = Some (Pd.align (nrows df) (ta_WILLR d 14))) /\
  (exists d, same_candles df d /\
     columns df' !! "cci" = Some (Pd.align (nrows df) (ta_CCI d 20))).
End TaColumns.

(** ** More concrete frames *)

(** One candle during warm-up: the crossover flags are 0 and every indicator
    is NaN. *)
Definition warmup_frame : DataFrame :=
  frame_of 1
    [("close", [of_Z 100]); ("macd_cross", [of_Z 0]); ("macd_cross_down", [of_Z 0]);
     ("volume_ratio", [nan]); ("price_momentum", [nan]); ("rsi", [nan]);
     ("ema_20", [nan]); ("adx", [nan]); ("stoch_k", [nan]); ("stoch_d", [nan]);
     ("williams_r", [nan]); ("cci", [nan]); ("bb_percent", [nan])].

(** [quiet_frame] with an enter-long flag already raised. *)
Definition flagged_frame : DataFrame :=
  {| nrows := 1;
     columns := <["enter_long" := [of_Z 1]]> (columns quiet_frame) |}.
(** * Properties *)

(** ** The order of binary64 numbers *)

Lemma key_None (x : float) : key x = None -> x = S754_nan.
Proof. by destruct x as [?|[]| |[] ? ?]. Qed.

Lemma key_Some_not_nan (x : float) k : key x = Some k -> is_nan x = false.
Proof. by destruct x. Qed.

Lemma compare_nan_r (x : float) : SFcompare x S754_nan = None.
Proof. by destruct x as [?|[]| |[] ? ?]. Qed.

(** [SFcompare] is the lexicographic comparison of the keys. *)
Lemma compare_key (x y : float) kx ky :
  key x = Some kx -> key y = Some ky ->
  SFcompare x y = Some Lt /\ key_lt kx ky \/
  SFcompare x y = Some Eq /\ key_le kx ky /\ key_le ky kx \/
  SFcompare x y = Some Gt /\ key_lt ky kx.
Proof.
  destruct x as [sx|[]| |[] mx ex], y as [sy|[]| |[] my ey]; simpl;
    intros Hx Hy; simplify_eq; simpl;
    try (left; split; [reflexivity|lia]);
    try (right; right; split; [reflexivity|lia]);
    try (right; left; split; [reflexivity|lia]);
    change (Pos.compare_cont Eq mx my) with (Pos.compare mx my);
    destruct (Z.compare_spec ex ey); destruct (Pos.compare_spec mx my);
    subst; simpl;
    first [ left; split; [reflexivity|lia]
          | right; right; split; [reflexivity|lia]
          | right; left; split; [reflexivity|lia] ].
Qed.

(** Every comparison is either unordered (a NaN operand) or decided by the
    keys. *)
Lemma compare_cases (x y : float) :
  (SFcompare x y = None /\ (key x = None \/ key y = None)) \/
  exists kx ky, key x = Some kx /\ key y = Some ky /\
    (SFcompare x y = Some Lt /\ key_lt kx ky \/
     SFcompare x y = Some Eq /\ key_le kx ky /\ key_le ky kx \/
     SFcompare x y = Some Gt /\ key_lt ky kx).
Proof.
  destruct (key x) as [kx|] eqn:Hx.
  - destruct (key y) as [ky|] eqn:Hy.
    + right. exists kx, ky. split; [done|]. split; [done|].
      by apply compare_key.
    + left. apply key_None in Hy. subst y. split; [apply compare_nan_r|by right].
  - left. apply key_None in Hx. subst x. split; [done|by left].
Qed.

(** [f64_order] decides goals made of comparisons between floats: each
    comparison is replaced by the order of the keys, which [lia] settles. *)
Ltac f64_keys :=
  repeat match goal with
  | H : key ?x = Some ?k, H' : key ?x = Some ?k' |- _ =>
      assert (k = k') by congruence; subst k'; clear H'
  | H : key ?x = Some _, H' : key ?x = None |- _ => congruence
  | H : key ?x = None, H' : is_nan ?x = false |- _ =>
      apply key_None in H; rewrite H in H'; discriminate H'
  | H : _ /\ _ |- _ => destruct H
  | H : _ \/ _ |- _ => destruct H
  end.

Ltac f64_split :=
  repeat match goal with
  | |- context [SFcompare ?a ?b] =>
      let H := fresh "Hc" in
      destruct (compare_cases a b) as [[H ?]|(? & ? & ? & ? & [[H ?]|[[H ?]|[H ?]]])];
      rewrite H in *; clear H
  | H0 : context [SFcompare ?a ?b] |- _ =>
      let H := fresh "Hc" in
      destruct (compare_cases a b) as [[H ?]|(? & ? & ? & ? & [[H ?]|[[H ?]|[H ?]]])];
      rewrite H in *; clear H
  end.

Ltac f64_order :=
  unfold py_min3, py_min, py_max, gt, ge, lt, le, eqb, SFltb, SFleb, SFeqb in *;
  f64_split; simpl in *; try done; f64_keys; try done;
  repeat match goal with
  | k : (Z * Z * Z)%type |- _ => destruct k as [[? ?] ?]
  end;
  unfold key_lt, key_le in *; simpl in *; try done; try lia.

Section Order.
Implicit Types x y z : float.

Lemma lt_asym x y : lt x y = true -> lt y x = false.
Proof. intros. f64_order. Qed.

Lemma le_not_gt x y : le x y = true -> gt x y = false.
Proof. intros. f64_order. Qed.

Lemma lt_trans x y z : lt x y = true -> lt y z = true -> lt x z = true.
Proof. intros. f64_order. Qed.

Lemma le_lt_trans x y z : le x y = true -> lt y z = true -> lt x z = true.
Proof. intros. f64_order. Qed.

Lemma lt_le_trans x y z : lt x y = true -> le y z = true -> lt x z = true.
Proof. intros. f64_order. Qed.

Lemma le_trans x y z : le x y = true -> le y z = true -> le x z = true.
Proof. intros. f64_order. Qed.

Lemma le_total x y :
  is_nan x = false -> is_nan y = false -> lt y x = negb (le x y).
Proof.
  intros Hx Hy. f64_order.
Qed.
End Order.


(** ** Series and masks, position by position *)

Section Lookup.
Context (i : nat).

Lemma cmp_scalar_lookup op (s : Series) c x :
  s !! i = Some x -> Pd.cmp_scalar op s c !! i = Some (op x c).
Proof. intros H. unfold Pd.cmp_scalar. by rewrite list_lookup_fmap, H. Qed.

Lemma cmp_series_lookup op (s t : Series) x y :
  s !! i = Some x -> t !! i = Some y -> Pd.cmp_series op s t !! i = Some (op x y).
Proof. intros H1 H2. unfold Pd.cmp_series. by rewrite lookup_zip_with, H1, H2. Qed.

Lemma mand_lookup (a b : Mask) x y :
  a !! i = Some x -> b !! i = Some y -> (a &&& b) !! i = Some (x && y).
Proof. intros H1 H2. unfold Pd.mand. by rewrite lookup_zip_with, H1, H2. Qed.

Lemma mor_lookup (a b : Mask) x y :
  a !! i = Some x -> b !! i = Some y -> (a ||| b) !! i = Some (x || y).
Proof. intros H1 H2. unfold Pd.mor. by rewrite lookup_zip_with, H1, H2. Qed.
End Lookup.

Lemma well_formed_length df c s :
  well_formed df -> columns df !! c = Some s -> length s = nrows df.
Proof. intros Hwf Hc. exact (Hwf c s Hc). Qed.

Lemma column_value df c s i :
  well_formed df -> columns df !! c = Some s -> i < nrows df ->
  s !! i = Some (value df c i).
Proof.
  intros Hwf Hc Hi. unfold value, cell. rewrite Hc. simpl.
  destruct (lookup_lt_is_Some_2 s i) as [x Hx].
  { by rewrite (well_formed_length df c s). }
  by rewrite Hx.
Qed.

(** [.loc[m, c] = v] leaves the other columns and the index alone. *)
Lemma loc_set_other df m c v c' :
  c <> c' -> columns (Pd.loc_set df m c v) !! c' = columns df !! c'.
Proof. intros. unfold Pd.loc_set. simpl. by rewrite lookup_insert_ne. Qed.

Lemma loc_set_nrows df m c v : nrows (Pd.loc_set df m c v) = nrows df.
Proof. reflexivity. Qed.

Lemma loc_set_well_formed df m c v :
  well_formed df -> length m = nrows df -> well_formed (Pd.loc_set df m c v).
Proof.
  intros Hwf Hm. unfold well_formed, Pd.loc_set. simpl.
  apply map_Forall_insert_2; [|done].
  rewrite length_zip_with, Hm.
  destruct (columns df !! c) as [s|] eqn:Hc; simpl.
  - rewrite (well_formed_length df c s); [lia|done..].
  - rewrite length_replicate. lia.
Qed.

(** On a fresh column, the flag is the mask. *)
Lemma loc_set_flag df m c i b :
  columns df !! c = None -> i < nrows df -> m !! i = Some b ->
  flag (Pd.loc_set df m c (of_Z 1)) c i = b.
Proof.
  intros Hc Hi Hm. unfold flag, cell, Pd.loc_set. simpl.
  rewrite lookup_insert_eq. simpl.
  rewrite lookup_zip_with, Hm, Hc. simpl.
  rewrite lookup_replicate_2 by done. simpl. by destruct b.
Qed.

Lemma flag_other df m c v c' i :
  c <> c' -> flag (Pd.loc_set df m c v) c' i = flag df c' i.
Proof. intros. unfold flag, cell. by rewrite loc_set_other. Qed.

Lemma flag_lt df c i : flag df c i = true -> well_formed df -> i < nrows df.
Proof.
  unfold flag, cell. intros H Hwf.
  destruct (columns df !! c) as [s|] eqn:Hc; simpl in H; [|done].
  destruct (s !! i) as [x|] eqn:Hx; [|done].
  apply lookup_lt_Some in Hx. by rewrite (well_formed_length df c s) in Hx.
Qed.

(** ** The masks of the signal rules *)

Ltac frame_columns :=
  unfold indicator_columns, signal_columns in *;
  decompose_Forall_hyps;
  repeat match goal with
  | H : is_Some (columns _ !! _) |- _ => destruct H as [? H]
  end.

Ltac mask_length Hwf :=
  unfold Pd.mand, Pd.mor, Pd.cmp_scalar, Pd.cmp_series;
  rewrite ?length_zip_with, ?length_fmap;
  repeat match goal with
  | H : columns ?df !! ?c = Some ?s |- _ =>
      rewrite (well_formed_length df c s Hwf H); clear H
  end; lia.

Ltac mask_lookup :=
  repeat first [ apply mand_lookup | apply mor_lookup ];
  first [ apply cmp_scalar_lookup | apply cmp_series_lookup ];
  eapply column_value; eassumption.

Section Masks.
Variable p : StrategyParameters.
Variable df : DataFrame.
Hypothesis Hwf : well_formed df.
Hypothesis Hcols : Forall (fun c => is_Some (columns df !! c)) indicator_columns.

Lemma long_entry_mask_at :
  exists m, long_entry_mask p df = Some m /\ length m = nrows df /\
    forall i, i < nrows df -> m !! i = Some (long_entry_at p df i).
Proof.
  frame_columns. unfold long_entry_mask.
  repeat match goal with H : columns _ !! _ = Some _ |- _ => rewrite !H; revert H end.
  simpl. intros. eexists. split; [reflexivity|]. split.
  - mask_length Hwf.
  - intros i Hi. unfold long_entry_at. mask_lookup.
Qed.

Lemma short_entry_mask_at :
  exists m, short_entry_mask p df = Some m /\ length m = nrows df /\
    forall i, i < nrows df -> m !! i = Some (short_entry_at p df i).
Proof.
  frame_columns. unfold short_entry_mask.
  repeat match goal with H : columns _ !! _ = Some _ |- _ => rewrite !H; revert H end.
  simpl. intros. eexists. split; [reflexivity|]. split.
  - mask_length Hwf.
  - intros i Hi. unfold short_entry_at. mask_lookup.
Qed.

Lemma long_exit_mask_at :
  exists m, long_exit_mask p df = Some m /\ length m = nrows df /\
    forall i, i < nrows df -> m !! i = Some (long_exit_at p df i).
Proof.
  frame_columns. unfold long_exit_mask.
  repeat match goal with H : columns _ !! _ = Some _ |- _ => rewrite !H; revert H end.
  simpl. intros. eexists. split; [reflexivity|]. split.
  - mask_length Hwf.
  - intros i Hi. unfold long_exit_at. mask_lookup.
Qed.

Lemma short_exit_mask_at :
  exists m, short_exit_mask p df = Some m /\ length m = nrows df /\
    forall i, i < nrows df -> m !! i = Some (short_exit_at p df i).
Proof.
  frame_columns. unfold short_exit_mask.
  repeat match goal with H : columns _ !! _ = Some _ |- _ => rewrite !H; revert H end.
  simpl. intros. eexists. split; [reflexivity|]. split.
  - mask_length Hwf.
  - intros i Hi. unfold short_exit_at. mask_lookup.
Qed.
End Masks.

(** The rules read indicator columns only, so a signal column written before
    does not change a mask. *)
Lemma masks_loc_set p df m c v :
  c ∈ signal_columns ->
  long_entry_mask p (Pd.loc_set df m c v) = long_entry_mask p df /\
  short_entry_mask p (Pd.loc_set df m c v) = short_entry_mask p df /\
  long_exit_mask p (Pd.loc_set df m c v) = long_exit_mask p df /\
  short_exit_mask p (Pd.loc_set df m c v) = short_exit_mask p df.
Proof.
  intros Hc. unfold signal_columns in Hc.
  unfold long_entry_mask, short_entry_mask, long_exit_mask, short_exit_mask.
  repeat (apply elem_of_cons in Hc as [->|Hc]);
    [..|by apply not_elem_of_nil in Hc];
    by rewrite !loc_set_other.
Qed.

(** *** What [populate_entry_trend] and [populate_exit_trend] compute *)

Lemma value_ge df c i : well_formed df -> nrows df <= i -> value df c i = nan.
Proof.
  intros Hwf Hi. unfold value, cell.
  destruct (columns df !! c) as [s|] eqn:Hc; [|done]. simpl.
  rewrite lookup_ge_None_2; [done|]. by rewrite (well_formed_length df c s).
Qed.

Lemma flag_ge df c i : well_formed df -> nrows df <= i -> flag df c i = false.
Proof.
  intros Hwf Hi. destruct (flag df c i) eqn:Hf; [|done].
  apply flag_lt in Hf; [lia|done].
Qed.

Section Trend.
Variable p : StrategyParameters.
Variable df : DataFrame.
Hypothesis Hwf : well_formed df.
Hypothesis Hcols : Forall (fun c => is_Some (columns df !! c)) indicator_columns.

Lemma entry_trend_spec :
  exists df', entry_trend p df = Some df' /\
    nrows df' = nrows df /\ well_formed df' /\
    (forall c, c <> "enter_long" -> c <> "enter_short" ->
       columns df' !! c = columns df !! c) /\
    is_Some (columns df' !! "enter_long") /\
    (columns df !! "enter_long" = None -> forall i,
       flag df' "enter_long" i = long_entry_at p df i) /\
    (columns df !! "enter_short" = None -> forall i,
       flag df' "enter_short" i = short_entry_at p df i).
Proof.
  destruct (long_entry_mask_at p df Hwf Hcols) as (m1 & H1 & L1 & P1).
  destruct (short_entry_mask_at p df Hwf Hcols) as (m2 & H2 & L2 & P2).
  unfold entry_trend. rewrite H1. cbn [mbind option_bind].
  destruct (masks_loc_set p df m1 "enter_long" (of_Z 1)) as (_ & -> & _).
  { unfold signal_columns. rewrite !elem_of_cons. auto. }
  rewrite H2. cbn [mbind option_bind]. eexists. split; [reflexivity|].
  assert (well_formed
    (Pd.loc_set (Pd.loc_set df m1 "enter_long" (of_Z 1)) m2 "enter_short" (of_Z 1)))
    as Hwf'.
  { apply loc_set_well_formed; [by apply loc_set_well_formed|done]. }
  split; [reflexivity|]. split; [done|]. split.
  { intros c ? ?. by rewrite !loc_set_other. }
  split.
  { rewrite loc_set_other by done. unfold Pd.loc_set. simpl.
    by rewrite lookup_insert_eq. }
  split; intros Hnone i; destruct (decide (i < nrows df)) as [Hi|Hi].
  - rewrite flag_other by done. apply loc_set_flag; auto.
  - rewrite flag_ge by (done || simpl; lia).
    unfold long_entry_at. by rewrite (value_ge df "macd_cross") by (done || lia).
  - apply loc_set_flag; auto. by rewrite loc_set_other.
  - rewrite flag_ge by (done || simpl; lia).
    unfold short_entry_at. by rewrite (value_ge df "macd_cross_down") by (done || lia).
Qed.

Lemma exit_trend_spec :
  exists df', exit_trend p df = Some df' /\
    nrows df' = nrows df /\ well_formed df' /\
    (forall c, c <> "exit_long" -> c <> "exit_short" ->
       columns df' !! c = columns df !! c) /\
    (columns df !! "exit_long" = None -> forall i, i < nrows df ->
       flag df' "exit_long" i = long_exit_at p df i) /\
    (columns df !! "exit_short" = None -> forall i, i < nrows df ->
       flag df' "exit_short" i = short_exit_at p df i).
Proof.
  destruct (long_exit_mask_at p df Hwf Hcols) as (m1 & H1 & L1 & P1).
  destruct (short_exit_mask_at p df Hwf Hcols) as (m2 & H2 & L2 & P2).
  unfold exit_trend. rewrite H1. cbn [mbind option_bind].
  destruct (masks_loc_set p df m1 "exit_long" (of_Z 1)) as (_ & _ & _ & ->).
  { unfold signal_columns. rewrite !elem_of_cons. auto. }
  rewrite H2. cbn [mbind option_bind]. eexists. split; [reflexivity|].
  split; [reflexivity|]. split.
  { apply loc_set_well_formed; [by apply loc_set_well_formed|done]. }
  split.
  { intros c ? ?. by rewrite !loc_set_other. }
  split; intros Hnone i Hi.
  - rewrite flag_other by done. apply loc_set_flag; auto.
  - apply loc_set_flag; auto. by rewrite loc_set_other.
Qed.
End Trend.

(** The methods on the store of frame objects. *)
Lemma populate_entry_trend_frame p h r df df' :
  h !! r = Some df -> entry_trend p df = Some df' ->
  populate_entry_trend p h r = Some (<[r := df']> h, r).
Proof. intros Hr He. unfold populate_entry_trend. by rewrite Hr; simpl; rewrite He. Qed.

Lemma populate_exit_trend_frame p h r df df' :
  h !! r = Some df -> exit_trend p df = Some df' ->
  populate_exit_trend p h r = Some (<[r := df']> h, r).
Proof. intros Hr He. unfold populate_exit_trend. by rewrite Hr; simpl; rewrite He. Qed.

Ltac by_compute := apply (bool_decide_unpack _); vm_compute; exact I.

(** ** Entry signals *)

(** C2: on every indicator frame and at every position, [populate_entry_trend]
    never raises the enter-long and the enter-short flag together: the long
    rule needs close above the EMA-20 and the short rule close below it. *)
Theorem enter_long_short_exclusive p (h : gmap nat DataFrame) r df :
  h !! r = Some df -> indicator_frame df ->
  exists h' df', populate_entry_trend p h r = Some (h', r) /\
    h' !! r = Some df' /\
    forall i, ~ (flag df' "enter_long" i = true /\ flag df' "enter_short" i = true).
Proof.
  intros Hr (Hwf & Hcols & Hsig).
  destruct (entry_trend_spec p df Hwf Hcols) as (df' & He & _ & _ & _ & _ & Hl & Hs).
  unfold signal_columns in Hsig. decompose_Forall_hyps.
  exists (<[r := df']> h), df'.
  split; [by eapply populate_entry_trend_frame|].
  split; [by rewrite lookup_insert_eq|].
  intros i [Hlong Hshort].
  rewrite Hl in Hlong by done. rewrite Hs in Hshort by done.
  unfold long_entry_at in Hlong. unfold short_entry_at in Hshort.
  rewrite !andb_true_iff in Hlong, Hshort. destruct_and!.
  match goal with
  | H : gt (value df "close" i) _ = true |- _ => apply lt_asym in H
  end.
  unfold gt in *. congruence.
Qed.

Lemma enter_long_short_exclusive_witness :
  exists h' df', populate_entry_trend default_parameters {[0 := short_setup_frame]} 0
      = Some (h', 0) /\
    h' !! 0 = Some df' /\
    forall i, ~ (flag df' "enter_long" i = true /\ flag df' "enter_short" i = true).
Proof.
  apply (enter_long_short_exclusive default_parameters {[0 := short_setup_frame]} 0
           short_setup_frame).
  - reflexivity.
  - by_compute.
Defined.

(** C6 at [short_setup_frame]: a bearish crossover on doubled volume, 2%
    down, below the EMA, every oscillator in the middle of its range.  Every
    condition of the mirrored short entry holds (Williams %R is -50, not
    oversold, below +20 and below -20 alike), yet [populate_entry_trend]
    leaves the enter-short flag down: under the comment "Williams %R not
    oversold" the source asks for Williams %R below -80. *)
Lemma short_entry_differs_from_spec :
  indicator_frame short_setup_frame /\
  short_entry_spec default_parameters short_setup_frame 0 = true /\
  exists h' df', populate_entry_trend default_parameters {[0 := short_setup_frame]} 0
      = Some (h', 0) /\
    h' !! 0 = Some df' /\ flag df' "enter_short" 0 = false.
Proof.
  split; [by_compute|]. split; [vm_compute; reflexivity|].
  destruct (entry_trend_spec default_parameters short_setup_frame)
    as (df' & He & _ & _ & _ & _ & _ & Hs); [by_compute..|].
  exists (<[0 := df']> {[0 := short_setup_frame]}), df'.
  split; [by eapply populate_entry_trend_frame|].
  split; [by rewrite lookup_insert_eq|].
  rewrite Hs; vm_compute; reflexivity.
Qed.

(** X25: what the source computes for the short entry.  On every indicator
    frame and at every position [i], the enter-short flag is up exactly when
    the twelve conditions of lines 232-260 hold there as they are written:
    macd-cross-down is 1, volume-ratio is above the volume threshold,
    price-momentum is below -0.01, RSI lies strictly between oversold and
    overbought, close is below EMA-20, ADX is above 25, stochastic %K and %D
    are above 20, Williams %R is below -80, CCI is above -100 and bb-percent
    is above 0.2. *)
Theorem enter_short_iff p (h : gmap nat DataFrame) r df :
  h !! r = Some df -> indicator_frame df ->
  exists h' df', populate_entry_trend p h r = Some (h', r) /\
    h' !! r = Some df' /\
    forall i, flag df' "enter_short" i = true <->
      eqb (value df "macd_cross_down" i) (of_Z 1) = true /\
      gt (value df "volume_ratio" i) (volume_factor p) = true /\
      lt (value df "price_momentum" i) (neg (lit 1 100)) = true /\
      gt (value df "rsi" i) (of_Z (rsi_oversold p)) = true /\
      lt (value df "rsi" i) (of_Z (rsi_overbought p)) = true /\
      lt (value df "close" i) (value df "ema_20" i) = true /\
      gt (value df "adx" i) (of_Z 25) = true /\
      gt (value df "stoch_k" i) (of_Z 20) = true /\
      gt (value df "stoch_d" i) (of_Z 20) = true /\
      lt (value df "williams_r" i) (of_Z (-80)) = true /\
      gt (value df "cci" i) (of_Z (-100)) = true /\
      gt (value df "bb_percent" i) (lit 2 10) = true.
Proof.
  intros Hr (Hwf & Hcols & Hsig).
  destruct (entry_trend_spec p df Hwf Hcols) as (df' & He & _ & _ & _ & _ & _ & Hs).
  unfold signal_columns in Hsig. decompose_Forall_hyps.
  exists (<[r := df']> h), df'.
  split; [by eapply populate_entry_trend_frame|].
  split; [by rewrite lookup_insert_eq|].
  intros i. rewrite Hs by done. unfold short_entry_at.
  rewrite !andb_true_iff. tauto.
Qed.

Lemma enter_short_iff_witness :
  exists h' df', populate_entry_trend default_parameters {[0 := short_setup_frame]} 0
      = Some (h', 0) /\
    h' !! 0 = Some df' /\
    forall i, flag df' "enter_short" i = true <->
      eqb (value short_setup_frame "macd_cross_down" i) (of_Z 1) = true /\
      gt (value short_setup_frame "volume_ratio" i) (volume_factor default_parameters) = true /\
      lt (value short_setup_frame "price_momentum" i) (neg (lit 1 100)) = true /\
      gt (value short_setup_frame "rsi" i) (of_Z (rsi_oversold default_parameters)) = true /\
      lt (value short_setup_frame "rsi" i) (of_Z (rsi_overbought default_parameters)) = true /\
      lt (value short_setup_frame "close" i) (value short_setup_frame "ema_20" i) = true /\
      gt (value short_setup_frame "adx" i) (of_Z 25) = true /\
      gt (value short_setup_frame "stoch_k" i) (of_Z 20) = true /\
      gt (value short_setup_frame "stoch_d" i) (of_Z 20) = true /\
      lt (value short_setup_frame "williams_r" i) (of_Z (-80)) = true /\
      gt (value short_setup_frame "cci" i) (of_Z (-100)) = true /\
      gt (value short_setup_frame "bb_percent" i) (lit 2 10) = true.
Proof.
  apply (enter_short_iff default_parameters {[0 := short_setup_frame]} 0
           short_setup_frame).
  - reflexivity.
  - by_compute.
Defined.

(** ** Exit signals *)

(** C1 at [quiet_frame]: nothing is crossing and every oscillator sits in the
    middle of its range, yet [populate_exit_trend] raises both exit flags,
    because Williams %R = -50 is below -20 (long exit) and above -80 (short
    exit). *)
Lemma exit_flags_both_up :
  indicator_frame quiet_frame /\
  exists h' df', populate_exit_trend default_parameters {[0 := quiet_frame]} 0
      = Some (h', 0) /\
    h' !! 0 = Some df' /\
    flag df' "exit_long" 0 = true /\ flag df' "exit_short" 0 = true.
Proof.
  split; [by_compute|].
  destruct (exit_trend_spec default_parameters quiet_frame)
    as (df' & He & _ & _ & _ & Hl & Hs); [by_compute..|].
  exists (<[0 := df']> {[0 := quiet_frame]}), df'.
  split; [by eapply populate_exit_trend_frame|].
  split; [by rewrite lookup_insert_eq|].
  split; [rewrite Hl|rewrite Hs]; vm_compute; first [reflexivity | lia].
Qed.

(** ** Frame effect of the signal methods *)

(** C9, as stated, fails: after [populate_entry_trend] the frame object the
    caller passed (address 0) is no longer the frame it was, and the address
    returned is the caller's own, not that of a copy. *)
Lemma entry_trend_mutates_input :
  exists h' df', populate_entry_trend default_parameters {[0 := quiet_frame]} 0
      = Some (h', 0) /\
    ({[0 := quiet_frame]} : gmap nat DataFrame) !! 0 = Some quiet_frame /\
    h' !! 0 = Some df' /\ df' <> quiet_frame /\
    columns quiet_frame !! "enter_long" = None /\
    is_Some (columns df' !! "enter_long").
Proof.
  destruct (entry_trend_spec default_parameters quiet_frame)
    as (df' & He & _ & _ & _ & Hcol & _); [by_compute..|].
  exists (<[0 := df']> {[0 := quiet_frame]}), df'.
  split; [by eapply populate_entry_trend_frame|].
  split; [done|]. split; [by rewrite lookup_insert_eq|].
  assert (columns quiet_frame !! "enter_long" = None) as Hnone
    by (vm_compute; reflexivity).
  split; [|done]. intros ->. rewrite Hnone in Hcol. by destruct Hcol.
Qed.

(** ** Custom stop-loss *)

Lemma gt_2_100_false x : le x (lit 1 100) = true -> gt x (lit 2 100) = false.
Proof.
  intros H. destruct (gt x (lit 2 100)) eqn:Hg; [|done].
  unfold gt in Hg. pose proof (lt_le_trans _ _ _ Hg H) as Hc.
  by vm_compute in Hc.
Qed.

(** C3: during the first 600 seconds of a trade [custom_stoploss] returns the
    default stop ratio whatever the profit and the side; afterwards it returns
    0.02 (short) or -0.02 (long) for a profit above 0.02, 0.015 (short) or
    -0.015 (long) for a profit above 0.01 and at most 0.02, and the default
    stop ratio itself, not re-signed, for a profit of at most 0.01. *)
Theorem custom_stoploss_tiers p trade current_time current_profit :
  ((current_time - open_date_utc trade < 600 * 1000000)%Z ->
     custom_stoploss p trade current_time current_profit = stoploss p) /\
  ((600 * 1000000 <= current_time - open_date_utc trade)%Z ->
     (gt current_profit (lit 2 100) = true ->
        custom_stoploss p trade current_time current_profit
        = if is_short trade then lit 2 100 else neg (lit 2 100)) /\
     (gt current_profit (lit 1 100) = true -> le current_profit (lit 2 100) = true ->
        custom_stoploss p trade current_time current_profit
        = if is_short trade then lit 15 1000 else neg (lit 15 1000)) /\
     (le current_profit (lit 1 100) = true ->
        custom_stoploss p trade current_time current_profit = stoploss p)).
Proof.
  unfold custom_stoploss, total_seconds_lt. split.
  - intros H. apply Z.ltb_lt in H. by rewrite H.
  - intros H. apply Z.ltb_ge in H. rewrite H.
    split; [|split].
    + intros ->. by destruct (is_short trade).
    + intros H1 H2. apply le_not_gt in H2. rewrite H2, H1.
      by destruct (is_short trade).
    + intros H1. rewrite (gt_2_100_false _ H1), (le_not_gt _ _ H1).
      by destruct (is_short trade).
Qed.

(** The calls of [test_custom_stoploss]: fifteen minutes into the trade, at
    3% profit. *)
Lemma custom_stoploss_tiers_witness :
  custom_stoploss default_parameters {| open_date_utc := 0; is_short := false |}
    900000000 (lit 3 100) = neg (lit 2 100) /\
  custom_stoploss default_parameters {| open_date_utc := 0; is_short := true |}
    900000000 (lit 3 100) = lit 2 100 /\
  custom_stoploss default_parameters {| open_date_utc := 0; is_short := false |}
    300000000 (lit 3 100) = stoploss default_parameters /\
  custom_stoploss default_parameters {| open_date_utc := 0; is_short := false |}
    900000000 (lit 5 1000) = stoploss default_parameters.
Proof.
  pose proof (custom_stoploss_tiers default_parameters
                {| open_date_utc := 0; is_short := false |} 900000000 (lit 3 100))
    as [_ Hlong].
  pose proof (custom_stoploss_tiers default_parameters
                {| open_date_utc := 0; is_short := true |} 900000000 (lit 3 100))
    as [_ Hshort].
  pose proof (custom_stoploss_tiers default_parameters
                {| open_date_utc := 0; is_short := false |} 300000000 (lit 3 100))
    as [Hgrace _].
  pose proof (custom_stoploss_tiers default_parameters
                {| open_date_utc := 0; is_short := false |} 900000000 (lit 5 1000))
    as [_ Hlow].
  split; [|split; [|split]].
  - apply Hlong; [simpl; lia|by vm_compute].
  - apply Hshort; [simpl; lia|by vm_compute].
  - apply Hgrace. simpl. lia.
  - apply Hlow; [simpl; lia|by vm_compute].
Defined.

(** ** Python's [min] and [max] *)

Lemma py_min_least a b :
  is_nan a = false -> is_nan b = false ->
  le (py_min a b) a = true /\ le (py_min a b) b = true /\
  (py_min a b = a \/ py_min a b = b).
Proof.
  intros Ha Hb. unfold py_min.
  destruct (lt b a) eqn:Hlt.
  - split; [|split; [|by right]]; f64_order.
  - split; [|split; [|by left]]; f64_order.
Qed.

Lemma py_min_mono a b c :
  le a b = true -> le (py_min a c) (py_min b c) = true.
Proof.
  intros H. unfold py_min.
  destruct (lt c a) eqn:H1, (lt c b) eqn:H2; f64_order.
Qed.

Lemma py_max_mono lo a b :
  is_nan lo = false -> le a b = true -> le (py_max lo a) (py_max lo b) = true.
Proof.
  intros Hlo H. unfold py_max.
  destruct (gt a lo) eqn:H1, (gt b lo) eqn:H2; f64_order.
Qed.

Lemma py_max_lower lo a : is_nan lo = false -> le lo (py_max lo a) = true.
Proof.
  intros Hlo. unfold py_max. destruct (gt a lo) eqn:H1; f64_order.
Qed.

(** The clamp [max(lo, min(x, c, h))] stays below [min(c, h)] as soon as
    the lower bound does. *)
Lemma clamp_upper lo x c h :
  le lo (py_min c h) = true ->
  le (py_max lo (py_min3 x c h)) (py_min c h) = true.
Proof.
  intros H. unfold py_max, py_min3, py_min in *.
  destruct (lt h c) eqn:H1, (lt c x) eqn:H2; rewrite ?H1;
    try destruct (lt h x) eqn:H3;
    match goal with
    | |- context [gt ?m lo] => destruct (gt m lo) eqn:H4
    end; f64_order.
Qed.

(** ** Dynamic leverage *)

(** C4: with fewer than 20 candles [leverage] returns
    [min(proposed_leverage, base_leverage)], whatever the proposed leverage
    and the host's maximum are; unless the proposed leverage is NaN that is
    the smaller of the two numbers. *)
Theorem leverage_short_history p series_std df proposed_leverage max_lev :
  nrows df < 20 ->
  leverage p series_std df proposed_leverage max_lev
    = Some (py_min proposed_leverage (of_Z (base_leverage p))) /\
  (is_nan proposed_leverage = false -> is_nan (of_Z (base_leverage p)) = false ->
   le (py_min proposed_leverage (of_Z (base_leverage p))) proposed_leverage = true /\
   le (py_min proposed_leverage (of_Z (base_leverage p))) (of_Z (base_leverage p)) = true /\
   (py_min proposed_leverage (of_Z (base_leverage p)) = proposed_leverage \/
    py_min proposed_leverage (of_Z (base_leverage p)) = of_Z (base_leverage p))).
Proof.
  intros Hn. split.
  - unfold leverage. by rewrite decide_True.
  - apply py_min_least.
Qed.

Lemma leverage_short_history_witness :
  leverage default_parameters sample_std five_candles (of_Z 15) (of_Z 3)
    = Some (py_min (of_Z 15) (of_Z (base_leverage default_parameters))) /\
  py_min (of_Z 15) (of_Z (base_leverage default_parameters)) = of_Z 10.
Proof.
  split.
  - apply (leverage_short_history default_parameters sample_std five_candles
             (of_Z 15) (of_Z 3)).
    simpl. lia.
  - vm_compute. reflexivity.
Defined.

Lemma leverage_long_history p series_std df proposed_leverage max_lev :
  20 <= nrows df ->
  leverage p series_std df proposed_leverage max_lev
    = (combined ← combined_volatility series_std df;
       Some (final_leverage p combined max_lev)).
Proof. intros Hn. unfold leverage. rewrite decide_False by lia. done. Qed.

(** More volatility never gives a larger multiplier. *)
Lemma leverage_multiplier_mono p v1 v2 :
  ge v1 v2 = true ->
  leverage_multiplier p v1 = lit 5 10 \/
  (leverage_multiplier p v1 = lit 75 100 /\
   (leverage_multiplier p v2 = lit 75 100 \/ leverage_multiplier p v2 = of_Z 1)) \/
  (leverage_multiplier p v1 = of_Z 1 /\ leverage_multiplier p v2 = of_Z 1).
Proof.
  intros Hge. unfold leverage_multiplier.
  generalize (mul (volatility_threshold p) (lit 7 10)) as t7.
  generalize (volatility_threshold p) as thr. intros thr t7.
  destruct (gt v1 thr) eqn:A1; [by left|].
  destruct (gt v1 t7) eqn:B1.
  - right; left. split; [done|].
    destruct (gt v2 thr) eqn:A2; [exfalso; f64_order|].
    destruct (gt v2 t7); auto.
  - right; right. split; [done|].
    destruct (gt v2 thr) eqn:A2; [exfalso; f64_order|].
    destruct (gt v2 t7) eqn:B2; [exfalso; f64_order|done].
Qed.

(** For a base leverage in its declared range the three products
    [base * 0.5 <= base * 0.75 <= base * 1.0] are ordered. *)
Lemma calculated_leverage_ordered (b : Z) :
  (5 <= b <= 20)%Z ->
  le (mul (of_Z b) (lit 5 10)) (mul (of_Z b) (lit 5 10)) = true /\
  le (mul (of_Z b) (lit 5 10)) (mul (of_Z b) (lit 75 100)) = true /\
  le (mul (of_Z b) (lit 5 10)) (mul (of_Z b) (of_Z 1)) = true /\
  le (mul (of_Z b) (lit 75 100)) (mul (of_Z b) (lit 75 100)) = true /\
  le (mul (of_Z b) (lit 75 100)) (mul (of_Z b) (of_Z 1)) = true /\
  le (mul (of_Z b) (of_Z 1)) (mul (of_Z b) (of_Z 1)) = true.
Proof.
  intros Hb.
  assert (Forall (fun b =>
    le (mul (of_Z b) (lit 5 10)) (mul (of_Z b) (lit 5 10)) = true /\
    le (mul (of_Z b) (lit 5 10)) (mul (of_Z b) (lit 75 100)) = true /\
    le (mul (of_Z b) (lit 5 10)) (mul (of_Z b) (of_Z 1)) = true /\
    le (mul (of_Z b) (lit 75 100)) (mul (of_Z b) (lit 75 100)) = true /\
    le (mul (of_Z b) (lit 75 100)) (mul (of_Z b) (of_Z 1)) = true /\
    le (mul (of_Z b) (of_Z 1)) (mul (of_Z b) (of_Z 1)) = true) (seqZ 5 16)) as Hall
    by by_compute.
  rewrite Forall_forall in Hall. apply Hall. apply elem_of_seqZ. lia.
Qed.

Lemma final_leverage_calculated p v1 v2 max_lev :
  le (mul (of_Z (base_leverage p)) (leverage_multiplier p v1))
     (mul (of_Z (base_leverage p)) (leverage_multiplier p v2)) = true ->
  le (final_leverage p v1 max_lev) (final_leverage p v2 max_lev) = true.
Proof.
  intros H. unfold final_leverage, py_min3.
  apply py_max_mono; [done|]. by do 2 apply py_min_mono.
Qed.

(** C10: for two frames of at least 20 candles under the same parameters and
    the same host maximum (base leverage within its declared range), the
    frame with the greater or equal combined volatility gets the smaller or
    equal leverage. *)
Theorem leverage_monotone p series_std df1 df2 proposed1 proposed2 max_lev v1 v2 :
  (5 <= base_leverage p <= 20)%Z ->
  20 <= nrows df1 -> 20 <= nrows df2 ->
  combined_volatility series_std df1 = Some v1 ->
  combined_volatility series_std df2 = Some v2 ->
  ge v1 v2 = true ->
  exists l1 l2,
    leverage p series_std df1 proposed1 max_lev = Some l1 /\
    leverage p series_std df2 proposed2 max_lev = Some l2 /\
    le l1 l2 = true.
Proof.
  intros Hb Hn1 Hn2 Hv1 Hv2 Hge.
  exists (final_leverage p v1 max_lev), (final_leverage p v2 max_lev).
  rewrite !leverage_long_history, Hv1, Hv2 by done.
  split; [done|]. split; [done|].
  apply final_leverage_calculated.
  destruct (calculated_leverage_ordered _ Hb) as (Haa & Hab & Hac & Hbb & Hbc & Hcc).
  destruct (leverage_multiplier_mono p v1 v2 Hge) as [E1|[[E1 [E2|E2]]|[E1 E2]]].
  - rewrite E1. unfold leverage_multiplier.
    destruct (gt v2 _); [done|]. by destruct (gt v2 _).
  - by rewrite E1, E2.
  - by rewrite E1, E2.
  - by rewrite E1, E2.
Qed.

Lemma leverage_monotone_witness :
  exists l1 l2,
    leverage default_parameters sample_std wide_frame (of_Z 10) (of_Z 20) = Some l1 /\
    leverage default_parameters sample_std flat_frame (of_Z 10) (of_Z 20) = Some l2 /\
    le l1 l2 = true.
Proof.
  apply (leverage_monotone default_parameters sample_std wide_frame flat_frame
           (of_Z 10) (of_Z 10) (of_Z 20) (lit 6 100) (lit 2 100)).
  - simpl. lia.
  - simpl. lia.
  - simpl. lia.
  - vm_compute. reflexivity.
  - vm_compute. reflexivity.
  - vm_compute. reflexivity.
Defined.

(** *** Rolling windows at the last position *)

Lemma rolling_length w agg (s : Series) : length (Pd.rolling w agg s) = length s.
Proof. unfold Pd.rolling. by rewrite length_fmap, length_seq. Qed.

Lemma rolling_lookup w agg (s : Series) i :
  i < length s ->
  Pd.rolling w agg s !! i
  = Some (if decide (w <= S i)
          then if existsb is_nan (Pd.window w s i) then nan else agg s i
          else nan).
Proof.
  intros Hi. unfold Pd.rolling.
  by rewrite list_lookup_fmap, lookup_seq_lt.
Qed.

Lemma window_last w (s : Series) :
  0 < w <= length s -> Pd.window w s (length s - 1) = drop (length s - w) s.
Proof.
  intros Hw. unfold Pd.window.
  replace (S (length s - 1) - w) with (length s - w) by lia.
  apply take_ge. rewrite length_drop. lia.
Qed.

Lemma rolling_last w agg (s : Series) :
  0 < w <= length s ->
  last (Pd.rolling w agg s)
  = Some (if existsb is_nan (drop (length s - w) s) then nan
          else agg s (length s - 1)).
Proof.
  intros Hw. rewrite last_lookup, rolling_length.
  replace (Init.Nat.pred (length s)) with (length s - 1) by lia.
  rewrite rolling_lookup by lia.
  rewrite decide_True by lia. by rewrite window_last.
Qed.

(** On a window without NaN [maximum] is an element that no element
    exceeds. *)
Lemma maximum_foldl (l : list float) x :
  is_nan x = false -> Forall (fun y => is_nan y = false) l ->
  let m := foldl (fun a b => if gt b a then b else a) x l in
  is_nan m = false /\ (m = x \/ m ∈ l) /\ le x m = true /\
  Forall (fun y => le y m = true) l.
Proof.
  revert x. induction l as [|y l IH]; intros x Hx Hl; simpl.
  - split; [done|]. split; [by left|]. split; [f64_order|constructor].
  - apply Forall_cons in Hl as [Hy Hl].
    destruct (gt y x) eqn:Hyx.
    + destruct (IH y Hy Hl) as (Hm & Hin & Hle & Hall).
      split; [done|]. split.
      { destruct Hin as [->|Hin]; right; [left|by right]. }
      split; [f64_order|]. by constructor.
    + destruct (IH x Hx Hl) as (Hm & Hin & Hle & Hall).
      split; [done|]. split.
      { destruct Hin as [->|Hin]; [by left|right; by right]. }
      split; [done|]. constructor; [f64_order|done].
Qed.

Lemma maximum_spec (l : list float) :
  l <> [] -> existsb is_nan l = false ->
  Pd.maximum l ∈ l /\ Forall (fun y => le y (Pd.maximum l) = true) l.
Proof.
  intros Hne Hnan. destruct l as [|x l]; [done|]. simpl in *.
  apply orb_false_iff in Hnan as [Hx Hl].
  assert (Forall (fun y => is_nan y = false) l) as Hall.
  { apply Forall_forall. intros y Hy.
    destruct (is_nan y) eqn:E; [|done].
    assert (existsb is_nan l = true) as Hc; [|congruence].
    apply existsb_exists. exists y. split; [by apply list_elem_of_In|done]. }
  destruct (maximum_foldl l x Hx Hall) as (_ & Hin & Hle & Hfa).
  split.
  - destruct Hin as [->|Hin]; [left|by right].
  - by constructor.
Qed.

Lemma minimum_foldl (l : list float) x :
  is_nan x = false -> Forall (fun y => is_nan y = false) l ->
  let m := foldl (fun a b => if lt b a then b else a) x l in
  is_nan m = false /\ (m = x \/ m ∈ l) /\ le m x = true /\
  Forall (fun y => le m y = true) l.
Proof.
  revert x. induction l as [|y l IH]; intros x Hx Hl; simpl.
  - split; [done|]. split; [by left|]. split; [f64_order|constructor].
  - apply Forall_cons in Hl as [Hy Hl].
    destruct (lt y x) eqn:Hyx.
    + destruct (IH y Hy Hl) as (Hm & Hin & Hle & Hall).
      split; [done|]. split.
      { destruct Hin as [->|Hin]; right; [left|by right]. }
      split; [f64_order|]. by constructor.
    + destruct (IH x Hx Hl) as (Hm & Hin & Hle & Hall).
      split; [done|]. split.
      { destruct Hin as [->|Hin]; [by left|right; by right]. }
      split; [done|]. constructor; [f64_order|done].
Qed.

Lemma minimum_spec (l : list float) :
  l <> [] -> existsb is_nan l = false ->
  Pd.minimum l ∈ l /\ Forall (fun y => le (Pd.minimum l) y = true) l.
Proof.
  intros Hne Hnan. destruct l as [|x l]; [done|]. simpl in *.
  apply orb_false_iff in Hnan as [Hx Hl].
  assert (Forall (fun y => is_nan y = false) l) as Hall.
  { apply Forall_forall. intros y Hy.
    destruct (is_nan y) eqn:E; [|done].
    assert (existsb is_nan l = true) as Hc; [|congruence].
    apply existsb_exists. exists y. split; [by apply list_elem_of_In|done]. }
  destruct (minimum_foldl l x Hx Hall) as (_ & Hin & Hle & Hfa).
  split.
  - destruct Hin as [->|Hin]; [left|by right].
  - by constructor.
Qed.

Lemma window_last_n w (s : Series) n :
  length s = n -> 0 < w <= n -> Pd.window w s (n - 1) = drop (n - w) s.
Proof. intros <-. apply window_last. Qed.

(** The volatility [leverage] works with on a frame of at least 14 rows. *)
Lemma combined_volatility_spec series_std df close high low :
  well_formed df -> 14 <= nrows df ->
  columns df !! "close" = Some close ->
  columns df !! "high" = Some high ->
  columns df !! "low" = Some low ->
  exists last_close,
    last close = Some last_close /\
    combined_volatility series_std df
    = Some (py_max
        (series_std (Pd.dropna (Pd.pct_change 1 close)))
        (div (sub (if existsb is_nan (drop (nrows df - 14) high) then nan
                   else Pd.maximum (drop (nrows df - 14) high))
                  (if existsb is_nan (drop (nrows df - 14) low) then nan
                   else Pd.minimum (drop (nrows df - 14) low)))
             last_close)).
Proof.
  intros Hwf Hn Hc Hh Hl.
  pose proof (well_formed_length df _ _ Hwf Hc) as Lc.
  pose proof (well_formed_length df _ _ Hwf Hh) as Lh.
  pose proof (well_formed_length df _ _ Hwf Hl) as Ll.
  destruct (last close) as [last_close|] eqn:Hlast.
  2:{ apply last_None in Hlast. subst close. simpl in Lc. lia. }
  exists last_close. split; [done|].
  unfold combined_volatility. rewrite Hc, Hh, Hl. cbn [mbind option_bind].
  unfold Pd.iloc_last, Pd.ssub, Pd.rolling_max, Pd.rolling_min.
  set (atr := zip_with sub _ _).
  assert (length atr = nrows df) as La.
  { subst atr. rewrite length_zip_with, !rolling_length. lia. }
  rewrite decide_True by lia.
  rewrite (last_lookup atr), La. subst atr.
  rewrite lookup_zip_with.
  replace (Init.Nat.pred (nrows df)) with (nrows df - 1) by lia.
  rewrite !rolling_lookup by lia.
  rewrite !decide_True by lia.
  cbn [mbind option_bind]. rewrite Hlast. cbn [mbind option_bind].
  rewrite (window_last_n 14 high (nrows df)) by (done || lia).
  by rewrite (window_last_n 14 low (nrows df)) by (done || lia).
Qed.

(** C5, as stated, fails: on twenty flat candles with a host maximum of 0.5
    [leverage] returns 1, above [min(max_leverage, 0.5) = 0.5]. *)
Lemma leverage_above_host_maximum :
  leverage default_parameters sample_std flat_frame (of_Z 10) (lit 5 10)
    = Some (of_Z 1) /\
  py_min (of_Z (max_leverage default_parameters)) (lit 5 10) = lit 5 10 /\
  le (of_Z 1) (lit 5 10) = false.
Proof. repeat split; vm_compute; reflexivity. Qed.

(** C5, amended: with at least 20 candles [leverage] takes as combined
    volatility the maximum of (a) the standard deviation of the one-period
    percent returns and (b) (highest high of the last 14 candles - lowest low
    of the last 14 candles) / last close, picks the multiplier 0.5 above the
    threshold, 0.75 above 0.7 x threshold and 1.0 otherwise, and returns
    [max(1, min(base_leverage * multiplier, max_leverage, host maximum))].
    The result is at least 1, and it is at most
    [min(max_leverage, host maximum)] whenever that minimum is at least 1. *)
Theorem leverage_enough_history p series_std df proposed_leverage max_lev
    close high low :
  well_formed df -> 20 <= nrows df ->
  columns df !! "close" = Some close ->
  columns df !! "high" = Some high ->
  columns df !! "low" = Some low ->
  exists last_close combined multiplier result,
    last close = Some last_close /\
    combined
    = py_max
        (series_std (Pd.dropna (Pd.pct_change 1 close)))
        (div (sub (if existsb is_nan (drop (nrows df - 14) high) then nan
                   else Pd.maximum (drop (nrows df - 14) high))
                  (if existsb is_nan (drop (nrows df - 14) low) then nan
                   else Pd.minimum (drop (nrows df - 14) low)))
             last_close) /\
    multiplier
    = (if gt combined (volatility_threshold p) then lit 5 10
       else if gt combined (mul (volatility_threshold p) (lit 7 10)) then lit 75 100
       else of_Z 1) /\
    result
    = py_max (of_Z 1)
        (py_min3 (mul (of_Z (base_leverage p)) multiplier)
                 (of_Z (max_leverage p)) max_lev) /\
    leverage p series_std df proposed_leverage max_lev = Some result /\
    le (of_Z 1) result = true /\
    (le (of_Z 1) (py_min (of_Z (max_leverage p)) max_lev) = true ->
     le result (py_min (of_Z (max_leverage p)) max_lev) = true).
Proof.
  intros Hwf Hn Hc Hh Hl.
  destruct (combined_volatility_spec series_std df close high low)
    as (last_close & Hlast & Hcv); [done|lia|done..|].
  eexists last_close, _, _, _.
  split; [done|]. split; [reflexivity|]. split; [reflexivity|].
  split; [reflexivity|]. split.
  - rewrite leverage_long_history by done. by rewrite Hcv.
  - split; [by apply py_max_lower|apply clamp_upper].
Qed.

Lemma leverage_enough_history_witness :
  exists last_close combined multiplier result,
    last (replicate 20 (of_Z 100)) = Some last_close /\
    combined
    = py_max
        (sample_std (Pd.dropna (Pd.pct_change 1 (replicate 20 (of_Z 100)))))
        (div (sub (if existsb is_nan (drop (nrows flat_frame - 14) (replicate 20 (of_Z 101)))
                   then nan
                   else Pd.maximum (drop (nrows flat_frame - 14) (replicate 20 (of_Z 101))))
                  (if existsb is_nan (drop (nrows flat_frame - 14) (replicate 20 (of_Z 99)))
                   then nan
                   else Pd.minimum (drop (nrows flat_frame - 14) (replicate 20 (of_Z 99)))))
             last_close) /\
    multiplier
    = (if gt combined (volatility_threshold default_parameters) then lit 5 10
       else if gt combined (mul (volatility_threshold default_parameters) (lit 7 10))
            then lit 75 100
       else of_Z 1) /\
    result
    = py_max (of_Z 1)
        (py_min3 (mul (of_Z (base_leverage default_parameters)) multiplier)
                 (of_Z (max_leverage default_parameters)) (of_Z 20)) /\
    leverage default_parameters sample_std flat_frame (of_Z 10) (of_Z 20) = Some result /\
    le (of_Z 1) result = true /\
    (le (of_Z 1) (py_min (of_Z (max_leverage default_parameters)) (of_Z 20)) = true ->
     le result (py_min (of_Z (max_leverage default_parameters)) (of_Z 20)) = true).
Proof.
  apply (leverage_enough_history default_parameters sample_std flat_frame
           (of_Z 10) (of_Z 20)).
  - by_compute.
  - simpl. lia.
  - vm_compute. reflexivity.
  - vm_compute. reflexivity.
  - vm_compute. reflexivity.
Defined.

(** ** Indicators *)

Lemma length_align n (s : Series) : length (Pd.align n s) = n.
Proof.
  unfold Pd.align. rewrite length_app, length_take, length_replicate. lia.
Qed.

Lemma align_id n (s : Series) : length s = n -> Pd.align n s = s.
Proof.
  intros <-. unfold Pd.align.
  rewrite take_ge by lia. rewrite Nat.sub_diag. simpl. apply app_nil_r.
Qed.

Lemma length_shift k (s : Series) : length (Pd.shift k s) = length s.
Proof.
  unfold Pd.shift. rewrite length_take, length_app, length_replicate. lia.
Qed.

Lemma shift_lookup_lt k (s : Series) i :
  i < k -> i < length s -> Pd.shift k s !! i = Some nan.
Proof.
  intros Hk Hi. unfold Pd.shift.
  rewrite lookup_take_lt by done.
  rewrite lookup_app_l by (rewrite length_replicate; lia).
  by rewrite lookup_replicate_2.
Qed.

Lemma shift_lookup_ge k (s : Series) i :
  k <= i -> i < length s -> Pd.shift k s !! i = s !! (i - k).
Proof.
  intros Hk Hi. unfold Pd.shift.
  rewrite lookup_take_lt by done.
  rewrite lookup_app_r by (rewrite length_replicate; lia).
  by rewrite length_replicate.
Qed.

Lemma length_ffill_from prev (s : Series) : length (Pd.ffill_from prev s) = length s.
Proof. revert prev. induction s as [|x s IH]; intros prev; simpl; [done|by rewrite IH]. Qed.

Lemma div_nan_r x : div x nan = nan.
Proof. by destruct x. Qed.

Lemma sub_nan_r x : sub x nan = nan.
Proof. by destruct x. Qed.

Lemma setitem_well_formed df c s :
  well_formed df -> well_formed (Pd.setitem df c s).
Proof.
  intros Hwf. unfold well_formed, Pd.setitem. simpl.
  apply map_Forall_insert_2; [apply length_align|done].
Qed.

Ltac lookup_columns :=
  repeat first
    [ rewrite lookup_insert_eq
    | rewrite lookup_insert_ne by done ].

(** *** The blocks of [populate_indicators], one by one

    A frame is taken apart into its length [n] and its columns [m]; each
    block adds columns of length [n] and leaves the others as they are. *)
Section Blocks.
Variable p : StrategyParameters.
Variable ta_MACD : DataFrame -> Z -> Z -> Z -> Series * Series * Series.
Variable ta_RSI : DataFrame -> Z -> Series.
Variable ta_BBANDS : DataFrame -> Z -> Z -> Z -> Series * Series * Series.
Variable ta_EMA : DataFrame -> Z -> Series.
Variable ta_ADX : DataFrame -> Z -> Series.
Variable ta_STOCH : DataFrame -> Z -> Z -> Z -> Series * Series.
Variable ta_WILLR : DataFrame -> Z -> Series.
Variable ta_CCI : DataFrame -> Z -> Series.
Variable window_mean : Series -> nat -> float.
Variable n : nat.
Implicit Types m : gmap string (list float).

Lemma macd_block_spec m :
  exists a b c, length a = n /\ length b = n /\ length c = n /\
    macd_block p ta_MACD (mkDataFrame n m)
    = mkDataFrame n (<["macdhist" := c]> (<["macdsignal" := b]> (<["macd" := a]> m))).
Proof.
  unfold macd_block. destruct (ta_MACD _ _ _ _) as [[a b] c].
  exists (Pd.align n a), (Pd.align n b), (Pd.align n c).
  by rewrite !length_align.
Qed.

Lemma rsi_block_spec m :
  exists r, length r = n /\
    rsi_block p ta_RSI (mkDataFrame n m) = mkDataFrame n (<["rsi" := r]> m).
Proof. eexists. split; [|reflexivity]. apply length_align. Qed.

Lemma bollinger_block_spec m close :
  m !! "close" = Some close -> length close = n ->
  exists L M U, length L = n /\ length M = n /\ length U = n /\
    bollinger_block ta_BBANDS (mkDataFrame n m)
    = Some (mkDataFrame n
        (<["bb_width" := Pd.sdiv (Pd.ssub U L) M]>
        (<["bb_percent" := Pd.sdiv (Pd.ssub close L) (Pd.ssub U L)]>
        (<["bb_upperband" := U]>
        (<["bb_middleband" := M]>
        (<["bb_lowerband" := L]> m)))))).
Proof.
  intros Hc Lc. unfold bollinger_block.
  destruct (ta_BBANDS _ _ _ _) as [[U M] L].
  exists (Pd.align n L), (Pd.align n M), (Pd.align n U).
  rewrite !length_align. do 3 (split; [done|]).
  cbn [Pd.setitem columns nrows]. lookup_columns. rewrite Hc.
  cbn [mbind option_bind Pd.setitem columns nrows]. lookup_columns.
  cbn [mbind option_bind]. unfold Pd.setitem. cbn [columns nrows].
  repeat rewrite (align_id n (Pd.sdiv _ _))
    by (unfold Pd.sdiv, Pd.ssub; rewrite !length_zip_with, ?length_align; lia).
  done.
Qed.

Lemma volume_block_spec m volume :
  m !! "volume" = Some volume -> length volume = n ->
  volume_block window_mean (mkDataFrame n m)
  = Some (mkDataFrame n
      (<["volume_ratio" := Pd.sdiv volume (Pd.rolling 20 window_mean volume)]>
      (<["volume_mean" := Pd.rolling 20 window_mean volume]> m))).
Proof.
  intros Hv Lv. unfold volume_block. cbn [columns]. rewrite Hv.
  cbn [mbind option_bind Pd.setitem columns nrows]. lookup_columns. rewrite Hv.
  cbn [mbind option_bind]. unfold Pd.setitem. cbn [columns nrows].
  rewrite (align_id n (Pd.rolling _ _ _)) by (rewrite rolling_length; lia).
  rewrite (align_id n (Pd.sdiv _ _))
    by (unfold Pd.sdiv; rewrite length_zip_with, rolling_length; lia).
  done.
Qed.

Lemma momentum_block_spec m close :
  m !! "close" = Some close -> length close = n ->
  momentum_block (mkDataFrame n m)
  = Some (mkDataFrame n
      (<["price_momentum" :=
           Pd.ssub_scalar (Pd.sdiv close (Pd.shift 5 close)) (of_Z 1)]>
      (<["price_change" := Pd.pct_change 5 close]> m))).
Proof.
  intros Hc Lc. unfold momentum_block. cbn [columns]. rewrite Hc.
  cbn [mbind option_bind Pd.setitem columns nrows]. lookup_columns. rewrite Hc.
  cbn [mbind option_bind]. unfold Pd.setitem. cbn [columns nrows].
  rewrite (align_id n (Pd.pct_change _ _)), (align_id n (Pd.ssub_scalar _ _));
    [done|..];
    unfold Pd.pct_change, Pd.ssub_scalar, Pd.sdiv, Pd.ffill;
    rewrite ?length_fmap, ?length_zip_with, ?length_shift, ?length_ffill_from; lia.
Qed.

Lemma ema_block_spec m :
  exists a b, length a = n /\ length b = n /\
    ema_block ta_EMA (mkDataFrame n m)
    = mkDataFrame n (<["ema_50" := b]> (<["ema_20" := a]> m)).
Proof.
  unfold ema_block. eexists _, _. split; [|split; [|reflexivity]]; apply length_align.
Qed.

Lemma adx_block_spec m :
  exists a, length a = n /\
    adx_block ta_ADX (mkDataFrame n m) = mkDataFrame n (<["adx" := a]> m).
Proof. eexists. split; [|reflexivity]. apply length_align. Qed.

Lemma stoch_block_spec m :
  exists k d, length k = n /\ length d = n /\
    stoch_block ta_STOCH (mkDataFrame n m)
    = mkDataFrame n (<["stoch_d" := d]> (<["stoch_k" := k]> m)).
Proof.
  unfold stoch_block. destruct (ta_STOCH _ _ _ _) as [k d].
  exists (Pd.align n k), (Pd.align n d). by rewrite !length_align.
Qed.

Lemma willr_block_spec m :
  exists a, length a = n /\
    willr_block ta_WILLR (mkDataFrame n m) = mkDataFrame n (<["williams_r" := a]> m).
Proof. eexists. split; [|reflexivity]. apply length_align. Qed.

Lemma cci_block_spec m :
  exists a, length a = n /\
    cci_block ta_CCI (mkDataFrame n m) = mkDataFrame n (<["cci" := a]> m).
Proof. eexists. split; [|reflexivity]. apply length_align. Qed.

Lemma length_cross_up (macd macdsignal : Series) :
  length macd = n -> length macdsignal = n -> length (cross_up macd macdsignal) = n.
Proof.
  intros H1 H2. unfold cross_up, Pd.np_where, Pd.mand, Pd.cmp_series.
  rewrite length_fmap, !length_zip_with, !length_shift. lia.
Qed.

Lemma length_cross_down (macd macdsignal : Series) :
  length macd = n -> length macdsignal = n -> length (cross_down macd macdsignal) = n.
Proof.
  intros H1 H2. unfold cross_down, Pd.np_where, Pd.mand, Pd.cmp_series.
  rewrite length_fmap, !length_zip_with, !length_shift. lia.
Qed.

Lemma cross_block_spec m macd macdsignal :
  m !! "macd" = Some macd -> m !! "macdsignal" = Some macdsignal ->
  length macd = n -> length macdsignal = n ->
  cross_block (mkDataFrame n m)
  = Some (mkDataFrame n
      (<["macd_cross_down" := cross_down macd macdsignal]>
      (<["macd_cross" := cross_up macd macdsignal]> m))).
Proof.
  intros Hm Hs Lm Ls. unfold cross_block, Pd.setitem_array. cbn [columns nrows].
  rewrite Hm, Hs. cbn [mbind option_bind].
  rewrite decide_True by by apply length_cross_up.
  cbn [mbind option_bind columns nrows]. lookup_columns. rewrite Hm, Hs.
  cbn [mbind option_bind].
  by rewrite decide_True by by apply length_cross_down.
Qed.
End Blocks.

(** *** [populate_indicators] as a whole *)

Section IndicatorsSpec.
Variable p : StrategyParameters.
Variable ta_MACD : DataFrame -> Z -> Z -> Z -> Series * Series * Series.
Variable ta_RSI : DataFrame -> Z -> Series.
Variable ta_BBANDS : DataFrame -> Z -> Z -> Z -> Series * Series * Series.
Variable ta_EMA : DataFrame -> Z -> Series.
Variable ta_ADX : DataFrame -> Z -> Series.
Variable ta_STOCH : DataFrame -> Z -> Z -> Z -> Series * Series.
Variable ta_WILLR : DataFrame -> Z -> Series.
Variable ta_CCI : DataFrame -> Z -> Series.
Variable window_mean : Series -> nat -> float.

(** The frame [populate_indicators] produces: the columns of the input and
    on top of them the twenty-two derived columns, each of the input's
    length. *)
Lemma indicators_columns df close volume :
  well_formed df ->
  columns df !! "close" = Some close -> columns df !! "volume" = Some volume ->
  exists macd macdsignal macdhist rsi L M U ema_20 ema_50 adx k d w cci,
    Forall (fun s : Series => length s = nrows df)
      [macd; macdsignal; macdhist; rsi; L; M; U; ema_20; ema_50; adx; k; d; w; cci] /\
    indicators p ta_MACD ta_RSI ta_BBANDS ta_EMA ta_ADX ta_STOCH ta_WILLR ta_CCI
      window_mean df
    = Some (mkDataFrame (nrows df)
        (<["macd_cross_down" := cross_down macd macdsignal]>
        (<["macd_cross" := cross_up macd macdsignal]>
        (<["cci" := cci]>
        (<["williams_r" := w]>
        (<["stoch_d" := d]>
        (<["stoch_k" := k]>
        (<["adx" := adx]>
        (<["ema_50" := ema_50]>
        (<["ema_20" := ema_20]>
        (<["price_momentum" :=
             Pd.ssub_scalar (Pd.sdiv close (Pd.shift 5 close)) (of_Z 1)]>
        (<["price_change" := Pd.pct_change 5 close]>
        (<["volume_ratio" := Pd.sdiv volume (Pd.rolling 20 window_mean volume)]>
        (<["volume_mean" := Pd.rolling 20 window_mean volume]>
        (<["bb_width" := Pd.sdiv (Pd.ssub U L) M]>
        (<["bb_percent" := Pd.sdiv (Pd.ssub close L) (Pd.ssub U L)]>
        (<["bb_upperband" := U]>
        (<["bb_middleband" := M]>
        (<["bb_lowerband" := L]>
        (<["rsi" := rsi]>
        (<["macdhist" := macdhist]>
        (<["macdsignal" := macdsignal]>
        (<["macd" := macd]> (columns df)))))))))))))))))))))))).
Proof.
  intros Hwf Hc Hv.
  pose proof (well_formed_length df _ _ Hwf Hc) as Lc.
  pose proof (well_formed_length df _ _ Hwf Hv) as Lv.
  destruct df as [n m]. cbn [nrows columns] in *.
  unfold indicators.
  destruct (macd_block_spec p ta_MACD n m) as (macd & sig & hist & L1 & L2 & L3 & ->).
  destruct (rsi_block_spec p ta_RSI n
              (<["macdhist" := hist]> (<["macdsignal" := sig]> (<["macd" := macd]> m))))
    as (rsi & L4 & ->).
  edestruct (bollinger_block_spec ta_BBANDS n) as (L & M & U & L5 & L6 & L7 & ->);
    [by lookup_columns|done|].
  cbn [mbind option_bind].
  erewrite volume_block_spec; [|by lookup_columns|done].
  cbn [mbind option_bind].
  erewrite momentum_block_spec; [|by lookup_columns|done].
  cbn [mbind option_bind].
  edestruct (ema_block_spec ta_EMA n) as (e20 & e50 & L8 & L9 & ->).
  edestruct (adx_block_spec ta_ADX n) as (adx & L10 & ->).
  edestruct (stoch_block_spec ta_STOCH n) as (k & d & L11 & L12 & ->).
  edestruct (willr_block_spec ta_WILLR n) as (w & L13 & ->).
  edestruct (cci_block_spec ta_CCI n) as (cci & L14 & ->).
  erewrite cross_block_spec; [|by lookup_columns..|done|done].
  exists macd, sig, hist, rsi, L, M, U, e20, e50, adx, k, d, w, cci.
  split; [|done]. by repeat constructor.
Qed.
End IndicatorsSpec.

(** *** Warm-up positions of the columns the strategy computes itself *)

Lemma rolling_warmup w agg (s : Series) i :
  i < length s -> S i < w -> Pd.rolling w agg s !! i = Some nan.
Proof.
  intros Hi Hw. rewrite rolling_lookup by done. by rewrite decide_False by lia.
Qed.

Lemma sdiv_lookup (s t : Series) i x y :
  s !! i = Some x -> t !! i = Some y -> Pd.sdiv s t !! i = Some (div x y).
Proof. intros H1 H2. unfold Pd.sdiv. by rewrite lookup_zip_with, H1, H2. Qed.

Lemma ssub_lookup (s t : Series) i x y :
  s !! i = Some x -> t !! i = Some y -> Pd.ssub s t !! i = Some (sub x y).
Proof. intros H1 H2. unfold Pd.ssub. by rewrite lookup_zip_with, H1, H2. Qed.

Lemma volume_ratio_warmup window_mean (volume : Series) i :
  i < length volume -> i < 19 ->
  Pd.sdiv volume (Pd.rolling 20 window_mean volume) !! i = Some nan.
Proof.
  intros Hi Hw. destruct (lookup_lt_is_Some_2 volume i Hi) as [x Hx].
  erewrite sdiv_lookup; [|done|by apply rolling_warmup; [|lia]].
  by rewrite div_nan_r.
Qed.

Lemma price_momentum_warmup (close : Series) i :
  i < length close -> i < 5 ->
  Pd.ssub_scalar (Pd.sdiv close (Pd.shift 5 close)) (of_Z 1) !! i = Some nan.
Proof.
  intros Hi Hw. destruct (lookup_lt_is_Some_2 close i Hi) as [x Hx].
  unfold Pd.ssub_scalar. rewrite list_lookup_fmap.
  erewrite sdiv_lookup; [|done|by apply shift_lookup_lt].
  by rewrite div_nan_r.
Qed.

Lemma pct_change_warmup k (close : Series) i :
  i < length close -> i < k -> Pd.pct_change k close !! i = Some nan.
Proof.
  intros Hi Hw. unfold Pd.pct_change, Pd.ssub_scalar, Pd.ffill.
  destruct (lookup_lt_is_Some_2 (Pd.ffill_from nan close) i) as [x Hx].
  { by rewrite length_ffill_from. }
  rewrite list_lookup_fmap.
  erewrite sdiv_lookup;
    [|done|apply shift_lookup_lt; [done|by rewrite length_ffill_from]].
  by rewrite div_nan_r.
Qed.

(** NaN in a band goes through [bb_percent] and [bb_width]. *)
Lemma bb_percent_nan (close L U : Series) i c l u :
  close !! i = Some c -> L !! i = Some l -> U !! i = Some u ->
  is_nan l || is_nan u = true ->
  Pd.sdiv (Pd.ssub close L) (Pd.ssub U L) !! i = Some nan.
Proof.
  intros Hc Hl Hu Hnan.
  erewrite sdiv_lookup; [|by apply ssub_lookup..].
  f_equal. destruct l, u; simpl in Hnan; try done;
    rewrite ?sub_nan_r; by rewrite ?div_nan_r.
Qed.

Lemma bb_width_nan (L M U : Series) i l m u :
  L !! i = Some l -> M !! i = Some m -> U !! i = Some u ->
  is_nan l || is_nan m || is_nan u = true ->
  Pd.sdiv (Pd.ssub U L) M !! i = Some nan.
Proof.
  intros Hl Hm Hu Hnan.
  erewrite sdiv_lookup; [|by apply ssub_lookup|done].
  f_equal. destruct m; try by rewrite div_nan_r.
  all: destruct l, u; simpl in Hnan; try done; by rewrite ?sub_nan_r.
Qed.

(** The crossover flags, position by position. *)
Lemma cross_up_lookup (macd macdsignal : Series) i x y :
  macd !! i = Some x -> macdsignal !! i = Some y ->
  length macd = length macdsignal ->
  cross_up macd macdsignal !! i
  = Some (if gt x y &&
             match i with
             | 0 => false
             | S j => le (default nan (macd !! j)) (default nan (macdsignal !! j))
             end
          then of_Z 1 else of_Z 0).
Proof.
  intros Hx Hy Hlen. unfold cross_up, Pd.np_where.
  pose proof (lookup_lt_Some _ _ _ Hx) as Hi.
  rewrite list_lookup_fmap. destruct i as [|j].
  - erewrite mand_lookup;
      [|by eapply cmp_series_lookup
       |eapply cmp_series_lookup; apply shift_lookup_lt; lia].
    simpl. by change (le nan nan) with false.
  - destruct (lookup_lt_is_Some_2 macd j) as [a Ha]; [lia|].
    destruct (lookup_lt_is_Some_2 macdsignal j) as [b Hb]; [lia|].
    erewrite mand_lookup; [|by eapply cmp_series_lookup|].
    2:{ eapply cmp_series_lookup; rewrite shift_lookup_ge by lia;
          replace (S j - 1) with j by lia; eassumption. }
    by rewrite Ha, Hb.
Qed.

Lemma cross_down_lookup (macd macdsignal : Series) i x y :
  macd !! i = Some x -> macdsignal !! i = Some y ->
  length macd = length macdsignal ->
  cross_down macd macdsignal !! i
  = Some (if lt x y &&
             match i with
             | 0 => false
             | S j => ge (default nan (macd !! j)) (default nan (macdsignal !! j))
             end
          then of_Z 1 else of_Z 0).
Proof.
  intros Hx Hy Hlen. unfold cross_down, Pd.np_where.
  pose proof (lookup_lt_Some _ _ _ Hx) as Hi.
  rewrite list_lookup_fmap. destruct i as [|j].
  - erewrite mand_lookup;
      [|by eapply cmp_series_lookup
       |eapply cmp_series_lookup; apply shift_lookup_lt; lia].
    simpl. by change (ge nan nan) with false.
  - destruct (lookup_lt_is_Some_2 macd j) as [a Ha]; [lia|].
    destruct (lookup_lt_is_Some_2 macdsignal j) as [b Hb]; [lia|].
    erewrite mand_lookup; [|by eapply cmp_series_lookup|].
    2:{ eapply cmp_series_lookup; rewrite shift_lookup_ge by lia;
          replace (S j - 1) with j by lia; eassumption. }
    by rewrite Ha, Hb.
Qed.

Section IndicatorsFrame.
Variable p : StrategyParameters.
Variable ta_MACD : DataFrame -> Z -> Z -> Z -> Series * Series * Series.
Variable ta_RSI : DataFrame -> Z -> Series.
Variable ta_BBANDS : DataFrame -> Z -> Z -> Z -> Series * Series * Series.
Variable ta_EMA : DataFrame -> Z -> Series.
Variable ta_ADX : DataFrame -> Z -> Series.
Variable ta_STOCH : DataFrame -> Z -> Z -> Z -> Series * Series.
Variable ta_WILLR : DataFrame -> Z -> Series.
Variable ta_CCI : DataFrame -> Z -> Series.
Variable window_mean : Series -> nat -> float.

Lemma indicators_frame df :
  candle_frame df ->
  exists df' close volume macd macdsignal L M U,
    indicators p ta_MACD ta_RSI ta_BBANDS ta_EMA ta_ADX ta_STOCH ta_WILLR ta_CCI
      window_mean df = Some df' /\
    nrows df' = nrows df /\ well_formed df' /\
    (forall c, c ∉ derived_columns -> columns df' !! c = columns df !! c) /\
    Forall (fun c => is_Some (columns df' !! c)) derived_columns /\
    (columns df !! "close" = Some close /\ columns df !! "volume" = Some volume /\
     columns df' !! "macd" = Some macd /\
     columns df' !! "macdsignal" = Some macdsignal /\
     columns df' !! "bb_lowerband" = Some L /\
     columns df' !! "bb_middleband" = Some M /\
     columns df' !! "bb_upperband" = Some U) /\
    (columns df' !! "bb_percent" = Some (Pd.sdiv (Pd.ssub close L) (Pd.ssub U L)) /\
     columns df' !! "bb_width" = Some (Pd.sdiv (Pd.ssub U L) M) /\
     columns df' !! "volume_mean" = Some (Pd.rolling 20 window_mean volume) /\
     columns df' !! "volume_ratio"
       = Some (Pd.sdiv volume (Pd.rolling 20 window_mean volume)) /\
     columns df' !! "price_change" = Some (Pd.pct_change 5 close) /\
     columns df' !! "price_momentum"
       = Some (Pd.ssub_scalar (Pd.sdiv close (Pd.shift 5 close)) (of_Z 1)) /\
     columns df' !! "macd_cross" = Some (cross_up macd macdsignal) /\
     columns df' !! "macd_cross_down" = Some (cross_down macd macdsignal)).
Proof.
  intros [Hwf Hcols]. decompose_Forall_hyps.
  repeat match goal with
  | H : is_Some (columns _ !! _) |- _ => destruct H as [? H]
  end.
  match goal with
  | Hc : columns df !! "close" = Some ?close,
    Hv : columns df !! "volume" = Some ?volume |- _ =>
      destruct (indicators_columns p ta_MACD ta_RSI ta_BBANDS ta_EMA ta_ADX ta_STOCH
                  ta_WILLR ta_CCI window_mean df close volume Hwf Hc Hv)
        as (macd & sig & hist & rsi & L & M & U & e20 & e50 & adx & k & d & w & cci
            & Hlen & Heq);
      pose proof (well_formed_length df _ _ Hwf Hc) as Lc;
      pose proof (well_formed_length df _ _ Hwf Hv) as Lv;
      eexists _, close, volume, macd, sig, L, M, U
  end.
  rewrite !Forall_cons in Hlen. destruct_and!.
  split; [exact Heq|]. split; [reflexivity|]. split.
  { unfold well_formed. cbn [nrows columns].
    repeat (apply map_Forall_insert_2; [|]); try done.
    - by apply length_cross_down.
    - by apply length_cross_up.
    - unfold Pd.ssub_scalar, Pd.sdiv.
      rewrite length_fmap, length_zip_with, length_shift. lia.
    - unfold Pd.pct_change, Pd.ssub_scalar, Pd.sdiv, Pd.ffill.
      rewrite length_fmap, length_zip_with, length_shift, length_ffill_from. lia.
    - unfold Pd.sdiv. rewrite length_zip_with, rolling_length. lia.
    - rewrite rolling_length. lia.
    - unfold Pd.sdiv, Pd.ssub. rewrite !length_zip_with. lia.
    - unfold Pd.sdiv, Pd.ssub. rewrite !length_zip_with. lia. }
  split.
  { intros c Hc. unfold derived_columns in Hc. rewrite !not_elem_of_cons in Hc.
    destruct_and!. cbn [columns]. by rewrite !lookup_insert_ne by done. }
  split.
  { unfold derived_columns. cbn [columns].
    repeat (apply Forall_cons; split; [lookup_columns; by eexists|]).
    constructor. }
  cbn [columns]. split; repeat split; lookup_columns; done.
Qed.
End IndicatorsFrame.

Lemma cmp_nan x y :
  is_nan x || is_nan y = true ->
  lt x y = false /\ le x y = false /\ gt x y = false /\ ge x y = false.
Proof. by destruct x as [?|[]| |[] ? ?], y as [?|[]| |[] ? ?]. Qed.

Lemma cell_value df c i x : cell df c i = Some x -> value df c i = x.
Proof. unfold value. by intros ->. Qed.

Lemma cell_column df c s i : columns df !! c = Some s -> cell df c i = s !! i.
Proof. unfold cell. by intros ->. Qed.

Section PopulateIndicators.
Variable p : StrategyParameters.
Variable ta_MACD : DataFrame -> Z -> Z -> Z -> Series * Series * Series.
Variable ta_RSI : DataFrame -> Z -> Series.
Variable ta_BBANDS : DataFrame -> Z -> Z -> Z -> Series * Series * Series.
Variable ta_EMA : DataFrame -> Z -> Series.
Variable ta_ADX : DataFrame -> Z -> Series.
Variable ta_STOCH : DataFrame -> Z -> Z -> Z -> Series * Series.
Variable ta_WILLR : DataFrame -> Z -> Series.
Variable ta_CCI : DataFrame -> Z -> Series.
Variable window_mean : Series -> nat -> float.

Lemma populate_indicators_frame (h : gmap nat DataFrame) r df df' :
  h !! r = Some df ->
  indicators p ta_MACD ta_RSI ta_BBANDS ta_EMA ta_ADX ta_STOCH ta_WILLR ta_CCI
    window_mean df = Some df' ->
  populate_indicators p ta_MACD ta_RSI ta_BBANDS ta_EMA ta_ADX ta_STOCH ta_WILLR
    ta_CCI window_mean h r = Some (<[r := df']> h, r).
Proof.
  intros Hr He. unfold populate_indicators. by rewrite Hr; simpl; rewrite He.
Qed.

(** The warm-up positions of the rolling mean and of the five-candle
    changes. *)
Lemma indicators_warmup df df' :
  candle_frame df ->
  indicators p ta_MACD ta_RSI ta_BBANDS ta_EMA ta_ADX ta_STOCH ta_WILLR ta_CCI
    window_mean df = Some df' ->
  forall i, i < nrows df ->
    (i < 19 -> cell df' "volume_mean" i = Some nan /\
               cell df' "volume_ratio" i = Some nan) /\
    (i < 5 -> cell df' "price_change" i = Some nan /\
              cell df' "price_momentum" i = Some nan).
Proof.
  intros Hcf He i Hi.
  destruct (indicators_frame p ta_MACD ta_RSI ta_BBANDS ta_EMA ta_ADX ta_STOCH
              ta_WILLR ta_CCI window_mean df Hcf)
    as (df2 & close & volume & macd & sig & L & M & U & He2 & Hn & Hwf' & _ & _
        & (Hc & Hv & _) & (_ & _ & Hvm & Hvr & Hpc & Hpm & _)).
  rewrite He in He2. injection He2 as <-.
  destruct Hcf as [Hwf _].
  pose proof (well_formed_length df _ _ Hwf Hc) as Lc.
  pose proof (well_formed_length df _ _ Hwf Hv) as Lv.
  split; intros Hw.
  - rewrite (cell_column _ _ _ _ Hvm), (cell_column _ _ _ _ Hvr). split.
    + apply rolling_warmup; lia.
    + apply volume_ratio_warmup; lia.
  - rewrite (cell_column _ _ _ _ Hpc), (cell_column _ _ _ _ Hpm). split.
    + apply pct_change_warmup; lia.
    + apply price_momentum_warmup; lia.
Qed.

End PopulateIndicators.

(** C7, as stated, fails: on the five candles of
    [test_indicators_with_insufficient_data] TA-Lib has nothing but NaN to
    return, the [macd] column is NaN at every position, and the two crossover
    flag columns hold the number 0 at every position, not the marker. *)
Lemma cross_flags_zero_in_warmup :
  column_after
    (populate_indicators default_parameters ta_warmup3 ta_warmup1 ta_warmup3
       ta_warmup1 ta_warmup1 ta_warmup2 ta_warmup1 ta_warmup1 (mean_of_window 20)
       {[0 := five_candles]} 0) "macd" = Some (replicate 5 nan) /\
  column_after
    (populate_indicators default_parameters ta_warmup3 ta_warmup1 ta_warmup3
       ta_warmup1 ta_warmup1 ta_warmup2 ta_warmup1 ta_warmup1 (mean_of_window 20)
       {[0 := five_candles]} 0) "macd_cross" = Some (replicate 5 (of_Z 0)) /\
  column_after
    (populate_indicators default_parameters ta_warmup3 ta_warmup1 ta_warmup3
       ta_warmup1 ta_warmup1 ta_warmup2 ta_warmup1 ta_warmup1 (mean_of_window 20)
       {[0 := five_candles]} 0) "macd_cross_down" = Some (replicate 5 (of_Z 0)) /\
  is_nan (of_Z 0) = false.
Proof. repeat split; vm_compute; reflexivity. Qed.

Section IndicatorMarkers.
Variable p : StrategyParameters.
Variable ta_MACD : DataFrame -> Z -> Z -> Z -> Series * Series * Series.
Variable ta_RSI : DataFrame -> Z -> Series.
Variable ta_BBANDS : DataFrame -> Z -> Z -> Z -> Series * Series * Series.
Variable ta_EMA : DataFrame -> Z -> Series.
Variable ta_ADX : DataFrame -> Z -> Series.
Variable ta_STOCH : DataFrame -> Z -> Z -> Z -> Series * Series.
Variable ta_WILLR : DataFrame -> Z -> Series.
Variable ta_CCI : DataFrame -> Z -> Series.
Variable window_mean : Series -> nat -> float.

(** C7, amended: for every candle frame, the columns [populate_indicators]
    computes from a rolling window or a shift hold NaN at the positions whose
    window is not complete (volume_mean and volume_ratio before position 19,
    price_change and price_momentum before position 5), and bb_percent and
    bb_width hold NaN wherever a band they read is NaN: the marker is
    propagated, not zeroed.  The macd_cross and macd_cross_down columns never
    hold the marker: they hold 0 or 1, and 0 at position 0 and wherever MACD
    or its signal line is NaN at the position or the one before. *)
Theorem indicator_markers (h : gmap nat DataFrame) r df :
  h !! r = Some df -> candle_frame df ->
  exists df',
    populate_indicators p ta_MACD ta_RSI ta_BBANDS ta_EMA ta_ADX ta_STOCH ta_WILLR
      ta_CCI window_mean h r = Some (<[r := df']> h, r) /\
    forall i, i < nrows df ->
      (i < 19 -> cell df' "volume_mean" i = Some nan /\
                 cell df' "volume_ratio" i = Some nan) /\
      (i < 5 -> cell df' "price_change" i = Some nan /\
                cell df' "price_momentum" i = Some nan) /\
      (is_nan (value df' "bb_lowerband" i) || is_nan (value df' "bb_upperband" i) = true ->
       cell df' "bb_percent" i = Some nan) /\
      (is_nan (value df' "bb_lowerband" i) || is_nan (value df' "bb_middleband" i)
       || is_nan (value df' "bb_upperband" i) = true ->
       cell df' "bb_width" i = Some nan) /\
      (cell df' "macd_cross" i = Some (of_Z 0) \/ cell df' "macd_cross" i = Some (of_Z 1)) /\
      (cell df' "macd_cross_down" i = Some (of_Z 0) \/
       cell df' "macd_cross_down" i = Some (of_Z 1)) /\
      (i = 0 \/
       is_nan (value df' "macd" i) || is_nan (value df' "macdsignal" i) = true \/
       is_nan (value df' "macd" (i - 1)) || is_nan (value df' "macdsignal" (i - 1)) = true ->
       cell df' "macd_cross" i = Some (of_Z 0) /\
       cell df' "macd_cross_down" i = Some (of_Z 0)).
Proof.
  intros Hr Hcf.
  destruct (indicators_frame p ta_MACD ta_RSI ta_BBANDS ta_EMA ta_ADX ta_STOCH
              ta_WILLR ta_CCI window_mean df Hcf)
    as (df' & close & volume & macd & sig & L & M & U & He & Hn & Hwf' & _ & _
        & (Hc & Hv & Hmacd & Hsig & HL & HM & HU)
        & (Hbp & Hbw & _ & _ & _ & _ & Hup & Hdown)).
  exists df'. split; [by eapply populate_indicators_frame|].
  intros i Hi.
  destruct (indicators_warmup p ta_MACD ta_RSI ta_BBANDS ta_EMA ta_ADX ta_STOCH
              ta_WILLR ta_CCI window_mean df df' Hcf He i Hi) as [Hw19 Hw5].
  split; [done|]. split; [done|].
  assert (i < nrows df') as Hi' by lia.
  pose proof (column_value df' _ _ i Hwf' HL Hi') as HLi.
  pose proof (column_value df' _ _ i Hwf' HM Hi') as HMi.
  pose proof (column_value df' _ _ i Hwf' HU Hi') as HUi.
  pose proof (column_value df' _ _ i Hwf' Hmacd Hi') as Hmi.
  pose proof (column_value df' _ _ i Hwf' Hsig Hi') as Hsi.
  pose proof (well_formed_length df' _ _ Hwf' Hmacd) as Lm.
  pose proof (well_formed_length df' _ _ Hwf' Hsig) as Ls.
  destruct Hcf as [Hwf _].
  pose proof (well_formed_length df _ _ Hwf Hc) as Lc.
  destruct (lookup_lt_is_Some_2 close i) as [c Hci]; [lia|].
  rewrite (cell_column _ _ _ _ Hbp), (cell_column _ _ _ _ Hbw),
    (cell_column _ _ _ _ Hup), (cell_column _ _ _ _ Hdown).
  rewrite (cross_up_lookup macd sig i _ _ Hmi Hsi) by lia.
  rewrite (cross_down_lookup macd sig i _ _ Hmi Hsi) by lia.
  split; [by eapply bb_percent_nan|]. split; [by eapply bb_width_nan|].
  split; [destruct (_ && _); auto|]. split; [destruct (_ && _); auto|].
  intros [->|[Hnan|Hnan]].
  - by rewrite !andb_false_r.
  - destruct (cmp_nan _ _ Hnan) as (-> & _ & -> & _). done.
  - destruct i as [|j]; [by rewrite !andb_false_r|].
    replace (S j - 1) with j in Hnan by lia.
    assert (j < nrows df') as Hj by lia.
    pose proof (column_value df' _ _ j Hwf' Hmacd Hj) as Hmj.
    pose proof (column_value df' _ _ j Hwf' Hsig Hj) as Hsj.
    rewrite Hmj, Hsj. simpl.
    destruct (cmp_nan _ _ Hnan) as (_ & -> & _ & ->).
    by rewrite !andb_false_r.
Qed.
End IndicatorMarkers.

Lemma indicator_markers_witness :
  exists df',
    populate_indicators default_parameters ta_warmup3 ta_warmup1 ta_warmup3
      ta_warmup1 ta_warmup1 ta_warmup2 ta_warmup1 ta_warmup1 (mean_of_window 20)
      {[0 := five_candles]} 0 = Some (<[0 := df']> {[0 := five_candles]}, 0) /\
    forall i, i < nrows five_candles ->
      (i < 19 -> cell df' "volume_mean" i = Some nan /\
                 cell df' "volume_ratio" i = Some nan) /\
      (i < 5 -> cell df' "price_change" i = Some nan /\
                cell df' "price_momentum" i = Some nan) /\
      (is_nan (value df' "bb_lowerband" i) || is_nan (value df' "bb_upperband" i) = true ->
       cell df' "bb_percent" i = Some nan) /\
      (is_nan (value df' "bb_lowerband" i) || is_nan (value df' "bb_middleband" i)
       || is_nan (value df' "bb_upperband" i) = true ->
       cell df' "bb_width" i = Some nan) /\
      (cell df' "macd_cross" i = Some (of_Z 0) \/ cell df' "macd_cross" i = Some (of_Z 1)) /\
      (cell df' "macd_cross_down" i = Some (of_Z 0) \/
       cell df' "macd_cross_down" i = Some (of_Z 1)) /\
      (i = 0 \/
       is_nan (value df' "macd" i) || is_nan (value df' "macdsignal" i) = true \/
       is_nan (value df' "macd" (i - 1)) || is_nan (value df' "macdsignal" (i - 1)) = true ->
       cell df' "macd_cross" i = Some (of_Z 0) /\
       cell df' "macd_cross_down" i = Some (of_Z 0)).
Proof.
  apply (indicator_markers default_parameters ta_warmup3 ta_warmup1
           ta_warmup3 ta_warmup1 ta_warmup1 ta_warmup2 ta_warmup1 ta_warmup1
           (mean_of_window 20) {[0 := five_candles]} 0 five_candles).
  - reflexivity.
  - by_compute.
Defined.

(** * Further properties *)

(** ** Comparisons with NaN *)

Lemma eqb_nan x y : is_nan x || is_nan y = true -> eqb x y = false.
Proof. by destruct x as [?|[]| |[] ? ?], y as [?|[]| |[] ? ?]. Qed.

(** Closes a goal in which a comparison is assumed to hold although one of
    its operands is NaN by [Hnan]. *)
Ltac nan_contra Hnan :=
  match goal with
  | H : eqb ?a ?b = true |- _ =>
      rewrite (eqb_nan a b) in H by (rewrite ?Hnan, ?orb_true_r; reflexivity);
      discriminate H
  | H : lt ?a ?b = true |- _ =>
      destruct (cmp_nan a b) as (E & _);
      [rewrite ?Hnan, ?orb_true_r; reflexivity|]; congruence
  | H : gt ?a ?b = true |- _ =>
      destruct (cmp_nan a b) as (_ & _ & E & _);
      [rewrite ?Hnan, ?orb_true_r; reflexivity|]; congruence
  end.

(** ** The signal rules, position by position *)

Lemma long_exit_at_ge p df i :
  well_formed df -> nrows df <= i -> long_exit_at p df i = false.
Proof.
  intros Hwf Hi. unfold long_exit_at. rewrite !(value_ge df _ i Hwf Hi).
  rewrite !orb_false_iff. repeat split;
    first [apply eqb_nan | apply cmp_nan]; reflexivity.
Qed.

Lemma short_exit_at_ge p df i :
  well_formed df -> nrows df <= i -> short_exit_at p df i = false.
Proof.
  intros Hwf Hi. unfold short_exit_at. rewrite !(value_ge df _ i Hwf Hi).
  rewrite !orb_false_iff. repeat split;
    first [apply eqb_nan | apply cmp_nan]; reflexivity.
Qed.

(** X1: on every indicator frame and at every position, the enter-long flag
    is up exactly when the twelve conditions of the long rule hold there. *)
Theorem enter_long_iff p (h : gmap nat DataFrame) r df :
  h !! r = Some df -> indicator_frame df ->
  exists h' df', populate_entry_trend p h r = Some (h', r) /\
    h' !! r = Some df' /\
    forall i, flag df' "enter_long" i = true <->
      eqb (value df "macd_cross" i) (of_Z 1) = true /\
      gt (value df "volume_ratio" i) (volume_factor p) = true /\
      gt (value df "price_momentum" i) (lit 1 100) = true /\
      lt (value df "rsi" i) (of_Z (rsi_overbought p)) = true /\
      gt (value df "rsi" i) (of_Z (rsi_oversold p)) = true /\
      gt (value df "close" i) (value df "ema_20" i) = true /\
      gt (value df "adx" i) (of_Z 25) = true /\
      lt (value df "stoch_k" i) (of_Z 80) = true /\
      lt (value df "stoch_d" i) (of_Z 80) = true /\
      gt (value df "williams_r" i) (of_Z (-20)) = true /\
      lt (value df "cci" i) (of_Z 100) = true /\
      lt (value df "bb_percent" i) (lit 8 10) = true.
Proof.
  intros Hr (Hwf & Hcols & Hsig).
  destruct (entry_trend_spec p df Hwf Hcols) as (df' & He & _ & _ & _ & _ & Hl & _).
  unfold signal_columns in Hsig. decompose_Forall_hyps.
  exists (<[r := df']> h), df'.
  split; [by eapply populate_entry_trend_frame|].
  split; [by rewrite lookup_insert_eq|].
  intros i. rewrite Hl by done. unfold long_entry_at.
  rewrite !andb_true_iff. tauto.
Qed.

Lemma enter_long_iff_witness :
  exists h' df', populate_entry_trend default_parameters {[0 := quiet_frame]} 0
      = Some (h', 0) /\
    h' !! 0 = Some df' /\
    forall i, flag df' "enter_long" i = true <->
      eqb (value quiet_frame "macd_cross" i) (of_Z 1) = true /\
      gt (value quiet_frame "volume_ratio" i) (volume_factor default_parameters) = true /\
      gt (value quiet_frame "price_momentum" i) (lit 1 100) = true /\
      lt (value quiet_frame "rsi" i) (of_Z (rsi_overbought default_parameters)) = true /\
      gt (value quiet_frame "rsi" i) (of_Z (rsi_oversold default_parameters)) = true /\
      gt (value quiet_frame "close" i) (value quiet_frame "ema_20" i) = true /\
      gt (value quiet_frame "adx" i) (of_Z 25) = true /\
      lt (value quiet_frame "stoch_k" i) (of_Z 80) = true /\
      lt (value quiet_frame "stoch_d" i) (of_Z 80) = true /\
      gt (value quiet_frame "williams_r" i) (of_Z (-20)) = true /\
      lt (value quiet_frame "cci" i) (of_Z 100) = true /\
      lt (value quiet_frame "bb_percent" i) (lit 8 10) = true.
Proof.
  apply (enter_long_iff default_parameters {[0 := quiet_frame]} 0 quiet_frame).
  - reflexivity.
  - by_compute.
Defined.

(** X2: on every indicator frame and at every position, the exit-long flag
    is up exactly when one of the eight conditions of the long exit holds
    there. *)
Theorem exit_long_iff p (h : gmap nat DataFrame) r df :
  h !! r = Some df -> indicator_frame df ->
  exists h' df', populate_exit_trend p h r = Some (h', r) /\
    h' !! r = Some df' /\
    forall i, flag df' "exit_long" i = true <->
      eqb (value df "macd_cross_down" i) (of_Z 1) = true \/
      gt (value df "rsi" i) (of_Z (rsi_overbought p)) = true \/
      gt (value df "bb_percent" i) (lit 9 10) = true \/
      gt (value df "stoch_k" i) (of_Z 80) = true \/
      gt (value df "stoch_d" i) (of_Z 80) = true \/
      lt (value df "williams_r" i) (of_Z (-20)) = true \/
      gt (value df "cci" i) (of_Z 100) = true \/
      lt (value df "price_momentum" i) (neg (lit 2 100)) = true.
Proof.
  intros Hr (Hwf & Hcols & Hsig).
  destruct (exit_trend_spec p df Hwf Hcols) as (df' & He & Hn & Hwf' & _ & Hl & _).
  unfold signal_columns in Hsig. decompose_Forall_hyps.
  exists (<[r := df']> h), df'.
  split; [by eapply populate_exit_trend_frame|].
  split; [by rewrite lookup_insert_eq|].
  intros i.
  assert (flag df' "exit_long" i = long_exit_at p df i) as ->.
  { destruct (decide (i < nrows df)) as [Hi|Hi]; [by apply Hl|].
    rewrite flag_ge, long_exit_at_ge by (done || lia). done. }
  unfold long_exit_at. rewrite !orb_true_iff. tauto.
Qed.

Lemma exit_long_iff_witness :
  exists h' df', populate_exit_trend default_parameters {[0 := quiet_frame]} 0
      = Some (h', 0) /\
    h' !! 0 = Some df' /\
    forall i, flag df' "exit_long" i = true <->
      eqb (value quiet_frame "macd_cross_down" i) (of_Z 1) = true \/
      gt (value quiet_frame "rsi" i) (of_Z (rsi_overbought default_parameters)) = true \/
      gt (value quiet_frame "bb_percent" i) (lit 9 10) = true \/
      gt (value quiet_frame "stoch_k" i) (of_Z 80) = true \/
      gt (value quiet_frame "stoch_d" i) (of_Z 80) = true \/
      lt (value quiet_frame "williams_r" i) (of_Z (-20)) = true \/
      gt (value quiet_frame "cci" i) (of_Z 100) = true \/
      lt (value quiet_frame "price_momentum" i) (neg (lit 2 100)) = true.
Proof.
  apply (exit_long_iff default_parameters {[0 := quiet_frame]} 0 quiet_frame).
  - reflexivity.
  - by_compute.
Defined.

(** X3: on every indicator frame and at every position, the exit-short flag
    is up exactly when one of the eight conditions of the short exit holds
    there. *)
Theorem exit_short_iff p (h : gmap nat DataFrame) r df :
  h !! r = Some df -> indicator_frame df ->
  exists h' df', populate_exit_trend p h r = Some (h', r) /\
    h' !! r = Some df' /\
    forall i, flag df' "exit_short" i = true <->
      eqb (value df "macd_cross" i) (of_Z 1) = true \/
      lt (value df "rsi" i) (of_Z (rsi_oversold p)) = true \/
      lt (value df "bb_percent" i) (lit 1 10) = true \/
      lt (value df "stoch_k" i) (of_Z 20) = true \/
      lt (value df "stoch_d" i) (of_Z 20) = true \/
      gt (value df "williams_r" i) (of_Z (-80)) = true \/
      lt (value df "cci" i) (of_Z (-100)) = true \/
      gt (value df "price_momentum" i) (lit 2 100) = true.
Proof.
  intros Hr (Hwf & Hcols & Hsig).
  destruct (exit_trend_spec p df Hwf Hcols) as (df' & He & Hn & Hwf' & _ & _ & Hs).
  unfold signal_columns in Hsig. decompose_Forall_hyps.
  exists (<[r := df']> h), df'.
  split; [by eapply populate_exit_trend_frame|].
  split; [by rewrite lookup_insert_eq|].
  intros i.
  assert (flag df' "exit_short" i = short_exit_at p df i) as ->.
  { destruct (decide (i < nrows df)) as [Hi|Hi]; [by apply Hs|].
    rewrite flag_ge, short_exit_at_ge by (done || lia). done. }
  unfold short_exit_at. rewrite !orb_true_iff. tauto.
Qed.

Lemma exit_short_iff_witness :
  exists h' df', populate_exit_trend default_parameters {[0 := quiet_frame]} 0
      = Some (h', 0) /\
    h' !! 0 = Some df' /\
    forall i, flag df' "exit_short" i = true <->
      eqb (value quiet_frame "macd_cross" i) (of_Z 1) = true \/
      lt (value quiet_frame "rsi" i) (of_Z (rsi_oversold default_parameters)) = true \/
      lt (value quiet_frame "bb_percent" i) (lit 1 10) = true \/
      lt (value quiet_frame "stoch_k" i) (of_Z 20) = true \/
      lt (value quiet_frame "stoch_d" i) (of_Z 20) = true \/
      gt (value quiet_frame "williams_r" i) (of_Z (-80)) = true \/
      lt (value quiet_frame "cci" i) (of_Z (-100)) = true \/
      gt (value quiet_frame "price_momentum" i) (lit 2 100) = true.
Proof.
  apply (exit_short_iff default_parameters {[0 := quiet_frame]} 0 quiet_frame).
  - reflexivity.
  - by_compute.
Defined.

Lemma long_entry_at_nan p df i c :
  c ∈ long_entry_columns -> is_nan (value df c i) = true ->
  long_entry_at p df i = false.
Proof.
  intros Hc Hnan. apply not_true_iff_false. unfold long_entry_at.
  rewrite !andb_true_iff. intros H. destruct_and!.
  unfold long_entry_columns in Hc. rewrite !elem_of_cons in Hc.
  destruct Hc as [->|[->|[->|[->|[->|[->|[->|[->|[->|[->|[->|[->|Hc]]]]]]]]]]]];
    [..|by apply not_elem_of_nil in Hc]; nan_contra Hnan.
Qed.

Lemma short_entry_at_nan p df i c :
  c ∈ short_entry_columns -> is_nan (value df c i) = true ->
  short_entry_at p df i = false.
Proof.
  intros Hc Hnan. apply not_true_iff_false. unfold short_entry_at.
  rewrite !andb_true_iff. intros H. destruct_and!.
  unfold short_entry_columns in Hc. rewrite !elem_of_cons in Hc.
  destruct Hc as [->|[->|[->|[->|[->|[->|[->|[->|[->|[->|[->|[->|Hc]]]]]]]]]]]];
    [..|by apply not_elem_of_nil in Hc]; nan_contra Hnan.
Qed.

(** X4: an entry flag is never raised at a position where one of the values
    its rule reads is NaN. *)
Theorem entry_needs_defined_values p (h : gmap nat DataFrame) r df :
  h !! r = Some df -> indicator_frame df ->
  exists h' df', populate_entry_trend p h r = Some (h', r) /\
    h' !! r = Some df' /\
    forall i (c : string), is_nan (value df c i) = true ->
      (c ∈ long_entry_columns -> flag df' "enter_long" i = false) /\
      (c ∈ short_entry_columns -> flag df' "enter_short" i = false).
Proof.
  intros Hr (Hwf & Hcols & Hsig).
  destruct (entry_trend_spec p df Hwf Hcols) as (df' & He & _ & _ & _ & _ & Hl & Hs).
  unfold signal_columns in Hsig. decompose_Forall_hyps.
  exists (<[r := df']> h), df'.
  split; [by eapply populate_entry_trend_frame|].
  split; [by rewrite lookup_insert_eq|].
  intros i c Hnan. rewrite Hl, Hs by done. split; intros Hc.
  - by eapply long_entry_at_nan.
  - by eapply short_entry_at_nan.
Qed.

Lemma entry_needs_defined_values_witness :
  exists h' df', populate_entry_trend default_parameters {[0 := warmup_frame]} 0
      = Some (h', 0) /\
    h' !! 0 = Some df' /\
    forall i (c : string), is_nan (value warmup_frame c i) = true ->
      (c ∈ long_entry_columns -> flag df' "enter_long" i = false) /\
      (c ∈ short_entry_columns -> flag df' "enter_short" i = false).
Proof.
  apply (entry_needs_defined_values default_parameters {[0 := warmup_frame]} 0
           warmup_frame).
  - reflexivity.
  - by_compute.
Defined.

(** ** What [.loc[mask, column] = 1] writes *)

Lemma loc_set_cell df (m : Mask) c v i (b : bool) :
  well_formed df -> i < nrows df -> m !! i = Some b ->
  cell (Pd.loc_set df m c v) c i
  = Some (if b then v else default nan (cell df c i)).
Proof.
  intros Hwf Hi Hm. unfold cell, Pd.loc_set. simpl.
  rewrite lookup_insert_eq. simpl. rewrite lookup_zip_with, Hm. simpl.
  destruct (columns df !! c) as [s|] eqn:Hc; simpl.
  - destruct (lookup_lt_is_Some_2 s i) as [x Hx].
    { by rewrite (well_formed_length df c s). }
    by rewrite Hx.
  - by rewrite lookup_replicate_2.
Qed.

Lemma cell_loc_set_other df m c v c' i :
  c <> c' -> cell (Pd.loc_set df m c v) c' i = cell df c' i.
Proof. intros. unfold cell. by rewrite loc_set_other. Qed.

Section Cells.
Variable p : StrategyParameters.
Variable df : DataFrame.
Hypothesis Hwf : well_formed df.
Hypothesis Hcols : Forall (fun c => is_Some (columns df !! c)) indicator_columns.

Lemma entry_trend_cells :
  exists df', entry_trend p df = Some df' /\
    forall i, i < nrows df ->
      cell df' "enter_long" i
      = Some (if long_entry_at p df i then of_Z 1
              else default nan (cell df "enter_long" i)) /\
      cell df' "enter_short" i
      = Some (if short_entry_at p df i then of_Z 1
              else default nan (cell df "enter_short" i)).
Proof.
  destruct (long_entry_mask_at p df Hwf Hcols) as (m1 & H1 & L1 & P1).
  destruct (short_entry_mask_at p df Hwf Hcols) as (m2 & H2 & L2 & P2).
  unfold entry_trend. rewrite H1. cbn [mbind option_bind].
  destruct (masks_loc_set p df m1 "enter_long" (of_Z 1)) as (_ & -> & _).
  { unfold signal_columns. rewrite !elem_of_cons. auto. }
  rewrite H2. cbn [mbind option_bind]. eexists. split; [reflexivity|].
  intros i Hi. split.
  - rewrite cell_loc_set_other by done. by apply loc_set_cell; auto.
  - rewrite (loc_set_cell _ _ _ _ i (short_entry_at p df i));
      [|by apply loc_set_well_formed|done|by apply P2].
    by rewrite cell_loc_set_other.
Qed.

Lemma exit_trend_cells :
  exists df', exit_trend p df = Some df' /\
    forall i, i < nrows df ->
      cell df' "exit_long" i
      = Some (if long_exit_at p df i then of_Z 1
              else default nan (cell df "exit_long" i)) /\
      cell df' "exit_short" i
      = Some (if short_exit_at p df i then of_Z 1
              else default nan (cell df "exit_short" i)).
Proof.
  destruct (long_exit_mask_at p df Hwf Hcols) as (m1 & H1 & L1 & P1).
  destruct (short_exit_mask_at p df Hwf Hcols) as (m2 & H2 & L2 & P2).
  unfold exit_trend. rewrite H1. cbn [mbind option_bind].
  destruct (masks_loc_set p df m1 "exit_long" (of_Z 1)) as (_ & _ & _ & ->).
  { unfold signal_columns. rewrite !elem_of_cons. auto. }
  rewrite H2. cbn [mbind option_bind]. eexists. split; [reflexivity|].
  intros i Hi. split.
  - rewrite cell_loc_set_other by done. by apply loc_set_cell; auto.
  - rewrite (loc_set_cell _ _ _ _ i (short_exit_at p df i));
      [|by apply loc_set_well_formed|done|by apply P2].
    by rewrite cell_loc_set_other.
Qed.
End Cells.



Lemma flag_cell df c i x : cell df c i = Some x -> flag df c i = eqb x (of_Z 1).
Proof. unfold flag. by intros ->. Qed.

(** X6: the signal methods never lower a flag: whatever is raised in a signal
    column of the frame they are given is still raised afterwards. *)
Theorem signal_flags_never_lowered p (h : gmap nat DataFrame) r df :
  h !! r = Some df -> well_formed df ->
  Forall (fun c => is_Some (columns df !! c)) indicator_columns ->
  (exists df', populate_entry_trend p h r = Some (<[r := df']> h, r) /\
     forall i, (flag df "enter_long" i = true -> flag df' "enter_long" i = true) /\
               (flag df "enter_short" i = true -> flag df' "enter_short" i = true)) /\
  (exists df', populate_exit_trend p h r = Some (<[r := df']> h, r) /\
     forall i, (flag df "exit_long" i = true -> flag df' "exit_long" i = true) /\
               (flag df "exit_short" i = true -> flag df' "exit_short" i = true)).
Proof.
  intros Hr Hwf Hcols.
  assert (forall c i (b : bool) df',
            cell df' c i = Some (if b then of_Z 1 else default nan (cell df c i)) ->
            flag df c i = true -> flag df' c i = true) as Hkeep.
  { intros c i b df' Hcell Hf. rewrite (flag_cell _ _ _ _ Hcell).
    destruct b; [by vm_compute|]. unfold flag in Hf.
    by destruct (cell df c i). }
  split.
  - destruct (entry_trend_cells p df Hwf Hcols) as (df' & He & Hcell).
    exists df'. split; [by eapply populate_entry_trend_frame|].
    intros i. split; intros Hf; pose proof (flag_lt _ _ _ Hf Hwf) as Hi;
      destruct (Hcell i Hi) as [H1 H2]; by eapply Hkeep.
  - destruct (exit_trend_cells p df Hwf Hcols) as (df' & He & Hcell).
    exists df'. split; [by eapply populate_exit_trend_frame|].
    intros i. split; intros Hf; pose proof (flag_lt _ _ _ Hf Hwf) as Hi;
      destruct (Hcell i Hi) as [H1 H2]; by eapply Hkeep.
Qed.

Lemma signal_flags_never_lowered_witness :
  (exists df', populate_entry_trend default_parameters {[0 := flagged_frame]} 0
       = Some (<[0 := df']> {[0 := flagged_frame]}, 0) /\
     forall i, (flag flagged_frame "enter_long" i = true -> flag df' "enter_long" i = true) /\
               (flag flagged_frame "enter_short" i = true ->
                flag df' "enter_short" i = true)) /\
  (exists df', populate_exit_trend default_parameters {[0 := flagged_frame]} 0
       = Some (<[0 := df']> {[0 := flagged_frame]}, 0) /\
     forall i, (flag flagged_frame "exit_long" i = true -> flag df' "exit_long" i = true) /\
               (flag flagged_frame "exit_short" i = true ->
                flag df' "exit_short" i = true)).
Proof.
  apply (signal_flags_never_lowered default_parameters {[0 := flagged_frame]} 0
           flagged_frame).
  - reflexivity.
  - by_compute.
  - by_compute.
Defined.

(** ** Running the signal methods twice, and in either order *)

Lemma loc_update_idem (m : Mask) v (old : Series) :
  zip_with (fun (b : bool) o => if b then v else o) m
    (zip_with (fun (b : bool) o => if b then v else o) m old)
  = zip_with (fun (b : bool) o => if b then v else o) m old.
Proof.
  revert old. induction m as [|b m IH]; intros [|o old]; simpl; try done.
  rewrite IH. by destruct b.
Qed.

Lemma loc_set_idem df m c v :
  Pd.loc_set (Pd.loc_set df m c v) m c v = Pd.loc_set df m c v.
Proof.
  unfold Pd.loc_set. simpl. f_equal.
  rewrite lookup_insert_eq, insert_insert_eq. simpl. by rewrite loc_update_idem.
Qed.

Lemma loc_set_commute df m c v m' c' v' :
  c <> c' ->
  Pd.loc_set (Pd.loc_set df m c v) m' c' v'
  = Pd.loc_set (Pd.loc_set df m' c' v') m c v.
Proof.
  intros Hne. unfold Pd.loc_set. simpl. f_equal.
  rewrite !lookup_insert_ne by done. by apply insert_insert_ne.
Qed.

(** The two methods in terms of the masks of the frame they start from. *)
Lemma entry_trend_masks p df :
  entry_trend p df
  = (m1 ← long_entry_mask p df; m2 ← short_entry_mask p df;
     Some (Pd.loc_set (Pd.loc_set df m1 "enter_long" (of_Z 1))
             m2 "enter_short" (of_Z 1))).
Proof.
  unfold entry_trend. destruct (long_entry_mask p df) as [m1|]; [|done].
  cbn [mbind option_bind].
  destruct (masks_loc_set p df m1 "enter_long" (of_Z 1)) as (_ & -> & _); [|done].
  unfold signal_columns. rewrite !elem_of_cons. auto.
Qed.

Lemma exit_trend_masks p df :
  exit_trend p df
  = (m1 ← long_exit_mask p df; m2 ← short_exit_mask p df;
     Some (Pd.loc_set (Pd.loc_set df m1 "exit_long" (of_Z 1))
             m2 "exit_short" (of_Z 1))).
Proof.
  unfold exit_trend. destruct (long_exit_mask p df) as [m1|]; [|done].
  cbn [mbind option_bind].
  destruct (masks_loc_set p df m1 "exit_long" (of_Z 1)) as (_ & _ & _ & ->); [|done].
  unfold signal_columns. rewrite !elem_of_cons. auto.
Qed.

Lemma masks_loc_set2 p df m c v m' c' v' :
  c ∈ signal_columns -> c' ∈ signal_columns ->
  long_entry_mask p (Pd.loc_set (Pd.loc_set df m c v) m' c' v') = long_entry_mask p df /\
  short_entry_mask p (Pd.loc_set (Pd.loc_set df m c v) m' c' v') = short_entry_mask p df /\
  long_exit_mask p (Pd.loc_set (Pd.loc_set df m c v) m' c' v') = long_exit_mask p df /\
  short_exit_mask p (Pd.loc_set (Pd.loc_set df m c v) m' c' v') = short_exit_mask p df.
Proof.
  intros Hc Hc'.
  destruct (masks_loc_set p (Pd.loc_set df m c v) m' c' v' Hc') as (-> & -> & -> & ->).
  by apply masks_loc_set.
Qed.

Lemma entry_trend_idem p df df' :
  entry_trend p df = Some df' -> entry_trend p df' = Some df'.
Proof.
  rewrite entry_trend_masks.
  destruct (long_entry_mask p df) as [m1|] eqn:H1; [|done].
  destruct (short_entry_mask p df) as [m2|] eqn:H2; [|done].
  cbn [mbind option_bind]. intros Heq. apply (inj Some) in Heq. subst df'.
  rewrite entry_trend_masks.
  destruct (masks_loc_set2 p df m1 "enter_long" (of_Z 1) m2 "enter_short" (of_Z 1))
    as (-> & -> & _); [unfold signal_columns; rewrite !elem_of_cons; auto..|].
  rewrite H1, H2. cbn [mbind option_bind]. f_equal.
  rewrite (loc_set_commute (Pd.loc_set df m1 "enter_long" (of_Z 1))) by done.
  by rewrite !loc_set_idem.
Qed.

Lemma exit_trend_idem p df df' :
  exit_trend p df = Some df' -> exit_trend p df' = Some df'.
Proof.
  rewrite exit_trend_masks.
  destruct (long_exit_mask p df) as [m1|] eqn:H1; [|done].
  destruct (short_exit_mask p df) as [m2|] eqn:H2; [|done].
  cbn [mbind option_bind]. intros Heq. apply (inj Some) in Heq. subst df'.
  rewrite exit_trend_masks.
  destruct (masks_loc_set2 p df m1 "exit_long" (of_Z 1) m2 "exit_short" (of_Z 1))
    as (_ & _ & -> & ->); [unfold signal_columns; rewrite !elem_of_cons; auto..|].
  rewrite H1, H2. cbn [mbind option_bind]. f_equal.
  rewrite (loc_set_commute (Pd.loc_set df m1 "exit_long" (of_Z 1))) by done.
  by rewrite !loc_set_idem.
Qed.

(** X7: running a signal method a second time on the frame it returned
    changes nothing: two runs give what one run gives (an exception
    included). *)
Theorem signal_methods_idempotent p (h : gmap nat DataFrame) r :
  (populate_entry_trend p h r ≫= (fun '(h1, r1) => populate_entry_trend p h1 r1))
    = populate_entry_trend p h r /\
  (populate_exit_trend p h r ≫= (fun '(h1, r1) => populate_exit_trend p h1 r1))
    = populate_exit_trend p h r.
Proof.
  split.
  - unfold populate_entry_trend.
    destruct (h !! r) as [df|] eqn:Hr; [|done]. cbn [mbind option_bind].
    destruct (entry_trend p df) as [df'|] eqn:He; [|done]. cbn [mbind option_bind].
    rewrite lookup_insert_eq. cbn [mbind option_bind].
    rewrite (entry_trend_idem p df df' He). cbn [mbind option_bind].
    by rewrite insert_insert_eq.
  - unfold populate_exit_trend.
    destruct (h !! r) as [df|] eqn:Hr; [|done]. cbn [mbind option_bind].
    destruct (exit_trend p df) as [df'|] eqn:He; [|done]. cbn [mbind option_bind].
    rewrite lookup_insert_eq. cbn [mbind option_bind].
    rewrite (exit_trend_idem p df df' He). cbn [mbind option_bind].
    by rewrite insert_insert_eq.
Qed.

Lemma entry_exit_commute p df :
  entry_trend p df ≫= exit_trend p = exit_trend p df ≫= entry_trend p.
Proof.
  assert (forall m c v m' c' v', c ∈ signal_columns -> c' ∈ signal_columns ->
            entry_trend p (Pd.loc_set (Pd.loc_set df m c v) m' c' v')
            = (m1 ← long_entry_mask p df; m2 ← short_entry_mask p df;
               Some (Pd.loc_set (Pd.loc_set
                       (Pd.loc_set (Pd.loc_set df m c v) m' c' v')
                       m1 "enter_long" (of_Z 1)) m2 "enter_short" (of_Z 1))))
    as Hentry.
  { intros m c v m' c' v' Hc Hc'. rewrite entry_trend_masks.
    by destruct (masks_loc_set2 p df m c v m' c' v' Hc Hc') as (-> & -> & _). }
  assert (forall m c v m' c' v', c ∈ signal_columns -> c' ∈ signal_columns ->
            exit_trend p (Pd.loc_set (Pd.loc_set df m c v) m' c' v')
            = (m1 ← long_exit_mask p df; m2 ← short_exit_mask p df;
               Some (Pd.loc_set (Pd.loc_set
                       (Pd.loc_set (Pd.loc_set df m c v) m' c' v')
                       m1 "exit_long" (of_Z 1)) m2 "exit_short" (of_Z 1))))
    as Hexit.
  { intros m c v m' c' v' Hc Hc'. rewrite exit_trend_masks.
    by destruct (masks_loc_set2 p df m c v m' c' v' Hc Hc') as (_ & _ & -> & ->). }
  assert (forall c, c = "enter_long" \/ c = "enter_short" \/ c = "exit_long"
                    \/ c = "exit_short" -> c ∈ signal_columns) as Hin.
  { intros c Hc. unfold signal_columns. rewrite !elem_of_cons. tauto. }
  rewrite (entry_trend_masks p df), (exit_trend_masks p df).
  destruct (long_entry_mask p df) as [m1|] eqn:H1,
           (short_entry_mask p df) as [m2|] eqn:H2,
           (long_exit_mask p df) as [x1|] eqn:H3,
           (short_exit_mask p df) as [x2|] eqn:H4;
    cbn [mbind option_bind];
    rewrite ?Hentry, ?Hexit by (apply Hin; auto);
    rewrite ?H1, ?H2, ?H3, ?H4; cbn [mbind option_bind]; try done.
  f_equal. unfold Pd.loc_set. cbn [nrows columns]. f_equal.
  rewrite !lookup_insert_ne by done.
  apply map_eq. intros c.
  destruct (decide (c = "enter_long")) as [->|]; [by lookup_columns|].
  destruct (decide (c = "enter_short")) as [->|]; [by lookup_columns|].
  destruct (decide (c = "exit_long")) as [->|]; [by lookup_columns|].
  destruct (decide (c = "exit_short")) as [->|]; [by lookup_columns|].
  by rewrite !lookup_insert_ne by done.
Qed.

(** X8: the entry method followed by the exit method gives, up to the order
    of the columns, the frame that the exit method followed by the entry
    method gives, or raises when that one raises.  A [DataFrame] records its
    columns as a finite map from names to values and no order among them, so
    the equality below says: the same object returned, and in every object of
    the store the same number of rows, the same column names and the same
    value in every cell.  (In pandas the four signal columns are appended in
    the order they are first written, which is the one thing that differs
    between the two call orders.) *)
Theorem signal_methods_commute p (h : gmap nat DataFrame) r :
  (populate_entry_trend p h r ≫= (fun '(h1, r1) => populate_exit_trend p h1 r1))
  = (populate_exit_trend p h r ≫= (fun '(h1, r1) => populate_entry_trend p h1 r1)).
Proof.
  unfold populate_entry_trend, populate_exit_trend.
  destruct (h !! r) as [df|] eqn:Hr; [|done]. cbn [mbind option_bind].
  pose proof (entry_exit_commute p df) as Hcomm.
  destruct (entry_trend p df) as [d1|] eqn:He, (exit_trend p df) as [d2|] eqn:Hx;
    cbn [mbind option_bind] in *; rewrite ?lookup_insert_eq;
    cbn [mbind option_bind].
  - rewrite Hcomm. destruct (entry_trend p d2); cbn [mbind option_bind]; [|done].
    by rewrite !insert_insert_eq.
  - by rewrite Hcomm.
  - by rewrite <- Hcomm.
  - done.
Qed.

(** ** Missing columns *)











(** ** The crossover flags *)

Lemma eqb_flag (b : bool) : eqb (if b then of_Z 1 else of_Z 0) (of_Z 1) = b.
Proof. by destruct b. Qed.

Lemma value_column df c s i :
  columns df !! c = Some s -> value df c i = default nan (s !! i).
Proof. unfold value, cell. by intros ->. Qed.

Section Crossovers.
Variable p : StrategyParameters.
Variable ta_MACD : DataFrame -> Z -> Z -> Z -> Series * Series * Series.
Variable ta_RSI : DataFrame -> Z -> Series.
Variable ta_BBANDS : DataFrame -> Z -> Z -> Z -> Series * Series * Series.
Variable ta_EMA : DataFrame -> Z -> Series.
Variable ta_ADX : DataFrame -> Z -> Series.
Variable ta_STOCH : DataFrame -> Z -> Z -> Z -> Series * Series.
Variable ta_WILLR : DataFrame -> Z -> Series.
Variable ta_CCI : DataFrame -> Z -> Series.
Variable window_mean : Series -> nat -> float.

(** The two flags of the frame [populate_indicators] returns, at any
    position. *)
Lemma cross_flags df df' :
  candle_frame df ->
  indicators p ta_MACD ta_RSI ta_BBANDS ta_EMA ta_ADX ta_STOCH ta_WILLR ta_CCI
    window_mean df = Some df' ->
  forall i,
    flag df' "macd_cross" i
    = (bool_decide (i < nrows df) &&
       gt (value df' "macd" i) (value df' "macdsignal" i) &&
       match i with
       | 0 => false
       | S j => le (value df' "macd" j) (value df' "macdsignal" j)
       end) /\
    flag df' "macd_cross_down" i
    = (bool_decide (i < nrows df) &&
       lt (value df' "macd" i) (value df' "macdsignal" i) &&
       match i with
       | 0 => false
       | S j => ge (value df' "macd" j) (value df' "macdsignal" j)
       end).
Proof.
  intros Hcf He i.
  destruct (indicators_frame p ta_MACD ta_RSI ta_BBANDS ta_EMA ta_ADX ta_STOCH
              ta_WILLR ta_CCI window_mean df Hcf)
    as (df2 & close & volume & macd & sig & L & M & U & He2 & Hn & Hwf' & _ & _
        & (_ & _ & Hmacd & Hsig & _) & (_ & _ & _ & _ & _ & _ & Hup & Hdown)).
  rewrite He in He2. apply (inj Some) in He2. subst df2.
  pose proof (well_formed_length df' _ _ Hwf' Hmacd) as Lm.
  pose proof (well_formed_length df' _ _ Hwf' Hsig) as Ls.
  destruct (decide (i < nrows df)) as [Hi|Hi].
  - rewrite bool_decide_true by done. cbn [andb].
    assert (i < nrows df') as Hi' by lia.
    pose proof (column_value df' _ _ i Hwf' Hmacd Hi') as Hmi.
    pose proof (column_value df' _ _ i Hwf' Hsig Hi') as Hsi.
    rewrite (flag_cell df' "macd_cross" i _
               (eq_trans (cell_column _ _ _ _ Hup)
                         (cross_up_lookup macd sig i _ _ Hmi Hsi ltac:(lia)))).
    rewrite (flag_cell df' "macd_cross_down" i _
               (eq_trans (cell_column _ _ _ _ Hdown)
                         (cross_down_lookup macd sig i _ _ Hmi Hsi ltac:(lia)))).
    rewrite !eqb_flag. destruct i as [|j]; [done|].
    by rewrite !(value_column df' _ _ j Hmacd), !(value_column df' _ _ j Hsig).
  - rewrite bool_decide_false by done. cbn [andb].
    by rewrite !flag_ge by (done || lia).
Qed.

(** X10: in the frame [populate_indicators] returns the bullish and the
    bearish crossover flag are never both 1 at a position. *)
Theorem cross_flags_exclusive (h : gmap nat DataFrame) r df :
  h !! r = Some df -> candle_frame df ->
  exists df',
    populate_indicators p ta_MACD ta_RSI ta_BBANDS ta_EMA ta_ADX ta_STOCH ta_WILLR
      ta_CCI window_mean h r = Some (<[r := df']> h, r) /\
    forall i, ~ (flag df' "macd_cross" i = true /\ flag df' "macd_cross_down" i = true).
Proof.
  intros Hr Hcf.
  destruct (indicators_frame p ta_MACD ta_RSI ta_BBANDS ta_EMA ta_ADX ta_STOCH
              ta_WILLR ta_CCI window_mean df Hcf) as (df' & ? & ? & ? & ? & ? & ? & ?
              & He & _).
  exists df'. split; [by eapply populate_indicators_frame|].
  intros i. destruct (cross_flags df df' Hcf He i) as [-> ->].
  rewrite !andb_true_iff. intros [[[_ Hgt] _] [[_ Hlt] _]].
  apply lt_asym in Hlt. unfold gt, lt in *. congruence.
Qed.

(** X11: in the frame [populate_indicators] returns, the bullish crossover
    flag is 1 at a position exactly when the position has a predecessor, MACD
    is above its signal line there and was at or below it one position
    earlier; the bearish flag is the mirror (below, and at or above before).
    Position 0 never carries a flag. *)
Theorem cross_flags_iff (h : gmap nat DataFrame) r df :
  h !! r = Some df -> candle_frame df ->
  exists df',
    populate_indicators p ta_MACD ta_RSI ta_BBANDS ta_EMA ta_ADX ta_STOCH ta_WILLR
      ta_CCI window_mean h r = Some (<[r := df']> h, r) /\
    forall i,
      (flag df' "macd_cross" i = true <->
         0 < i < nrows df /\
         gt (value df' "macd" i) (value df' "macdsignal" i) = true /\
         le (value df' "macd" (i - 1)) (value df' "macdsignal" (i - 1)) = true) /\
      (flag df' "macd_cross_down" i = true <->
         0 < i < nrows df /\
         lt (value df' "macd" i) (value df' "macdsignal" i) = true /\
         ge (value df' "macd" (i - 1)) (value df' "macdsignal" (i - 1)) = true).
Proof.
  intros Hr Hcf.
  destruct (indicators_frame p ta_MACD ta_RSI ta_BBANDS ta_EMA ta_ADX ta_STOCH
              ta_WILLR ta_CCI window_mean df Hcf) as (df' & ? & ? & ? & ? & ? & ? & ?
              & He & _).
  exists df'. split; [by eapply populate_indicators_frame|].
  intros i. destruct (cross_flags df df' Hcf He i) as [-> ->].
  rewrite !andb_true_iff, bool_decide_eq_true.
  destruct i as [|j].
  - split; split; intros H; destruct_and?; first [done|lia].
  - replace (S j - 1) with j by lia.
    split; split; intros H; destruct_and?; repeat split; first [done|lia].
Qed.
End Crossovers.

Lemma cross_flags_exclusive_witness :
  exists df',
    populate_indicators default_parameters ta_warmup3 ta_warmup1 ta_warmup3
      ta_warmup1 ta_warmup1 ta_warmup2 ta_warmup1 ta_warmup1 (mean_of_window 20)
      {[0 := five_candles]} 0 = Some (<[0 := df']> {[0 := five_candles]}, 0) /\
    forall i, ~ (flag df' "macd_cross" i = true /\ flag df' "macd_cross_down" i = true).
Proof.
  apply (cross_flags_exclusive default_parameters ta_warmup3 ta_warmup1
           ta_warmup3 ta_warmup1 ta_warmup1 ta_warmup2 ta_warmup1 ta_warmup1
           (mean_of_window 20) {[0 := five_candles]} 0 five_candles).
  - reflexivity.
  - by_compute.
Defined.

Lemma cross_flags_iff_witness :
  exists df',
    populate_indicators default_parameters ta_warmup3 ta_warmup1 ta_warmup3
      ta_warmup1 ta_warmup1 ta_warmup2 ta_warmup1 ta_warmup1 (mean_of_window 20)
      {[0 := five_candles]} 0 = Some (<[0 := df']> {[0 := five_candles]}, 0) /\
    forall i,
      (flag df' "macd_cross" i = true <->
         0 < i < nrows five_candles /\
         gt (value df' "macd" i) (value df' "macdsignal" i) = true /\
         le (value df' "macd" (i - 1)) (value df' "macdsignal" (i - 1)) = true) /\
      (flag df' "macd_cross_down" i = true <->
         0 < i < nrows five_candles /\
         lt (value df' "macd" i) (value df' "macdsignal" i) = true /\
         ge (value df' "macd" (i - 1)) (value df' "macdsignal" (i - 1)) = true).
Proof.
  apply (cross_flags_iff default_parameters ta_warmup3 ta_warmup1
           ta_warmup3 ta_warmup1 ta_warmup1 ta_warmup2 ta_warmup1 ta_warmup1
           (mean_of_window 20) {[0 := five_candles]} 0 five_candles).
  - reflexivity.
  - by_compute.
Defined.

(** ** The two five-candle changes *)

Lemma ffill_from_id prev (s : Series) :
  Forall (fun x => is_nan x = false) s -> Pd.ffill_from prev s = s.
Proof.
  revert prev. induction s as [|x s IH]; intros prev Hs; [done|].
  apply Forall_cons in Hs as [Hx Hs]. simpl. rewrite Hx. by rewrite IH.
Qed.

Lemma pct_change_no_nan k (s : Series) :
  Forall (fun x => is_nan x = false) s ->
  Pd.pct_change k s = Pd.ssub_scalar (Pd.sdiv s (Pd.shift k s)) (of_Z 1).
Proof. intros Hs. unfold Pd.pct_change, Pd.ffill. by rewrite ffill_from_id. Qed.

Section Pipeline.
Variable p : StrategyParameters.
Variable ta_MACD : DataFrame -> Z -> Z -> Z -> Series * Series * Series.
Variable ta_RSI : DataFrame -> Z -> Series.
Variable ta_BBANDS : DataFrame -> Z -> Z -> Z -> Series * Series * Series.
Variable ta_EMA : DataFrame -> Z -> Series.
Variable ta_ADX : DataFrame -> Z -> Series.
Variable ta_STOCH : DataFrame -> Z -> Z -> Z -> Series * Series.
Variable ta_WILLR : DataFrame -> Z -> Series.
Variable ta_CCI : DataFrame -> Z -> Series.
Variable window_mean : Series -> nat -> float.

(** X12: when no close is NaN, [populate_indicators] stores the same values
    under price_change and under price_momentum. *)
Theorem price_change_is_price_momentum (h : gmap nat DataFrame) r df close :
  h !! r = Some df -> candle_frame df ->
  columns df !! "close" = Some close ->
  Forall (fun x => is_nan x = false) close ->
  exists df',
    populate_indicators p ta_MACD ta_RSI ta_BBANDS ta_EMA ta_ADX ta_STOCH ta_WILLR
      ta_CCI window_mean h r = Some (<[r := df']> h, r) /\
    is_Some (columns df' !! "price_change") /\
    columns df' !! "price_change" = columns df' !! "price_momentum".
Proof.
  intros Hr Hcf Hc Hnan.
  destruct (indicators_frame p ta_MACD ta_RSI ta_BBANDS ta_EMA ta_ADX ta_STOCH
              ta_WILLR ta_CCI window_mean df Hcf)
    as (df' & close' & volume & macd & sig & L & M & U & He & _ & _ & _ & _
        & (Hc' & _) & (_ & _ & _ & _ & Hpc & Hpm & _)).
  rewrite Hc in Hc'. apply (inj Some) in Hc'. subst close'.
  exists df'. split; [by eapply populate_indicators_frame|].
  rewrite Hpc, Hpm. split; [by eexists|]. by rewrite pct_change_no_nan.
Qed.

(** What the signal rules need is in the frame [populate_indicators]
    returns. *)
Lemma indicators_indicator_columns df df' :
  candle_frame df ->
  indicators p ta_MACD ta_RSI ta_BBANDS ta_EMA ta_ADX ta_STOCH ta_WILLR ta_CCI
    window_mean df = Some df' ->
  nrows df' = nrows df /\ well_formed df' /\
  Forall (fun c => is_Some (columns df' !! c)) indicator_columns /\
  Forall (fun c => is_Some (columns df' !! c)) derived_columns /\
  (forall c, c ∉ derived_columns -> columns df' !! c = columns df !! c).
Proof.
  intros Hcf He.
  destruct (indicators_frame p ta_MACD ta_RSI ta_BBANDS ta_EMA ta_ADX ta_STOCH
              ta_WILLR ta_CCI window_mean df Hcf)
    as (df2 & close & volume & macd & sig & L & M & U & He2 & Hn & Hwf' & Hother
        & Hcols & (Hc & _) & _).
  rewrite He in He2. apply (inj Some) in He2. subst df2.
  split; [done|]. split; [done|]. split; [|done].
  assert (is_Some (columns df' !! "close")) as Hclose.
  { rewrite Hother; [by eexists|]. unfold derived_columns.
    rewrite !not_elem_of_cons. repeat split; try done. apply not_elem_of_nil. }
  unfold derived_columns in Hcols. unfold indicator_columns.
  rewrite !Forall_cons in Hcols. destruct_and!.
  by repeat constructor.
Qed.

Lemma entry_trend_frame p' df :
  well_formed df ->
  Forall (fun c => is_Some (columns df !! c)) indicator_columns ->
  exists df', entry_trend p' df = Some df' /\
    nrows df' = nrows df /\ well_formed df' /\
    (forall c, c <> "enter_long" -> c <> "enter_short" ->
       columns df' !! c = columns df !! c) /\
    is_Some (columns df' !! "enter_long") /\ is_Some (columns df' !! "enter_short").
Proof.
  intros Hwf Hcols.
  destruct (entry_trend_spec p' df Hwf Hcols) as (df' & He & Hn & Hwf' & Ho & Hl & _).
  exists df'. repeat split; try done.
  rewrite entry_trend_masks in He.
  destruct (long_entry_mask p' df); [|done].
  destruct (short_entry_mask p' df); [|done].
  cbn [mbind option_bind] in He. apply (inj Some) in He. subst df'.
  unfold Pd.loc_set. cbn [columns]. by rewrite lookup_insert_eq.
Qed.

Lemma exit_trend_frame p' df :
  well_formed df ->
  Forall (fun c => is_Some (columns df !! c)) indicator_columns ->
  exists df', exit_trend p' df = Some df' /\
    nrows df' = nrows df /\ well_formed df' /\
    (forall c, c <> "exit_long" -> c <> "exit_short" ->
       columns df' !! c = columns df !! c) /\
    is_Some (columns df' !! "exit_long") /\ is_Some (columns df' !! "exit_short").
Proof.
  intros Hwf Hcols.
  destruct (exit_trend_spec p' df Hwf Hcols) as (df' & He & Hn & Hwf' & Ho & _).
  exists df'. repeat split; try done;
    rewrite exit_trend_masks in He;
    (destruct (long_exit_mask p' df); [|done]);
    (destruct (short_exit_mask p' df); [|done]);
    cbn [mbind option_bind] in He; apply (inj Some) in He; subst df';
    unfold Pd.loc_set; cbn [columns]; by lookup_columns.
Qed.


(** X14: on a candle frame without signal columns, [populate_indicators]
    followed by [populate_entry_trend] raises no entry flag, long or short,
    at the first 19 positions: the 20-candle volume mean is not available
    there. *)
Theorem no_entry_during_warmup (h : gmap nat DataFrame) r df :
  h !! r = Some df -> candle_frame df ->
  Forall (fun c => columns df !! c = None) signal_columns ->
  exists df1 df2,
    populate_indicators p ta_MACD ta_RSI ta_BBANDS ta_EMA ta_ADX ta_STOCH ta_WILLR
      ta_CCI window_mean h r = Some (<[r := df1]> h, r) /\
    populate_entry_trend p (<[r := df1]> h) r = Some (<[r := df2]> h, r) /\
    forall i, i < 19 ->
      flag df2 "enter_long" i = false /\ flag df2 "enter_short" i = false.
Proof.
  intros Hr Hcf Hsig.
  destruct (indicators_frame p ta_MACD ta_RSI ta_BBANDS ta_EMA ta_ADX ta_STOCH
              ta_WILLR ta_CCI window_mean df Hcf) as (df1 & ? & ? & ? & ? & ? & ? & ?
              & He1 & _).
  destruct (indicators_indicator_columns df df1 Hcf He1)
    as (Hn1 & Hwf1 & Hcols1 & Hder1 & Ho1).
  destruct (entry_trend_spec p df1 Hwf1 Hcols1)
    as (df2 & He2 & _ & _ & _ & _ & Hl & Hs).
  exists df1, df2.
  split; [by eapply populate_indicators_frame|].
  split.
  { erewrite populate_entry_trend_frame; [|by rewrite lookup_insert_eq|exact He2].
    by rewrite insert_insert_eq. }
  unfold signal_columns in Hsig. rewrite !Forall_cons in Hsig. destruct_and!.
  assert (forall c, c = "enter_long" \/ c = "enter_short" ->
            columns df1 !! c = None) as Hfresh.
  { intros c Hc. rewrite Ho1; [by destruct Hc as [->| ->]|].
    unfold derived_columns. rewrite !not_elem_of_cons.
    destruct Hc as [->| ->]; repeat split; try done; apply not_elem_of_nil. }
  intros i Hi. rewrite Hl, Hs by auto.
  assert (is_nan (value df1 "volume_ratio" i) = true) as Hnan.
  { destruct (decide (i < nrows df)) as [Hlt|Hge].
    - destruct (indicators_warmup p ta_MACD ta_RSI ta_BBANDS ta_EMA ta_ADX ta_STOCH
                  ta_WILLR ta_CCI window_mean df df1 Hcf He1 i Hlt) as [Hw _].
      destruct (Hw Hi) as [_ Hvr]. by rewrite (cell_value _ _ _ _ Hvr).
    - by rewrite value_ge by (done || lia). }
  split.
  - eapply long_entry_at_nan; [|exact Hnan].
    unfold long_entry_columns. rewrite !elem_of_cons. auto.
  - eapply short_entry_at_nan; [|exact Hnan].
    unfold short_entry_columns. rewrite !elem_of_cons. auto.
Qed.
End Pipeline.

Lemma price_change_is_price_momentum_witness :
  exists df',
    populate_indicators default_parameters ta_warmup3 ta_warmup1 ta_warmup3
      ta_warmup1 ta_warmup1 ta_warmup2 ta_warmup1 ta_warmup1 (mean_of_window 20)
      {[0 := five_candles]} 0 = Some (<[0 := df']> {[0 := five_candles]}, 0) /\
    is_Some (columns df' !! "price_change") /\
    columns df' !! "price_change" = columns df' !! "price_momentum".
Proof.
  apply (price_change_is_price_momentum default_parameters ta_warmup3 ta_warmup1
           ta_warmup3 ta_warmup1 ta_warmup1 ta_warmup2 ta_warmup1 ta_warmup1
           (mean_of_window 20) {[0 := five_candles]} 0 five_candles
           (of_Z <$> [101; 102; 103; 104; 105]%Z)).
  - reflexivity.
  - by_compute.
  - vm_compute. reflexivity.
  - by_compute.
Defined.


Lemma no_entry_during_warmup_witness :
  exists df1 df2,
    populate_indicators default_parameters ta_warmup3 ta_warmup1 ta_warmup3
      ta_warmup1 ta_warmup1 ta_warmup2 ta_warmup1 ta_warmup1 (mean_of_window 20)
      {[0 := five_candles]} 0 = Some (<[0 := df1]> {[0 := five_candles]}, 0) /\
    populate_entry_trend default_parameters (<[0 := df1]> {[0 := five_candles]}) 0
      = Some (<[0 := df2]> {[0 := five_candles]}, 0) /\
    forall i, i < 19 ->
      flag df2 "enter_long" i = false /\ flag df2 "enter_short" i = false.
Proof.
  apply (no_entry_during_warmup default_parameters ta_warmup3 ta_warmup1
           ta_warmup3 ta_warmup1 ta_warmup1 ta_warmup2 ta_warmup1 ta_warmup1
           (mean_of_window 20) {[0 := five_candles]} 0 five_candles).
  - reflexivity.
  - by_compute.
  - by_compute.
Defined.

(** ** The TA-Lib columns *)

Section TaLibColumns.
Variable p : StrategyParameters.
Variable ta_MACD : DataFrame -> Z -> Z -> Z -> Series * Series * Series.
Variable ta_RSI : DataFrame -> Z -> Series.
Variable ta_BBANDS : DataFrame -> Z -> Z -> Z -> Series * Series * Series.
Variable ta_EMA : DataFrame -> Z -> Series.
Variable ta_ADX : DataFrame -> Z -> Series.
Variable ta_STOCH : DataFrame -> Z -> Z -> Z -> Series * Series.
Variable ta_WILLR : DataFrame -> Z -> Series.
Variable ta_CCI : DataFrame -> Z -> Series.
Variable window_mean : Series -> nat -> float.

Lemma bollinger_block_frame df close U0 M0 L0 :
  columns df !! "close" = Some close -> length close = nrows df ->
  ta_BBANDS df 20 2 2 = (U0, M0, L0) ->
  bollinger_block ta_BBANDS df
  = Some (mkDataFrame (nrows df)
      (<["bb_width" :=
           Pd.sdiv (Pd.ssub (Pd.align (nrows df) U0) (Pd.align (nrows df) L0))
                   (Pd.align (nrows df) M0)]>
      (<["bb_percent" :=
           Pd.sdiv (Pd.ssub close (Pd.align (nrows df) L0))
                   (Pd.ssub (Pd.align (nrows df) U0) (Pd.align (nrows df) L0))]>
      (<["bb_upperband" := Pd.align (nrows df) U0]>
      (<["bb_middleband" := Pd.align (nrows df) M0]>
      (<["bb_lowerband" := Pd.align (nrows df) L0]> (columns df))))))).
Proof.
  intros Hc Lc Hbb. unfold bollinger_block. rewrite Hbb.
  cbn [Pd.setitem columns nrows]. lookup_columns. rewrite Hc.
  cbn [mbind option_bind Pd.setitem columns nrows]. lookup_columns.
  cbn [mbind option_bind]. unfold Pd.setitem. cbn [columns nrows].
  repeat rewrite (align_id (nrows df) (Pd.sdiv _ _))
    by (unfold Pd.sdiv, Pd.ssub; rewrite !length_zip_with, ?length_align; lia).
  done.
Qed.


(** The frame [populate_indicators] returns holds, in each TA-Lib column,
    what TA-Lib returned for a frame with the same candles. *)
Lemma indicators_ta_columns df close volume :
  well_formed df ->
  columns df !! "close" = Some close -> columns df !! "volume" = Some volume ->
  exists df',
    indicators p ta_MACD ta_RSI ta_BBANDS ta_EMA ta_ADX ta_STOCH ta_WILLR ta_CCI
      window_mean df = Some df' /\
    ta_columns p ta_MACD ta_RSI ta_BBANDS ta_EMA ta_ADX ta_STOCH ta_WILLR ta_CCI
      df df'.
Proof.
  intros Hwf Hc Hv.
  pose proof (well_formed_length df _ _ Hwf Hc) as Lc.
  pose proof (well_formed_length df _ _ Hwf Hv) as Lv.
  destruct df as [n m]. cbn [nrows columns] in *.
  unfold indicators, ta_columns. cbn [nrows].
  (* MACD *)
  unfold macd_block.
  destruct (ta_MACD _ _ _ _) as [[macd0 sig0] hist0] eqn:Hmacd.
  cbn [Pd.setitem columns nrows fst snd].
  (* RSI *)
  unfold rsi_block. cbn [Pd.setitem columns nrows].
  match goal with |- context [ta_RSI ?d ?x] =>
    set (d_rsi := d); remember (ta_RSI d_rsi x) as rsi0 eqn:Hrsi end.
  (* Bollinger Bands *)
  match goal with |- context [bollinger_block _ ?d] => set (d_bb := d) end.
  destruct (ta_BBANDS d_bb 20 2 2) as [[U0 M0] L0] eqn:Hbb.
  erewrite (bollinger_block_frame d_bb);
    [|unfold d_bb, d_rsi; cbn [Pd.setitem columns]; by lookup_columns|done|exact Hbb].
  cbn [mbind option_bind].
  replace (nrows d_bb) with n by reflexivity.
  replace (columns d_bb)
    with (<["rsi" := Pd.align n rsi0]> (<["macdhist" := Pd.align n hist0]>
         (<["macdsignal" := Pd.align n sig0]> (<["macd" := Pd.align n macd0]> m))))
    by reflexivity.
  erewrite volume_block_spec; [|by lookup_columns|done].
  cbn [mbind option_bind].
  erewrite momentum_block_spec; [|by lookup_columns|done].
  cbn [mbind option_bind].
  (* EMA, ADX, Stochastic, Williams %R, CCI *)
  unfold ema_block. cbn [Pd.setitem columns nrows].
  match goal with |- context [ta_EMA ?d 20] =>
    set (d_e20 := d); remember (ta_EMA d_e20 20) as e20 eqn:He20 end.
  match goal with |- context [ta_EMA ?d 50] =>
    set (d_e50 := d); remember (ta_EMA d_e50 50) as e50 eqn:He50 end.
  unfold adx_block. cbn [Pd.setitem columns nrows].
  match goal with |- context [ta_ADX ?d ?x] =>
    set (d_adx := d); remember (ta_ADX d_adx x) as adx0 eqn:Hadx end.
  unfold stoch_block.
  match goal with |- context [ta_STOCH ?d _ _ _] => set (d_st := d) end.
  destruct (ta_STOCH d_st 14 3 3) as [k0 sd0] eqn:Hst.
  cbn [Pd.setitem columns nrows].
  unfold willr_block. cbn [Pd.setitem columns nrows].
  match goal with |- context [ta_WILLR ?d ?x] =>
    set (d_w := d); remember (ta_WILLR d_w x) as w0 eqn:Hw end.
  unfold cci_block. cbn [Pd.setitem columns nrows].
  match goal with |- context [ta_CCI ?d ?x] =>
    set (d_cci := d); remember (ta_CCI d_cci x) as cci0 eqn:Hcci end.
  unfold d_cci, d_w, d_st, d_adx, d_e50, d_e20, Pd.setitem. cbn [columns nrows].
  erewrite cross_block_spec;
    [|by lookup_columns|by lookup_columns|apply length_align..].
  eexists. split; [reflexivity|].
  cbn [columns nrows].
  assert (forall d', nrows d' = n ->
            (forall c, c ∈ candle_columns -> columns d' !! c = m !! c) ->
            same_candles (mkDataFrame n m) d') as Hsame.
  { intros d' Hn' Hc'. split; [done|]. apply Forall_forall. intros c Hin.
    by apply Hc'. }
  assert (forall c, c ∈ candle_columns ->
            c <> "macd" /\ c <> "macdsignal" /\ c <> "macdhist" /\ c <> "rsi" /\
            c <> "bb_lowerband" /\ c <> "bb_middleband" /\ c <> "bb_upperband" /\
            c <> "bb_percent" /\ c <> "bb_width" /\ c <> "volume_mean" /\
            c <> "volume_ratio" /\ c <> "price_change" /\ c <> "price_momentum" /\
            c <> "ema_20" /\ c <> "ema_50" /\ c <> "adx" /\ c <> "stoch_k" /\
            c <> "stoch_d" /\ c <> "williams_r" /\ c <> "cci") as Hne.
  { intros c Hin. unfold candle_columns in Hin. rewrite !elem_of_cons in Hin.
    destruct Hin as [->|[->|[->|[->|[->|Hin]]]]];
      [..|by apply not_elem_of_nil in Hin]; by repeat split. }
  split; [by lookup_columns|].
  repeat split;
    match goal with
    | |- exists _, _ => idtac
    end.
  - exists d_rsi. split; [|subst rsi0; by lookup_columns].
    apply Hsame; [reflexivity|]. intros c Hin. destruct (Hne c Hin). destruct_and!.
    unfold d_cci, d_w, d_st, d_adx, d_e50, d_e20, d_bb, d_rsi, Pd.setitem.
    cbn [columns nrows]. by rewrite !lookup_insert_ne by done.
  - exists d_bb. rewrite Hbb. cbn [fst snd]. split; [|by repeat split; lookup_columns].
    apply Hsame; [reflexivity|]. intros c Hin. destruct (Hne c Hin). destruct_and!.
    unfold d_cci, d_w, d_st, d_adx, d_e50, d_e20, d_bb, d_rsi, Pd.setitem.
    cbn [columns nrows]. by rewrite !lookup_insert_ne by done.
  - exists d_e20. split; [|subst e20; by lookup_columns].
    apply Hsame; [reflexivity|]. intros c Hin. destruct (Hne c Hin). destruct_and!.
    unfold d_cci, d_w, d_st, d_adx, d_e50, d_e20, d_bb, d_rsi, Pd.setitem.
    cbn [columns nrows]. by rewrite !lookup_insert_ne by done.
  - exists d_e50. split; [|subst e50; by lookup_columns].
    apply Hsame; [reflexivity|]. intros c Hin. destruct (Hne c Hin). destruct_and!.
    unfold d_cci, d_w, d_st, d_adx, d_e50, d_e20, d_bb, d_rsi, Pd.setitem.
    cbn [columns nrows]. by rewrite !lookup_insert_ne by done.
  - exists d_adx. split; [|subst adx0; by lookup_columns].
    apply Hsame; [reflexivity|]. intros c Hin. destruct (Hne c Hin). destruct_and!.
    unfold d_cci, d_w, d_st, d_adx, d_e50, d_e20, d_bb, d_rsi, Pd.setitem.
    cbn [columns nrows]. by rewrite !lookup_insert_ne by done.
  - exists d_st. rewrite Hst. cbn [fst snd]. split; [|by repeat split; lookup_columns].
    apply Hsame; [reflexivity|]. intros c Hin. destruct (Hne c Hin). destruct_and!.
    unfold d_cci, d_w, d_st, d_adx, d_e50, d_e20, d_bb, d_rsi, Pd.setitem.
    cbn [columns nrows]. by rewrite !lookup_insert_ne by done.
  - exists d_w. split; [|subst w0; by lookup_columns].
    apply Hsame; [reflexivity|]. intros c Hin. destruct (Hne c Hin). destruct_and!.
    unfold d_cci, d_w, d_st, d_adx, d_e50, d_e20, d_bb, d_rsi, Pd.setitem.
    cbn [columns nrows]. by rewrite !lookup_insert_ne by done.
  - exists d_cci. split; [|subst cci0; by lookup_columns].
    apply Hsame; [reflexivity|]. intros c Hin. destruct (Hne c Hin). destruct_and!.
    unfold d_cci, d_w, d_st, d_adx, d_e50, d_e20, d_bb, d_rsi, Pd.setitem.
    cbn [columns nrows]. by rewrite !lookup_insert_ne by done.
Qed.

(** X15: [populate_indicators] stores each TA-Lib column (MACD and its signal
    and histogram, RSI, the three Bollinger bands, EMA-20, EMA-50, ADX,
    stochastic %K and %D, Williams %R, CCI) as TA-Lib returns it, called with
    the strategy's periods on a frame that has the candles of the input; the
    values are aligned with the index and not altered. *)
Theorem ta_columns_stored (h : gmap nat DataFrame) r df :
  h !! r = Some df -> candle_frame df ->
  exists df',
    populate_indicators p ta_MACD ta_RSI ta_BBANDS ta_EMA ta_ADX ta_STOCH ta_WILLR
      ta_CCI window_mean h r = Some (<[r := df']> h, r) /\
    ta_columns p ta_MACD ta_RSI ta_BBANDS ta_EMA ta_ADX ta_STOCH ta_WILLR ta_CCI
      df df'.
Proof.
  intros Hr [Hwf Hcols]. rewrite !Forall_cons in Hcols.
  destruct Hcols as (_ & _ & _ & [close Hc] & [volume Hv] & _).
  destruct (indicators_ta_columns df close volume Hwf Hc Hv) as (df' & He & Hta).
  exists df'. split; [by eapply populate_indicators_frame|done].
Qed.
End TaLibColumns.

Lemma ta_columns_stored_witness :
  exists df',
    populate_indicators default_parameters ta_warmup3 ta_warmup1 ta_warmup3
      ta_warmup1 ta_warmup1 ta_warmup2 ta_warmup1 ta_warmup1 (mean_of_window 20)
      {[0 := five_candles]} 0 = Some (<[0 := df']> {[0 := five_candles]}, 0) /\
    ta_columns default_parameters ta_warmup3 ta_warmup1 ta_warmup3
      ta_warmup1 ta_warmup1 ta_warmup2 ta_warmup1 ta_warmup1 five_candles df'.
Proof.
  apply (ta_columns_stored default_parameters ta_warmup3 ta_warmup1
           ta_warmup3 ta_warmup1 ta_warmup1 ta_warmup2 ta_warmup1 ta_warmup1
           (mean_of_window 20) {[0 := five_candles]} 0 five_candles).
  - reflexivity.
  - by_compute.
Defined.

(** ** Custom stop-loss: edge cases *)

(** X16: a NaN profit never tightens the stop: every comparison with NaN is
    false, so [custom_stoploss] returns the default stop ratio at any time
    and on either side. *)
Theorem custom_stoploss_nan_profit p trade current_time current_profit :
  is_nan current_profit = true ->
  custom_stoploss p trade current_time current_profit = stoploss p.
Proof.
  intros Hnan. destruct current_profit; try discriminate Hnan.
  unfold custom_stoploss.
  destruct (total_seconds_lt _ _); [done|].
  by destruct (is_short trade).
Qed.

Lemma custom_stoploss_nan_profit_witness :
  custom_stoploss default_parameters {| open_date_utc := 0; is_short := true |}
    900000000 (div (of_Z 0) (of_Z 0)) = stoploss default_parameters.
Proof.
  apply (custom_stoploss_nan_profit default_parameters
           {| open_date_utc := 0; is_short := true |} 900000000
           (div (of_Z 0) (of_Z 0))).
  vm_compute. reflexivity.
Defined.

(** X17: the two sides mirror each other: at the same time and profit, with
    the same opening date, either both sides get the default stop ratio (with
    the same sign), or the short side gets the long side's ratio with the
    sign changed. *)
Theorem custom_stoploss_sides_mirror p opened current_time current_profit :
  let long := {| open_date_utc := opened; is_short := false |} in
  let short := {| open_date_utc := opened; is_short := true |} in
  (custom_stoploss p long current_time current_profit = stoploss p /\
   custom_stoploss p short current_time current_profit = stoploss p) \/
  (custom_stoploss p short current_time current_profit
   = neg (custom_stoploss p long current_time current_profit) /\
   gt (custom_stoploss p short current_time current_profit) (of_Z 0) = true /\
   lt (custom_stoploss p long current_time current_profit) (of_Z 0) = true).
Proof.
  intros long short. unfold custom_stoploss, long, short. cbn [open_date_utc is_short].
  destruct (total_seconds_lt _ _); [by left|].
  destruct (gt current_profit (lit 2 100)).
  { right. repeat split; vm_compute; reflexivity. }
  destruct (gt current_profit (lit 1 100)).
  { right. repeat split; vm_compute; reflexivity. }
  by left.
Qed.

(** ** Leverage: what it reads, when it raises, and its bounds *)

(** X18: with at least 20 candles [leverage] reads the close, high and low
    columns and nothing else: two frames that agree on these three columns
    get the same leverage, whatever their other columns and whatever leverage
    the host proposes. *)
Theorem leverage_reads_close_high_low p series_std df1 df2 proposed1 proposed2
    max_lev :
  20 <= nrows df1 -> 20 <= nrows df2 ->
  columns df1 !! "close" = columns df2 !! "close" ->
  columns df1 !! "high" = columns df2 !! "high" ->
  columns df1 !! "low" = columns df2 !! "low" ->
  leverage p series_std df1 proposed1 max_lev
  = leverage p series_std df2 proposed2 max_lev.
Proof.
  intros Hn1 Hn2 Hc Hh Hl. rewrite !leverage_long_history by done.
  unfold combined_volatility. by rewrite Hc, Hh, Hl.
Qed.

Lemma leverage_reads_close_high_low_witness :
  leverage default_parameters sample_std flat_frame (of_Z 10) (of_Z 20)
  = leverage default_parameters sample_std
      {| nrows := 20; columns := delete "volume" (columns flat_frame) |}
      (of_Z 3) (of_Z 20).
Proof.
  apply (leverage_reads_close_high_low default_parameters sample_std flat_frame
           {| nrows := 20; columns := delete "volume" (columns flat_frame) |}
           (of_Z 10) (of_Z 3) (of_Z 20)).
  - simpl. lia.
  - simpl. lia.
  - vm_compute. reflexivity.
  - vm_compute. reflexivity.
  - vm_compute. reflexivity.
Defined.

(** X19: on a frame of at least 20 candles [leverage] raises exactly when
    the close, the high or the low column is missing. *)
Theorem leverage_key_error p series_std df proposed_leverage max_lev :
  well_formed df -> 20 <= nrows df ->
  (leverage p series_std df proposed_leverage max_lev = None <->
   columns df !! "close" = None \/ columns df !! "high" = None \/
   columns df !! "low" = None).
Proof.
  intros Hwf Hn. rewrite leverage_long_history by done.
  destruct (columns df !! "close") as [close|] eqn:Hc.
  2:{ unfold combined_volatility. rewrite Hc. split; [by left|done]. }
  destruct (columns df !! "high") as [high|] eqn:Hh.
  2:{ unfold combined_volatility. rewrite Hc, Hh. split; [by right; left|done]. }
  destruct (columns df !! "low") as [low|] eqn:Hl.
  2:{ unfold combined_volatility. rewrite Hc, Hh, Hl. split; [by right; right|done]. }
  destruct (combined_volatility_spec series_std df close high low)
    as (last_close & _ & ->); [done|lia|done..|].
  cbn [mbind option_bind]. split; [done|].
  by intros [?|[?|?]].
Qed.

Lemma leverage_key_error_witness :
  leverage default_parameters sample_std
    {| nrows := 20; columns := delete "high" (columns flat_frame) |}
    (of_Z 10) (of_Z 20) = None.
Proof.
  apply (leverage_key_error default_parameters sample_std
           {| nrows := 20; columns := delete "high" (columns flat_frame) |}
           (of_Z 10) (of_Z 20)).
  - by_compute.
  - simpl. lia.
  - right. left. vm_compute. reflexivity.
Defined.

Lemma clamp_bounds lo x c h :
  le lo x = true -> le lo c = true ->
  le lo (py_max lo (py_min3 x c h)) = true /\
  le (py_max lo (py_min3 x c h)) x = true /\
  le (py_max lo (py_min3 x c h)) c = true.
Proof.
  intros H1 H2. unfold py_max, py_min3, py_min.
  destruct (lt c x) eqn:E1;
    match goal with |- context [lt h ?m] => destruct (lt h m) eqn:E2 end;
    match goal with |- context [gt ?m lo] => destruct (gt m lo) eqn:E3 end;
    repeat split; f64_order.
Qed.

Lemma calculated_leverage_range (b : Z) m :
  (5 <= b <= 20)%Z -> m = lit 5 10 \/ m = lit 75 100 \/ m = of_Z 1 ->
  le (of_Z 1) (mul (of_Z b) m) = true /\ le (mul (of_Z b) m) (of_Z b) = true.
Proof.
  intros Hb Hm.
  assert (Forall (fun b => Forall (fun m =>
    le (of_Z 1) (mul (of_Z b) m) = true /\ le (mul (of_Z b) m) (of_Z b) = true)
    [lit 5 10; lit 75 100; of_Z 1]) (seqZ 5 16)) as Hall by by_compute.
  rewrite Forall_forall in Hall.
  assert (b ∈ seqZ 5 16) as Hin by (apply elem_of_seqZ; lia).
  specialize (Hall b Hin). rewrite !Forall_cons in Hall.
  destruct Hall as (H1 & H2 & H3 & _).
  by destruct Hm as [->|[->| ->]].
Qed.

Lemma leverage_multiplier_values p v :
  leverage_multiplier p v = lit 5 10 \/ leverage_multiplier p v = lit 75 100 \/
  leverage_multiplier p v = of_Z 1.
Proof.
  unfold leverage_multiplier.
  destruct (gt v _); [by left|]. destruct (gt v _); [by right; left|by right; right].
Qed.

(** X20: with the parameters inside their declared ranges (base leverage
    5..20, maximum leverage 10..50) and at least 20 candles, [leverage]
    returns a number between 1 and the base leverage, and not above the
    maximum-leverage parameter, whatever the host's maximum is (NaN or a
    value below 1 included). *)
Theorem leverage_within_parameters p series_std df proposed_leverage max_lev :
  (5 <= base_leverage p <= 20)%Z -> (10 <= max_leverage p <= 50)%Z ->
  well_formed df -> 20 <= nrows df ->
  is_Some (columns df !! "close") -> is_Some (columns df !! "high") ->
  is_Some (columns df !! "low") ->
  exists result,
    leverage p series_std df proposed_leverage max_lev = Some result /\
    le (of_Z 1) result = true /\
    le result (of_Z (base_leverage p)) = true /\
    le result (of_Z (max_leverage p)) = true.
Proof.
  intros Hb Hm Hwf Hn [close Hc] [high Hh] [low Hl].
  destruct (combined_volatility_spec series_std df close high low)
    as (last_close & _ & Hcv); [done|lia|done..|].
  rewrite leverage_long_history, Hcv by done. cbn [mbind option_bind].
  eexists. split; [reflexivity|]. unfold final_leverage.
  match goal with |- context [leverage_multiplier p ?v] =>
    destruct (calculated_leverage_range (base_leverage p) _ Hb
                (leverage_multiplier_values p v)) as [Hlo Hhi]
  end.
  assert (le (of_Z 1) (of_Z (max_leverage p)) = true) as Hmax.
  { assert (Forall (fun c => le (of_Z 1) (of_Z c) = true) (seqZ 10 41)) as Hall
      by by_compute.
    rewrite Forall_forall in Hall. apply Hall. apply elem_of_seqZ. lia. }
  destruct (clamp_bounds (of_Z 1) _ (of_Z (max_leverage p)) max_lev Hlo Hmax)
    as (H1 & H2 & H3).
  split; [done|]. split; [exact (le_trans _ _ _ H2 Hhi)|done].
Qed.

(** Twenty flat candles and a host maximum that is NaN. *)
Lemma leverage_within_parameters_witness :
  exists result,
    leverage default_parameters sample_std flat_frame (of_Z 10) nan = Some result /\
    le (of_Z 1) result = true /\
    le result (of_Z (base_leverage default_parameters)) = true /\
    le result (of_Z (max_leverage default_parameters)) = true.
Proof.
  apply (leverage_within_parameters default_parameters sample_std flat_frame
           (of_Z 10) nan).
  - simpl. lia.
  - simpl. lia.
  - by_compute.
  - simpl. lia.
  - vm_compute. eexists. reflexivity.
  - vm_compute. eexists. reflexivity.
  - vm_compute. eexists. reflexivity.
Defined.

Lemma py_max_nan_l y : py_max nan y = nan.
Proof. by destruct y as [?|[]| |[] ? ?]. Qed.

Lemma py_max_nan_r x : py_max x nan = x.
Proof. by destruct x as [?|[]| |[] ? ?]. Qed.

Lemma leverage_multiplier_nan p : leverage_multiplier p nan = of_Z 1.
Proof.
  unfold leverage_multiplier.
  destruct (cmp_nan nan (volatility_threshold p) eq_refl) as (_ & _ & -> & _).
  by destruct (cmp_nan nan (mul (volatility_threshold p) (lit 7 10)) eq_refl)
    as (_ & _ & -> & _).
Qed.

(** X21: when the standard deviation of the returns is NaN, Python's [max]
    keeps it whatever the range measure is, both threshold tests fail, and
    [leverage] applies the multiplier 1.0, the one of low volatility. *)
Theorem leverage_nan_std p series_std df proposed_leverage max_lev close :
  well_formed df -> 20 <= nrows df ->
  columns df !! "close" = Some close ->
  is_Some (columns df !! "high") -> is_Some (columns df !! "low") ->
  is_nan (series_std (Pd.dropna (Pd.pct_change 1 close))) = true ->
  leverage p series_std df proposed_leverage max_lev
  = Some (py_max (of_Z 1)
            (py_min3 (mul (of_Z (base_leverage p)) (of_Z 1))
                     (of_Z (max_leverage p)) max_lev)).
Proof.
  intros Hwf Hn Hc [high Hh] [low Hl] Hnan.
  destruct (combined_volatility_spec series_std df close high low)
    as (last_close & _ & Hcv); [done|lia|done..|].
  rewrite leverage_long_history, Hcv by done. cbn [mbind option_bind].
  destruct (series_std _); try discriminate Hnan.
  change S754_nan with nan.
  by rewrite py_max_nan_l; unfold final_leverage; rewrite leverage_multiplier_nan.
Qed.

(** Twenty candles that all close at 0: every return is 0/0, none is left
    after [dropna], and the standard deviation of no value is NaN. *)
Lemma leverage_nan_std_witness :
  leverage default_parameters sample_std
    (frame_of 20 [("high", replicate 20 (of_Z 1)); ("low", replicate 20 (of_Z 0));
                  ("close", replicate 20 (of_Z 0))])
    (of_Z 10) (of_Z 20)
  = Some (py_max (of_Z 1)
            (py_min3 (mul (of_Z (base_leverage default_parameters)) (of_Z 1))
                     (of_Z (max_leverage default_parameters)) (of_Z 20))).
Proof.
  apply (leverage_nan_std default_parameters sample_std
           (frame_of 20 [("high", replicate 20 (of_Z 1)); ("low", replicate 20 (of_Z 0));
                         ("close", replicate 20 (of_Z 0))])
           (of_Z 10) (of_Z 20) (replicate 20 (of_Z 0))).
  - by_compute.
  - simpl. lia.
  - vm_compute. reflexivity.
  - vm_compute. eexists. reflexivity.
  - vm_compute. eexists. reflexivity.
  - vm_compute. reflexivity.
Defined.

(** X22: when the last close is NaN the range measure is NaN and Python's
    [max] drops it: with at least 20 candles [leverage] is computed from the
    standard deviation of the returns alone. *)
Theorem leverage_nan_last_close p series_std df proposed_leverage max_lev close :
  well_formed df -> 20 <= nrows df ->
  columns df !! "close" = Some close ->
  is_Some (columns df !! "high") -> is_Some (columns df !! "low") ->
  last close = Some nan ->
  leverage p series_std df proposed_leverage max_lev
  = Some (final_leverage p (series_std (Pd.dropna (Pd.pct_change 1 close))) max_lev).
Proof.
  intros Hwf Hn Hc [high Hh] [low Hl] Hlast.
  destruct (combined_volatility_spec series_std df close high low)
    as (last_close & Hlast' & Hcv); [done|lia|done..|].
  rewrite Hlast in Hlast'. apply (inj Some) in Hlast'. subst last_close.
  rewrite leverage_long_history, Hcv by done. cbn [mbind option_bind].
  by rewrite div_nan_r, py_max_nan_r.
Qed.

Lemma leverage_nan_last_close_witness :
  leverage default_parameters sample_std
    (frame_of 20 [("high", replicate 20 (of_Z 101)); ("low", replicate 20 (of_Z 99));
                  ("close", replicate 19 (of_Z 100) ++ [nan])])
    (of_Z 10) (of_Z 20)
  = Some (final_leverage default_parameters
            (sample_std (Pd.dropna (Pd.pct_change 1 (replicate 19 (of_Z 100) ++ [nan]))))
            (of_Z 20)).
Proof.
  apply (leverage_nan_last_close default_parameters sample_std
           (frame_of 20 [("high", replicate 20 (of_Z 101)); ("low", replicate 20 (of_Z 99));
                         ("close", replicate 19 (of_Z 100) ++ [nan])])
           (of_Z 10) (of_Z 20) (replicate 19 (of_Z 100) ++ [nan])).
  - by_compute.
  - simpl. lia.
  - vm_compute. reflexivity.
  - vm_compute. eexists. reflexivity.
  - vm_compute. eexists. reflexivity.
  - vm_compute. reflexivity.
Defined.

(** ** Informative pairs *)

(** X23: [informative_pairs] asks for every pair of the whitelist once per
    occurrence and in the whitelist's order, each at the one-hour timeframe:
    dropping the timeframes gives the whitelist back. *)
Theorem informative_pairs_whitelist (current_whitelist : list string) :
  (informative_pairs current_whitelist).*1 = current_whitelist /\
  Forall (fun x => x.2 = "1h") (informative_pairs current_whitelist).
Proof.
  unfold informative_pairs. split.
  - rewrite <- list_fmap_compose. apply list_fmap_id.
  - apply Forall_fmap. by apply Forall_true.
Qed.

(** ** Row-wise relations between the columns of the indicator frame *)

Section DerivedRows.
Variable p : StrategyParameters.
Variable ta_MACD : DataFrame -> Z -> Z -> Z -> Series * Series * Series.
Variable ta_RSI : DataFrame -> Z -> Series.
Variable ta_BBANDS : DataFrame -> Z -> Z -> Z -> Series * Series * Series.
Variable ta_EMA : DataFrame -> Z -> Series.
Variable ta_ADX : DataFrame -> Z -> Series.
Variable ta_STOCH : DataFrame -> Z -> Z -> Z -> Series * Series.
Variable ta_WILLR : DataFrame -> Z -> Series.
Variable ta_CCI : DataFrame -> Z -> Series.
Variable window_mean : Series -> nat -> float.

(** X24: in the frame [populate_indicators] leaves behind, every row
    satisfies: bb_percent = (close - bb_lowerband) / (bb_upperband -
    bb_lowerband), bb_width = (bb_upperband - bb_lowerband) / bb_middleband,
    volume_ratio = volume / volume_mean, and from the sixth row on
    price_momentum = close / (close five rows earlier) - 1, each computed in
    binary64 from the cells of that same frame. *)
Theorem derived_columns_rowwise (h : gmap nat DataFrame) r df :
  h !! r = Some df -> candle_frame df ->
  exists df',
    populate_indicators p ta_MACD ta_RSI ta_BBANDS ta_EMA ta_ADX ta_STOCH ta_WILLR
      ta_CCI window_mean h r = Some (<[r := df']> h, r) /\
    forall i, i < nrows df ->
      value df' "bb_percent" i
      = div (sub (value df' "close" i) (value df' "bb_lowerband" i))
            (sub (value df' "bb_upperband" i) (value df' "bb_lowerband" i)) /\
      value df' "bb_width" i
      = div (sub (value df' "bb_upperband" i) (value df' "bb_lowerband" i))
            (value df' "bb_middleband" i) /\
      value df' "volume_ratio" i
      = div (value df' "volume" i) (value df' "volume_mean" i) /\
      (5 <= i ->
       value df' "price_momentum" i
       = sub (div (value df' "close" i) (value df' "close" (i - 5))) (of_Z 1)).
Proof.
  intros Hr Hcf.
  destruct (indicators_frame p ta_MACD ta_RSI ta_BBANDS ta_EMA ta_ADX ta_STOCH
              ta_WILLR ta_CCI window_mean df Hcf)
    as (df' & close & volume & macd & sig & L & M & U & He & Hn & Hwf & Ho & _
        & (Hc & Hv & _ & _ & HL & HM & HU)
        & (Hbp & Hbw & Hvm & Hvr & _ & Hpm & _)).
  exists df'. split; [by eapply populate_indicators_frame|].
  intros i Hi. rewrite <- Hn in Hi.
  assert (columns df' !! "close" = Some close) as Hc'.
  { rewrite Ho; [done|]. unfold derived_columns. rewrite !elem_of_cons.
    intros Hin. repeat (destruct Hin as [Hin|Hin]; [done|]).
    by apply elem_of_nil in Hin. }
  assert (columns df' !! "volume" = Some volume) as Hv'.
  { rewrite Ho; [done|]. unfold derived_columns. rewrite !elem_of_cons.
    intros Hin. repeat (destruct Hin as [Hin|Hin]; [done|]).
    by apply elem_of_nil in Hin. }
  pose proof (column_value df' _ _ i Hwf Hc' Hi) as Ci.
  pose proof (column_value df' _ _ i Hwf Hv' Hi) as Vi.
  pose proof (column_value df' _ _ i Hwf HL Hi) as Li.
  pose proof (column_value df' _ _ i Hwf HM Hi) as Mi.
  pose proof (column_value df' _ _ i Hwf HU Hi) as Ui.
  pose proof (column_value df' _ _ i Hwf Hvm Hi) as VMi.
  split; [|split; [|split]].
  - rewrite (value_column df' "bb_percent" _ i Hbp).
    by erewrite sdiv_lookup; [|by apply ssub_lookup..].
  - rewrite (value_column df' "bb_width" _ i Hbw).
    by erewrite sdiv_lookup; [|by apply ssub_lookup|done].
  - rewrite (value_column df' "volume_ratio" _ i Hvr).
    by erewrite sdiv_lookup.
  - intros H5. rewrite (value_column df' "price_momentum" _ i Hpm).
    assert (i - 5 < nrows df') as Hi5 by lia.
    pose proof (column_value df' _ _ (i - 5) Hwf Hc' Hi5) as C5.
    pose proof (well_formed_length df' _ _ Hwf Hc') as Lc.
    unfold Pd.ssub_scalar. rewrite list_lookup_fmap.
    erewrite sdiv_lookup; [done|done|].
    rewrite shift_lookup_ge by lia. done.
Qed.
End DerivedRows.

Lemma derived_columns_rowwise_witness :
  exists df',
    populate_indicators default_parameters ta_warmup3 ta_warmup1 ta_warmup3
      ta_warmup1 ta_warmup1 ta_warmup2 ta_warmup1 ta_warmup1 (mean_of_window 20)
      {[0 := flat_frame]} 0 = Some (<[0 := df']> {[0 := flat_frame]}, 0) /\
    forall i, i < nrows flat_frame ->
      value df' "bb_percent" i
      = div (sub (value df' "close" i) (value df' "bb_lowerband" i))
            (sub (value df' "bb_upperband" i) (value df' "bb_lowerband" i)) /\
      value df' "bb_width" i
      = div (sub (value df' "bb_upperband" i) (value df' "bb_lowerband" i))
            (value df' "bb_middleband" i) /\
      value df' "volume_ratio" i
      = div (value df' "volume" i) (value df' "volume_mean" i) /\
      (5 <= i ->
       value df' "price_momentum" i
       = sub (div (value df' "close" i) (value df' "close" (i - 5))) (of_Z 1)).
Proof.
  apply (derived_columns_rowwise default_parameters ta_warmup3 ta_warmup1
           ta_warmup3 ta_warmup1 ta_warmup1 ta_warmup2 ta_warmup1 ta_warmup1
           (mean_of_window 20) {[0 := flat_frame]} 0 flat_frame).
  - reflexivity.
  - by_compute.
Defined.

(** * The frame [populate_indicators] returns on a short series *)

(** C8, as stated, fails: on twenty flat candles, fewer than the 33 MACD
    needs, TA-Lib has nothing but NaN to return; [populate_indicators]
    returns a frame of 20 rows in which [macd] and [macdsignal] are NaN at
    every position, and the two crossover flag columns, whose values are not
    available either, hold the number 0 at every position instead of the
    marker. *)
Lemma flags_zero_on_short_series :
  nrows flat_frame = 20 /\
  column_after
    (populate_indicators default_parameters ta_warmup3 ta_warmup1 ta_warmup3
       ta_warmup1 ta_warmup1 ta_warmup2 ta_warmup1 ta_warmup1 (mean_of_window 20)
       {[0 := flat_frame]} 0) "macd" = Some (replicate 20 nan) /\
  column_after
    (populate_indicators default_parameters ta_warmup3 ta_warmup1 ta_warmup3
       ta_warmup1 ta_warmup1 ta_warmup2 ta_warmup1 ta_warmup1 (mean_of_window 20)
       {[0 := flat_frame]} 0) "macdsignal" = Some (replicate 20 nan) /\
  column_after
    (populate_indicators default_parameters ta_warmup3 ta_warmup1 ta_warmup3
       ta_warmup1 ta_warmup1 ta_warmup2 ta_warmup1 ta_warmup1 (mean_of_window 20)
       {[0 := flat_frame]} 0) "macd_cross" = Some (replicate 20 (of_Z 0)) /\
  column_after
    (populate_indicators default_parameters ta_warmup3 ta_warmup1 ta_warmup3
       ta_warmup1 ta_warmup1 ta_warmup2 ta_warmup1 ta_warmup1 (mean_of_window 20)
       {[0 := flat_frame]} 0) "macd_cross_down" = Some (replicate 20 (of_Z 0)) /\
  is_nan (of_Z 0) = false.
Proof. repeat split; vm_compute; reflexivity. Qed.

Section ShortSeries.
Variable p : StrategyParameters.
Variable ta_MACD : DataFrame -> Z -> Z -> Z -> Series * Series * Series.
Variable ta_RSI : DataFrame -> Z -> Series.
Variable ta_BBANDS : DataFrame -> Z -> Z -> Z -> Series * Series * Series.
Variable ta_EMA : DataFrame -> Z -> Series.
Variable ta_ADX : DataFrame -> Z -> Series.
Variable ta_STOCH : DataFrame -> Z -> Z -> Z -> Series * Series.
Variable ta_WILLR : DataFrame -> Z -> Series.
Variable ta_CCI : DataFrame -> Z -> Series.
Variable window_mean : Series -> nat -> float.

(** The cells of the band ratios and of the crossover flags, row by row. *)
Lemma indicators_band_and_flag_cells df df' :
  candle_frame df ->
  indicators p ta_MACD ta_RSI ta_BBANDS ta_EMA ta_ADX ta_STOCH ta_WILLR ta_CCI
    window_mean df = Some df' ->
  forall i, i < nrows df ->
    (is_nan (value df' "bb_lowerband" i) || is_nan (value df' "bb_upperband" i) = true ->
     cell df' "bb_percent" i = Some nan) /\
    (is_nan (value df' "bb_lowerband" i) || is_nan (value df' "bb_middleband" i)
     || is_nan (value df' "bb_upperband" i) = true ->
     cell df' "bb_width" i = Some nan) /\
    (cell df' "macd_cross" i = Some (of_Z 0) \/ cell df' "macd_cross" i = Some (of_Z 1)) /\
    (cell df' "macd_cross_down" i = Some (of_Z 0) \/
     cell df' "macd_cross_down" i = Some (of_Z 1)) /\
    (i = 0 \/
     is_nan (value df' "macd" i) || is_nan (value df' "macdsignal" i) = true \/
     is_nan (value df' "macd" (i - 1)) || is_nan (value df' "macdsignal" (i - 1)) = true ->
     cell df' "macd_cross" i = Some (of_Z 0) /\
     cell df' "macd_cross_down" i = Some (of_Z 0)).
Proof.
  intros Hcf He i Hi.
  destruct (indicators_frame p ta_MACD ta_RSI ta_BBANDS ta_EMA ta_ADX ta_STOCH
              ta_WILLR ta_CCI window_mean df Hcf)
    as (df2 & close & volume & macd & sig & L & M & U & He2 & Hn & Hwf' & _ & _
        & (Hc & Hv & Hmacd & Hsig & HL & HM & HU)
        & (Hbp & Hbw & _ & _ & _ & _ & Hup & Hdown)).
  rewrite He in He2. apply (inj Some) in He2. subst df2.
  assert (i < nrows df') as Hi' by lia.
  pose proof (column_value df' _ _ i Hwf' HL Hi') as HLi.
  pose proof (column_value df' _ _ i Hwf' HM Hi') as HMi.
  pose proof (column_value df' _ _ i Hwf' HU Hi') as HUi.
  pose proof (column_value df' _ _ i Hwf' Hmacd Hi') as Hmi.
  pose proof (column_value df' _ _ i Hwf' Hsig Hi') as Hsi.
  pose proof (well_formed_length df' _ _ Hwf' Hmacd) as Lm.
  pose proof (well_formed_length df' _ _ Hwf' Hsig) as Ls.
  destruct Hcf as [Hwf _].
  pose proof (well_formed_length df _ _ Hwf Hc) as Lc.
  destruct (lookup_lt_is_Some_2 close i) as [c Hci]; [lia|].
  rewrite (cell_column _ _ _ _ Hbp), (cell_column _ _ _ _ Hbw),
    (cell_column _ _ _ _ Hup), (cell_column _ _ _ _ Hdown).
  rewrite (cross_up_lookup macd sig i _ _ Hmi Hsi) by lia.
  rewrite (cross_down_lookup macd sig i _ _ Hmi Hsi) by lia.
  split; [by eapply bb_percent_nan|]. split; [by eapply bb_width_nan|].
  split; [destruct (_ && _); auto|]. split; [destruct (_ && _); auto|].
  intros [->|[Hnan|Hnan]].
  - by rewrite !andb_false_r.
  - destruct (cmp_nan _ _ Hnan) as (-> & _ & -> & _). done.
  - destruct i as [|j]; [by rewrite !andb_false_r|].
    replace (S j - 1) with j in Hnan by lia.
    assert (j < nrows df') as Hj by lia.
    pose proof (column_value df' _ _ j Hwf' Hmacd Hj) as Hmj.
    pose proof (column_value df' _ _ j Hwf' Hsig Hj) as Hsj.
    rewrite Hmj, Hsj. simpl.
    destruct (cmp_nan _ _ Hnan) as (_ & -> & _ & ->).
    by rewrite !andb_false_r.
Qed.

(** C8, amended: for a candle frame of any length N, shorter than the longest
    lookback included, [populate_indicators] raises nothing and returns the
    frame with N rows: each of the 22 derived columns is there with N values
    and the other columns are as they were.  Where a value is not available
    the column holds NaN when it is computed from a rolling window or a shift
    (volume_mean and volume_ratio before position 19, price_change and
    price_momentum before position 5), bb_percent and bb_width hold NaN
    wherever a band they read is NaN, and the fourteen TA-Lib columns are
    stored as TA-Lib returns them.  The macd_cross and macd_cross_down
    columns are the exception: they never hold NaN, they hold 0 or 1, and 0 at
    position 0 and wherever MACD or its signal line is NaN at the position or
    the one before. *)
Theorem populate_indicators_length (h : gmap nat DataFrame) r df :
  h !! r = Some df -> candle_frame df ->
  exists df',
    populate_indicators p ta_MACD ta_RSI ta_BBANDS ta_EMA ta_ADX ta_STOCH ta_WILLR
      ta_CCI window_mean h r = Some (<[r := df']> h, r) /\
    nrows df' = nrows df /\
    Forall (fun c => exists s, columns df' !! c = Some s /\ length s = nrows df)
      derived_columns /\
    (forall c, c ∉ derived_columns -> columns df' !! c = columns df !! c) /\
    ta_columns p ta_MACD ta_RSI ta_BBANDS ta_EMA ta_ADX ta_STOCH ta_WILLR ta_CCI
      df df' /\
    (forall i, i < nrows df ->
       (i < 19 -> cell df' "volume_mean" i = Some nan /\
                  cell df' "volume_ratio" i = Some nan) /\
       (i < 5 -> cell df' "price_change" i = Some nan /\
                 cell df' "price_momentum" i = Some nan) /\
       (is_nan (value df' "bb_lowerband" i) || is_nan (value df' "bb_upperband" i) = true ->
        cell df' "bb_percent" i = Some nan) /\
       (is_nan (value df' "bb_lowerband" i) || is_nan (value df' "bb_middleband" i)
        || is_nan (value df' "bb_upperband" i) = true ->
        cell df' "bb_width" i = Some nan) /\
       (cell df' "macd_cross" i = Some (of_Z 0) \/ cell df' "macd_cross" i = Some (of_Z 1)) /\
       (cell df' "macd_cross_down" i = Some (of_Z 0) \/
        cell df' "macd_cross_down" i = Some (of_Z 1)) /\
       (i = 0 \/
        is_nan (value df' "macd" i) || is_nan (value df' "macdsignal" i) = true \/
        is_nan (value df' "macd" (i - 1)) || is_nan (value df' "macdsignal" (i - 1)) = true ->
        cell df' "macd_cross" i = Some (of_Z 0) /\
        cell df' "macd_cross_down" i = Some (of_Z 0))).
Proof.
  intros Hr Hcf.
  destruct (indicators_frame p ta_MACD ta_RSI ta_BBANDS ta_EMA ta_ADX ta_STOCH
              ta_WILLR ta_CCI window_mean df Hcf)
    as (df' & close & volume & macd & sig & L & M & U & He & Hn & Hwf' & Hother
        & Hcols & (Hc & Hv & _) & _).
  exists df'. split; [by eapply populate_indicators_frame|].
  split; [done|]. split.
  { eapply Forall_impl; [exact Hcols|]. intros c [s Hs]. exists s.
    split; [done|]. rewrite <- Hn. exact (well_formed_length df' c s Hwf' Hs). }
  split; [done|]. split.
  { destruct Hcf as [Hwf _].
    destruct (indicators_ta_columns p ta_MACD ta_RSI ta_BBANDS ta_EMA ta_ADX
                ta_STOCH ta_WILLR ta_CCI window_mean df close volume Hwf Hc Hv)
      as (df2 & He2 & Hta).
    rewrite He in He2. apply (inj Some) in He2. by subst df2. }
  intros i Hi.
  destruct (indicators_warmup p ta_MACD ta_RSI ta_BBANDS ta_EMA ta_ADX ta_STOCH
              ta_WILLR ta_CCI window_mean df df' Hcf He i Hi) as [Hw19 Hw5].
  split; [done|]. split; [done|].
  by apply (indicators_band_and_flag_cells df df').
Qed.
End ShortSeries.

Lemma populate_indicators_length_witness :
  exists df',
    populate_indicators default_parameters ta_warmup3 ta_warmup1 ta_warmup3
      ta_warmup1 ta_warmup1 ta_warmup2 ta_warmup1 ta_warmup1 (mean_of_window 20)
      {[0 := five_candles]} 0 = Some (<[0 := df']> {[0 := five_candles]}, 0) /\
    nrows df' = nrows five_candles /\
    Forall (fun c => exists s, columns df' !! c = Some s /\ length s = nrows five_candles)
      derived_columns /\
    (forall c, c ∉ derived_columns -> columns df' !! c = columns five_candles !! c) /\
    ta_columns default_parameters ta_warmup3 ta_warmup1 ta_warmup3 ta_warmup1
      ta_warmup1 ta_warmup2 ta_warmup1 ta_warmup1 five_candles df' /\
    (forall i, i < nrows five_candles ->
       (i < 19 -> cell df' "volume_mean" i = Some nan /\
                  cell df' "volume_ratio" i = Some nan) /\
       (i < 5 -> cell df' "price_change" i = Some nan /\
                 cell df' "price_momentum" i = Some nan) /\
       (is_nan (value df' "bb_lowerband" i) || is_nan (value df' "bb_upperband" i) = true ->
        cell df' "bb_percent" i = Some nan) /\
       (is_nan (value df' "bb_lowerband" i) || is_nan (value df' "bb_middleband" i)
        || is_nan (value df' "bb_upperband" i) = true ->
        cell df' "bb_width" i = Some nan) /\
       (cell df' "macd_cross" i = Some (of_Z 0) \/ cell df' "macd_cross" i = Some (of_Z 1)) /\
       (cell df' "macd_cross_down" i = Some (of_Z 0) \/
        cell df' "macd_cross_down" i = Some (of_Z 1)) /\
       (i = 0 \/
        is_nan (value df' "macd" i) || is_nan (value df' "macdsignal" i) = true \/
        is_nan (value df' "macd" (i - 1)) || is_nan (value df' "macdsignal" (i - 1)) = true ->
        cell df' "macd_cross" i = Some (of_Z 0) /\
        cell df' "macd_cross_down" i = Some (of_Z 0))).
Proof.
  apply (populate_indicators_length default_parameters ta_warmup3 ta_warmup1
           ta_warmup3 ta_warmup1 ta_warmup1 ta_warmup2 ta_warmup1 ta_warmup1
           (mean_of_window 20) {[0 := five_candles]} 0 five_candles).
  - reflexivity.
  - by_compute.
Defined.

(** * Frame effect of the signal methods *)

(** C9, amended: [populate_entry_trend] and [populate_exit_trend] write their
    flag columns into the frame object they are given and return that same
    object; no other object of the store changes and the frame keeps its
    length.  After the call the two flag columns of the method are in the
    frame with one value per row: 1 where the rule holds, and elsewhere the
    value the column held before, NaN if the column is new.  Every other
    column has the same values after the call as before. *)
Theorem signal_methods_frame_effect p (h : gmap nat DataFrame) r df :
  h !! r = Some df -> well_formed df ->
  Forall (fun c => is_Some (columns df !! c)) indicator_columns ->
  (exists df', populate_entry_trend p h r = Some (<[r := df']> h, r) /\
     nrows df' = nrows df /\
     (forall c, c <> "enter_long" -> c <> "enter_short" ->
        columns df' !! c = columns df !! c) /\
     (exists s, columns df' !! "enter_long" = Some s /\ length s = nrows df) /\
     (exists s, columns df' !! "enter_short" = Some s /\ length s = nrows df) /\
     (forall i, i < nrows df ->
        cell df' "enter_long" i
        = Some (if long_entry_at p df i then of_Z 1
                else default nan (cell df "enter_long" i)) /\
        cell df' "enter_short" i
        = Some (if short_entry_at p df i then of_Z 1
                else default nan (cell df "enter_short" i)))) /\
  (exists df', populate_exit_trend p h r = Some (<[r := df']> h, r) /\
     nrows df' = nrows df /\
     (forall c, c <> "exit_long" -> c <> "exit_short" ->
        columns df' !! c = columns df !! c) /\
     (exists s, columns df' !! "exit_long" = Some s /\ length s = nrows df) /\
     (exists s, columns df' !! "exit_short" = Some s /\ length s = nrows df) /\
     (forall i, i < nrows df ->
        cell df' "exit_long" i
        = Some (if long_exit_at p df i then of_Z 1
                else default nan (cell df "exit_long" i)) /\
        cell df' "exit_short" i
        = Some (if short_exit_at p df i then of_Z 1
                else default nan (cell df "exit_short" i)))).
Proof.
  intros Hr Hwf Hcols. split.
  - destruct (entry_trend_frame p df Hwf Hcols)
      as (df' & He & Hn & Hwf' & Hc & [sl Hl] & [ss Hs]).
    destruct (entry_trend_cells p df Hwf Hcols) as (df2 & He2 & Hcells).
    rewrite He in He2. apply (inj Some) in He2. subst df2.
    exists df'. split; [by eapply populate_entry_trend_frame|].
    split; [done|]. split; [done|].
    split; [exists sl; split; [done|]; rewrite <- Hn; by eapply well_formed_length|].
    split; [exists ss; split; [done|]; rewrite <- Hn; by eapply well_formed_length|].
    done.
  - destruct (exit_trend_frame p df Hwf Hcols)
      as (df' & He & Hn & Hwf' & Hc & [sl Hl] & [ss Hs]).
    destruct (exit_trend_cells p df Hwf Hcols) as (df2 & He2 & Hcells).
    rewrite He in He2. apply (inj Some) in He2. subst df2.
    exists df'. split; [by eapply populate_exit_trend_frame|].
    split; [done|]. split; [done|].
    split; [exists sl; split; [done|]; rewrite <- Hn; by eapply well_formed_length|].
    split; [exists ss; split; [done|]; rewrite <- Hn; by eapply well_formed_length|].
    done.
Qed.

(** On [quiet_frame] no entry rule holds and both exit rules do: the entry
    columns are created holding NaN, the exit columns holding 1. *)
Lemma signal_methods_frame_effect_witness :
  (exists df', populate_entry_trend default_parameters {[0 := quiet_frame]} 0
       = Some (<[0 := df']> {[0 := quiet_frame]}, 0) /\
     nrows df' = nrows quiet_frame /\
     (forall c, c <> "enter_long" -> c <> "enter_short" ->
        columns df' !! c = columns quiet_frame !! c) /\
     (exists s, columns df' !! "enter_long" = Some s /\ length s = nrows quiet_frame) /\
     (exists s, columns df' !! "enter_short" = Some s /\ length s = nrows quiet_frame) /\
     (forall i, i < nrows quiet_frame ->
        cell df' "enter_long" i
        = Some (if long_entry_at default_parameters quiet_frame i then of_Z 1
                else default nan (cell quiet_frame "enter_long" i)) /\
        cell df' "enter_short" i
        = Some (if short_entry_at default_parameters quiet_frame i then of_Z 1
                else default nan (cell quiet_frame "enter_short" i)))) /\
  (exists df', populate_exit_trend default_parameters {[0 := quiet_frame]} 0
       = Some (<[0 := df']> {[0 := quiet_frame]}, 0) /\
     nrows df' = nrows quiet_frame /\
     (forall c, c <> "exit_long" -> c <> "exit_short" ->
        columns df' !! c = columns quiet_frame !! c) /\
     (exists s, columns df' !! "exit_long" = Some s /\ length s = nrows quiet_frame) /\
     (exists s, columns df' !! "exit_short" = Some s /\ length s = nrows quiet_frame) /\
     (forall i, i < nrows quiet_frame ->
        cell df' "exit_long" i
        = Some (if long_exit_at default_parameters quiet_frame i then of_Z 1
                else default nan (cell quiet_frame "exit_long" i)) /\
        cell df' "exit_short" i
        = Some (if short_exit_at default_parameters quiet_frame i then of_Z 1
                else default nan (cell quiet_frame "exit_short" i)))).
Proof.
  apply (signal_methods_frame_effect default_parameters {[0 := quiet_frame]} 0
           quiet_frame).
  - reflexivity.
  - by_compute.
  - by_compute.
Defined.
